(** * Progression ledger of the reflection journal (src/lib/game.ts)

    A shallow embedding of the XP ledger, the level calculator, the
    statistics reconciliation and the badge engine, together with the
    properties the specification states about them.  The development also
    covers the callers of the ledger: the badge module
    (src/lib/badges.native.ts), the date and week keys, the daily quests, the
    progress model of the home screen (src/hooks/useProgress.native.ts) and
    the reward blocks of the moment form and of the daily reflections.

    Modelling conventions.
    - JavaScript numbers that hold XP amounts, counters and millisecond
      timestamps are integers in the program; they are modelled as [Z].
    - A Firestore document is a record of optional fields: [None] is a
      field that is absent from the document, and a field that can hold
      [null] has type [option (option _)].
    - The document store is explicit state; every function that touches it
      lives in the [Fire] monad, which threads the store and appends each
      read and write to a trace.
    - The wall clock ([new Date()], [serverTimestamp()]) is an explicit
      [Clock] argument. *)

From Stdlib Require Import ZArith Lia Ascii.
From stdpp Require Import gmap strings list pretty sorting.

Open Scope Z_scope.

(** ** Level calculator *)

Module Level.

Definition LEVEL_THRESHOLDS : list Z := [0; 50; 200; 600; 1500; 3500; 7500].

Definition LEVEL_NAMES : list string :=
  ["levels.beginner"; "levels.explorer"; "levels.seeker"; "levels.adept";
   "levels.navigator"; "levels.guide"; "levels.sage"]%string.

(** The body of the [for] loop of [computeLevel], run over the part of the
    table that is still ahead: [i] is the loop index and [level] the
    variable the loop assigns. *)
Fixpoint levelLoop (ths : list Z) (i : Z) (allTimeXP : Z) (level : Z) : Z :=
  match ths with
  | [] => level
  | t :: rest =>
      levelLoop rest (i + 1) allTimeXP (if allTimeXP >=? t then i + 1 else level)
  end.

Definition computeLevelWith (ths : list Z) (allTimeXP : Z) : Z :=
  Z.min (levelLoop ths 0 allTimeXP 1) (Z.of_nat (length ths)).

Definition computeLevel (allTimeXP : Z) : Z :=
  computeLevelWith LEVEL_THRESHOLDS allTimeXP.

(** [LEVEL_NAMES[Math.min(Math.max(level, 1), LEVEL_NAMES.length) - 1] || 'levels.explorer'] *)
Definition computeLevelName (level : Z) : string :=
  let idx := Z.min (Z.max level 1) (Z.of_nat (length LEVEL_NAMES)) - 1 in
  match LEVEL_NAMES !! Z.to_nat idx with
  | Some name => if String.eqb name "" then "levels.explorer"%string else name
  | None => "levels.explorer"%string
  end.

End Level.

(** ** Documents *)

(** [users/{uid}/stats/main]. *)
Record StatsDoc := mkStats {
  allTimeXP : option Z;
  weeklyXP : option Z;
  weeklyKey : option string;
  level : option Z;
  levelName : option string;
  activeBadgeId : option (option string);
  momentsCount : option Z;
  reflectionsCount : option Z;
  streakDays : option Z;
  bestStreakDays : option Z;
  journeyDay : option Z;
  journeyWeekKey : option string;
  lastMomentAt : option (option Z);
  lastReflectionAt : option (option Z);
  depthMoments : option Z;
  emotionCounts : option (gmap string Z);
  patternsViewed : option Z
}.

(** [users/{uid}/xp_events/{eventId}]. *)
Record XpEvent := mkXpEvent {
  xp_amount : Z;
  xp_createdAt : Z;
  xp_weekKey : string;
  xp_metadata : gmap string string
}.

(** [users/{uid}/moments/{id}]: the fields the engine reads. *)
Record Moment := mkMoment {
  m_createdAt : option Z;
  m_tags : option (list string);
  m_note : option string;
  m_emotion : option string
}.

(** [users/{uid}/daily_reflections/{id}]: the fields the engine reads. *)
Record Reflection := mkReflection {
  r_completed : bool;
  r_dateKey : option string;
  r_completedAt : option Z
}.

Inductive BadgeCategory :=
  getting_started | consistency | depth | emotion | insight.

Inductive BadgeCriteriaType :=
  | moments_logged
  | reflections_completed
  | tags_added
  | emotion_logged
  | patterns_viewed
  | streak_days.

(** An entry of the static catalog; the display strings ([name], [icon],
    [description]) play no part in the engine and are left out. *)
Record BadgeDefinition := mkBadge {
  b_id : string;
  b_category : BadgeCategory;
  b_criteriaType : BadgeCriteriaType;
  b_threshold : Z;
  b_emotionType : option string;
  b_xpReward : Z
}.

(** [users/{uid}/badges/{badgeId}]; every writer sets all six fields. *)
Record BadgeDoc := mkBadgeDoc {
  earned : bool;
  earnedAt : option Z;
  progressCurrent : Z;
  progressTarget : Z;
  progressText : string;
  category : BadgeCategory
}.

(** ** The document store and the [Fire] monad *)

Record Db := mkDb {
  stats : gmap string StatsDoc;
  xp_events : gmap (string * string) XpEvent;
  badges : gmap (string * string) BadgeDoc;
  (** the two activity collections are only read; a collection is kept as
      the list of (document id, data) pairs a query snapshot iterates *)
  moments : gmap string (list (string * Moment));
  daily_reflections : gmap string (list (string * Reflection))
}.

Inductive Ref :=
  | StatsRef (uid : string)
  | XpRef (uid eventId : string)
  | BadgeRef (uid badgeId : string)
  | MomentsCol (uid : string)
  | ReflectionsCol (uid : string).

Inductive Op :=
  | OpGet (r : Ref)      (* getDoc / tx.get *)
  | OpGetDocs (r : Ref)  (* getDocs *)
  | OpSet (r : Ref).     (* setDoc / tx.set / updateDoc *)

Record World := mkWorld { db : Db; trace : list Op }.

Definition Fire (A : Type) : Type := World -> A * World.

Definition ret {A} (a : A) : Fire A := fun w => (a, w).

Definition bind {A B} (m : Fire A) (k : A -> Fire B) : Fire B :=
  fun w => let (a, w') := m w in k a w'.

Declare Scope fire_scope.
Delimit Scope fire_scope with fire.
Notation "x <- m ;; k" := (bind m (fun x => k))
  (at level 100, m at next level, right associativity) : fire_scope.
Notation "m ;;; k" := (bind m (fun _ => k))
  (at level 100, right associativity) : fire_scope.
Open Scope fire_scope.

Definition logOp (o : Op) (w : World) : World :=
  mkWorld (db w) (trace w ++ [o]).

Definition getStats (uid : string) : Fire (option StatsDoc) :=
  fun w => (stats (db w) !! uid, logOp (OpGet (StatsRef uid)) w).

Definition getXp (uid eventId : string) : Fire (option XpEvent) :=
  fun w => (xp_events (db w) !! (uid, eventId), logOp (OpGet (XpRef uid eventId)) w).

Definition getMoments (uid : string) : Fire (list (string * Moment)) :=
  fun w => (default [] (moments (db w) !! uid), logOp (OpGetDocs (MomentsCol uid)) w).

Definition getReflections (uid : string) : Fire (list (string * Reflection)) :=
  fun w => (default [] (daily_reflections (db w) !! uid),
            logOp (OpGetDocs (ReflectionsCol uid)) w).

Definition putStats (uid : string) (s : StatsDoc) : Fire unit :=
  fun w =>
    let d := db w in
    (tt, mkWorld (mkDb (<[uid := s]> (stats d)) (xp_events d) (badges d)
                       (moments d) (daily_reflections d))
                 (trace w ++ [OpSet (StatsRef uid)])).

Definition putXp (uid eventId : string) (e : XpEvent) : Fire unit :=
  fun w =>
    let d := db w in
    (tt, mkWorld (mkDb (stats d) (<[(uid, eventId) := e]> (xp_events d)) (badges d)
                       (moments d) (daily_reflections d))
                 (trace w ++ [OpSet (XpRef uid eventId)])).

Definition putBadge (uid badgeId : string) (b : BadgeDoc) : Fire unit :=
  fun w =>
    let d := db w in
    (tt, mkWorld (mkDb (stats d) (xp_events d) (<[(uid, badgeId) := b]> (badges d))
                       (moments d) (daily_reflections d))
                 (trace w ++ [OpSet (BadgeRef uid badgeId)])).

(** [runTransaction]: the store is used by one caller at a time here, so
    the optimistic-concurrency check never fails and the body runs once,
    its reads and writes applied as a unit. *)
Definition runTransaction {A} (body : Fire A) : Fire A := body.

(** The wall clock as the functions observe it. *)
Record Clock := mkClock {
  now : Z;                (* milliseconds since the epoch *)
  currentWeekKey : string;   (* getCurrentWeekKey() *)
  currentDateKey : string;   (* getCurrentDateKey() *)
  sevenDaysAgo : Z        (* local midnight arithmetic of [setDate(getDate() - 6)] *)
}.

(** JavaScript truthiness of a string that may be missing. *)
Definition truthy (s : option string) : bool :=
  match s with
  | Some s => negb (String.eqb s "")
  | None => false
  end.

(** ** Merge writes on the stats document *)

(** A document with no field; also the partial document a merge write
    starts from. *)
Definition emptyStats : StatsDoc :=
  mkStats None None None None None None None None None None None None None None None
          None None.

Definition orElse {A} (new old : option A) : option A :=
  match new with
  | Some v => Some v
  | None => old
  end.

(** A map-valued field under [{ merge: true }]: the keys of a non-empty map
    are merged into the stored map, an empty map replaces it. *)
Definition mergeMap (new old : option (gmap string Z)) : option (gmap string Z) :=
  match new with
  | Some m => if decide (m = ∅) then Some ∅ else Some (m ∪ default ∅ old)
  | None => old
  end.

(** [setDoc(ref, patch, { merge: true })] on a stored document [s]: the
    fields present in [patch] are written, the others keep their value. *)
Definition mergeStats (patch s : StatsDoc) : StatsDoc :=
  {| allTimeXP := orElse (allTimeXP patch) (allTimeXP s);
     weeklyXP := orElse (weeklyXP patch) (weeklyXP s);
     weeklyKey := orElse (weeklyKey patch) (weeklyKey s);
     level := orElse (level patch) (level s);
     levelName := orElse (levelName patch) (levelName s);
     activeBadgeId := orElse (activeBadgeId patch) (activeBadgeId s);
     momentsCount := orElse (momentsCount patch) (momentsCount s);
     reflectionsCount := orElse (reflectionsCount patch) (reflectionsCount s);
     streakDays := orElse (streakDays patch) (streakDays s);
     bestStreakDays := orElse (bestStreakDays patch) (bestStreakDays s);
     journeyDay := orElse (journeyDay patch) (journeyDay s);
     journeyWeekKey := orElse (journeyWeekKey patch) (journeyWeekKey s);
     lastMomentAt := orElse (lastMomentAt patch) (lastMomentAt s);
     lastReflectionAt := orElse (lastReflectionAt patch) (lastReflectionAt s);
     depthMoments := orElse (depthMoments patch) (depthMoments s);
     emotionCounts := mergeMap (emotionCounts patch) (emotionCounts s);
     patternsViewed := orElse (patternsViewed patch) (patternsViewed s) |}.

(** The merge write itself: it applies to whatever the store holds at the
    time of the write, and creates the document when there is none. *)
Definition setStatsMerge (uid : string) (patch : StatsDoc) : Fire unit :=
  fun w => putStats uid (mergeStats patch (default emptyStats (stats (db w) !! uid))) w.

(** ** XP ledger *)

Record AwardResult := mkAward { awarded : bool; awardedLevel : option Z }.

Definition notAwarded : AwardResult := mkAward false None.

(** The document [ensureStatsDoc] creates. *)
Definition initialStats (weekKey : string) : StatsDoc :=
  {| allTimeXP := Some 0;
     weeklyXP := Some 0;
     weeklyKey := Some weekKey;
     level := Some 1;
     levelName := Some (Level.computeLevelName 1);
     activeBadgeId := Some None;
     momentsCount := Some 0;
     reflectionsCount := Some 0;
     streakDays := Some 0;
     bestStreakDays := Some 0;
     journeyDay := Some 0;
     journeyWeekKey := Some weekKey;
     lastMomentAt := None;
     lastReflectionAt := None;
     depthMoments := None;
     emotionCounts := None;
     patternsViewed := None |}.

Definition ensureStatsDoc (clk : Clock) (uid : string) : Fire unit :=
  snap <- getStats uid ;;
  match snap with
  | Some _ => ret tt
  | None => putStats uid (initialStats (currentWeekKey clk))
  end.

(** The fields [awardXpOnce] merges into the stats document. *)
Definition ledgerPatch (weekKey : string) (newWeekly newAll lvl : Z) (name : string)
  : StatsDoc :=
  {| allTimeXP := Some newAll;
     weeklyXP := Some newWeekly;
     weeklyKey := Some weekKey;
     level := Some lvl;
     levelName := Some name;
     activeBadgeId := None;
     momentsCount := None;
     reflectionsCount := None;
     streakDays := None;
     bestStreakDays := None;
     journeyDay := None;
     journeyWeekKey := None;
     lastMomentAt := None;
     lastReflectionAt := None;
     depthMoments := None;
     emotionCounts := None;
     patternsViewed := None |}.

(** [awardXpOnce(uid, eventId, amount, metadata)].  A [uid] that is
    [undefined] or [null] at run time is [None]. *)
Definition awardXpOnce (clk : Clock) (uid : option string) (eventId : string)
    (amount : Z) (metadata : option (gmap string string)) : Fire AwardResult :=
  if negb (truthy uid) || negb (truthy (Some eventId)) || (amount <=? 0)
  then ret notAwarded
  else
    let uid := default ""%string uid in
    let weekKey := currentWeekKey clk in
    runTransaction (
      xpSnap <- getXp uid eventId ;;
      match xpSnap with
      | Some _ => ret notAwarded
      | None =>
          statsSnap <- getStats uid ;;
          let stats := default emptyStats statsSnap in
          let weeklyXP :=
            if decide (weeklyKey stats = Some weekKey)
            then default 0 (weeklyXP stats) else 0 in
          let allTimeXP := default 0 (allTimeXP stats) in
          let newAll := allTimeXP + amount in
          let newWeekly := weeklyXP + amount in
          let level := Level.computeLevel newAll in
          let levelName := Level.computeLevelName level in
          (* the event document is absent here, so the merge write creates it *)
          putXp uid eventId
            (mkXpEvent amount (now clk) weekKey (default ∅ metadata)) ;;;
          setStatsMerge uid (ledgerPatch weekKey newWeekly newAll level levelName) ;;;
          ret (mkAward true (Some level))
      end).

(** [reconcileWeeklyReset(uid)]; [updateDoc] writes the two fields it is
    given and keeps the rest. *)
Definition reconcileWeeklyReset (clk : Clock) (uid : string) : Fire unit :=
  snap <- getStats uid ;;
  match snap with
  | None => ret tt
  | Some stats =>
      let weekKey := currentWeekKey clk in
      if decide (weeklyKey stats = Some weekKey) then ret tt
      else setStatsMerge uid
             (mkStats None (Some 0) (Some weekKey) None None None None None None None
                      None None None None None None None)
  end.

(** ** Reconciliation of the statistics *)

Definition DAY_MS : Z := 86400000.

(** State of the [forEach] over the moments. *)
Record MomentAcc := mkMomentAcc {
  acc_lastMomentAt : option Z;
  acc_depthMoments : Z;
  acc_emotionCounts : gmap string Z
}.

(** [(d.tags && d.tags.length) || d.note] *)
Definition hasDepth (d : Moment) : bool :=
  match m_tags d with
  | Some (_ :: _) => true
  | _ => truthy (m_note d)
  end.

Definition later (candidate : Z) (last : option Z) : bool :=
  match last with
  | None => true
  | Some l => candidate >? l
  end.

Definition countEmotion (d : Moment) (counts : gmap string Z) : gmap string Z :=
  if truthy (m_emotion d)
  then let e := default ""%string (m_emotion d) in
       <[e := default 0 (counts !! e) + 1]> counts
  else counts.

Definition momentStep (acc : MomentAcc) (docSnap : string * Moment) : MomentAcc :=
  let d := docSnap.2 in
  {| acc_lastMomentAt :=
       match m_createdAt d with
       | Some createdAt =>
           if later createdAt (acc_lastMomentAt acc) then Some createdAt
           else acc_lastMomentAt acc
       | None => acc_lastMomentAt acc
       end;
     acc_depthMoments :=
       if hasDepth d then acc_depthMoments acc + 1 else acc_depthMoments acc;
     acc_emotionCounts := countEmotion d (acc_emotionCounts acc) |}.

(** State of the [forEach] over the daily reflections. *)
Record ReflectionAcc := mkReflectionAcc {
  acc_reflectionsCount : Z;
  acc_reflectionDates : list string;
  acc_lastReflectionAt : option Z
}.

(** [d.dateKey || docSnap.id] *)
Definition reflectionDateKey (docSnap : string * Reflection) : string :=
  if truthy (r_dateKey docSnap.2) then default ""%string (r_dateKey docSnap.2)
  else docSnap.1.

Definition reflectionStep (acc : ReflectionAcc) (docSnap : string * Reflection)
  : ReflectionAcc :=
  let d := docSnap.2 in
  if r_completed d then
    {| acc_reflectionsCount := acc_reflectionsCount acc + 1;
       acc_reflectionDates := acc_reflectionDates acc ++ [reflectionDateKey docSnap];
       acc_lastReflectionAt :=
         match r_completedAt d with
         | Some completedAt =>
             if later completedAt (acc_lastReflectionAt acc) then Some completedAt
             else acc_lastReflectionAt acc
         | None => acc_lastReflectionAt acc
         end |}
  else acc.

(** The comparator [(a, b) => b.getTime() - a.getTime()] orders [a] before
    [b] when [a] is the later date. *)
Definition laterFirst (a b : Z) : Prop := b ≤ a.

#[global] Instance laterFirst_dec a b : Decision (laterFirst a b).
Proof. unfold laterFirst. apply _. Defined.

(** State of the [forEach] over the sorted dates: the variables [streak],
    [bestStreak] and [prev]. *)
Record StreakAcc := mkStreakAcc {
  streak : Z;
  bestStreak : Z;
  prev : option Z
}.

(** [diff] is [(prev - date) / 86400000]; on whole milliseconds [diff === 1]
    is [prev - date = 86400000] and [diff > 1] is [prev - date > 86400000]. *)
Definition streakStep (acc : StreakAcc) (date : Z) : StreakAcc :=
  let streak' :=
    match prev acc with
    | None => 1
    | Some p =>
        if p - date =? DAY_MS then streak acc + 1
        else if p - date >? DAY_MS then 1
        else streak acc
    end in
  {| streak := streak';
     bestStreak := Z.max (bestStreak acc) streak';
     prev := Some date |}.

Definition streakWalk (sortedDates : list Z) : StreakAcc :=
  fold_left streakStep sortedDates (mkStreakAcc 0 0 None).

(** The second pass over the moments: the UTC day of every moment created
    since [sevenDaysAgo].  The source collects the date part of
    [toISOString()], which is one string per UTC day; the day number
    [createdAt / 86400000] stands for it. *)
Definition journeyStep (since : Z) (days : gset Z) (docSnap : string * Moment) : gset Z :=
  match m_createdAt docSnap.2 with
  | Some createdAt => if createdAt >=? since then {[createdAt `div` DAY_MS]} ∪ days else days
  | None => days
  end.

Section Reconcile.

(** [new Date(s).getTime()] for a stored date key: [None] when the date is
    invalid ([NaN]).  Which strings an engine accepts is left open. *)
Variable parseDate : string -> option Z.

(** [reflectionDates.map(d => new Date(d)).filter(d => !isNaN(d.getTime())).sort(...)] *)
Definition sortedDates (reflectionDates : list string) : list Z :=
  merge_sort laterFirst (omap parseDate reflectionDates).

(** The [updates] object built by [reconcileStatsFromData], as the partial
    document that is merged into the stats. *)
Definition statsUpdates (clk : Clock) (momentsSnap : list (string * Moment))
    (reflectionsSnap : list (string * Reflection)) : StatsDoc :=
  let momentsCount := Z.of_nat (length momentsSnap) in
  let macc := fold_left momentStep momentsSnap (mkMomentAcc None 0 ∅) in
  let racc := fold_left reflectionStep reflectionsSnap (mkReflectionAcc 0 [] None) in
  let reflectionDates := acc_reflectionDates racc in
  let walk := streakWalk (sortedDates reflectionDates) in
  let today := currentDateKey clk in
  let hasToday := bool_decide (today ∈ reflectionDates) in
  let streak := if negb hasToday then 0 else streak walk in
  let journeyDays := fold_left (journeyStep (sevenDaysAgo clk)) momentsSnap ∅ in
  let journeyDay := Z.min 7 (Z.of_nat (size journeyDays)) in
  {| allTimeXP := None;
     weeklyXP := None;
     weeklyKey := None;
     level := None;
     levelName := None;
     activeBadgeId := None;
     momentsCount := Some momentsCount;
     reflectionsCount := Some (acc_reflectionsCount racc);
     streakDays := Some streak;
     bestStreakDays := Some (bestStreak walk);
     journeyDay := Some journeyDay;
     journeyWeekKey := None;
     lastMomentAt := Some (acc_lastMomentAt macc);
     lastReflectionAt := Some (acc_lastReflectionAt racc);
     depthMoments := Some (acc_depthMoments macc);
     emotionCounts := Some (acc_emotionCounts macc);
     patternsViewed := None |}.

Definition reconcileStatsFromData (clk : Clock) (uid : string) : Fire StatsDoc :=
  ensureStatsDoc clk uid ;;;
  momentsSnap <- getMoments uid ;;
  reflectionsSnap <- getReflections uid ;;
  let updates := statsUpdates clk momentsSnap reflectionsSnap in
  setStatsMerge uid updates ;;;
  ret updates.

End Reconcile.

(** ** Badge engine *)

Definition BADGE_DEFINITIONS : list BadgeDefinition :=
  [ mkBadge "first_steps" getting_started moments_logged 1 None 10;
    mkBadge "reflection_starter" getting_started reflections_completed 1 None 15;
    mkBadge "three_in_a_row" consistency reflections_completed 3 None 25;
    mkBadge "weekly_warrior" consistency reflections_completed 7 None 50;
    mkBadge "depth_builder" depth tags_added 5 None 20;
    mkBadge "detail_master" depth tags_added 20 None 40;
    mkBadge "calm_finder" emotion emotion_logged 5 (Some "Calm"%string) 20;
    mkBadge "hard_truth" emotion emotion_logged 3 (Some "Hurt"%string) 30;
    mkBadge "joy_seeker" emotion emotion_logged 10 (Some "Happy"%string) 25;
    mkBadge "pattern_hunter" insight patterns_viewed 3 None 15;
    mkBadge "streak_starter" consistency streak_days 3 None 30;
    mkBadge "committed" consistency streak_days 7 None 60 ]%string.

Definition getBadgeDefinition (badgeId : string) : option BadgeDefinition :=
  List.find (fun b => String.eqb (b_id b) badgeId) BADGE_DEFINITIONS.

(** What [reconcileBadges] gathers before it walks the catalog. *)
Record BadgeInputs := mkBadgeInputs {
  in_stats : StatsDoc;
  in_reflectionsDays : gset string;
  in_tagsNotesCount : Z;
  in_emotionCounts : gmap string Z
}.

Definition reflectionDayStep (days : gset string) (d : string * Reflection) : gset string :=
  if r_completed d.2 then {[reflectionDateKey d]} ∪ days else days.

Definition badgeMomentStep (acc : Z * gmap string Z) (d : string * Moment)
  : Z * gmap string Z :=
  (if hasDepth d.2 then acc.1 + 1 else acc.1, countEmotion d.2 acc.2).

(** The [switch (def.criteriaType)] of [reconcileBadges]. *)
Definition badgeProgress (inp : BadgeInputs) (def : BadgeDefinition) : Z :=
  match b_criteriaType def with
  | moments_logged => default 0 (momentsCount (in_stats inp))
  | reflections_completed => Z.of_nat (size (in_reflectionsDays inp))
  | tags_added => in_tagsNotesCount inp
  | emotion_logged =>
      default 0 (in_emotionCounts inp !! default ""%string (b_emotionType def))
  | streak_days => default 0 (streakDays (in_stats inp))
  | patterns_viewed => default 0 (patternsViewed (in_stats inp))
  end.

(** The document [reconcileBadges] writes for one catalog entry. *)
Definition badgeWrite (clk : Clock) (inp : BadgeInputs) (def : BadgeDefinition) : BadgeDoc :=
  let progressCurrent := badgeProgress inp def in
  let target := b_threshold def in
  let earned := (progressCurrent >=? target) && (target >? 0) in
  {| earned := earned;
     earnedAt := if earned then Some (now clk) else None;
     progressCurrent := progressCurrent;
     progressTarget := target;
     progressText := pretty progressCurrent +:+ "/" +:+ pretty target;
     category := b_category def |}.

Fixpoint forEachM {A} (f : A -> Fire unit) (l : list A) : Fire unit :=
  match l with
  | [] => ret tt
  | x :: rest => f x ;;; forEachM f rest
  end.

Definition reconcileBadges (clk : Clock) (uid : string) : Fire unit :=
  statsSnap <- getStats uid ;;
  match statsSnap with
  | None => ret tt
  | Some stats =>
      momentsSnap <- getMoments uid ;;
      reflectionsSnap <- getReflections uid ;;
      let reflectionsDays := fold_left reflectionDayStep reflectionsSnap ∅ in
      let macc := fold_left badgeMomentStep momentsSnap (0, ∅) in
      let inp := mkBadgeInputs stats reflectionsDays macc.1 macc.2 in
      forEachM (fun def => putBadge uid (b_id def) (badgeWrite clk inp def))
               BADGE_DEFINITIONS
  end.

(** The other writer of badge documents, [awardBadge] of
    src/lib/badges.native.ts. *)
Record AwardBadgeResult := mkAwardBadge {
  success : bool;
  alreadyEarned : bool;
  badge : option BadgeDefinition
}.

Definition getBadge (uid badgeId : string) : Fire (option BadgeDoc) :=
  fun w => (badges (db w) !! (uid, badgeId), logOp (OpGet (BadgeRef uid badgeId)) w).

Definition awardBadge (clk : Clock) (userId : option string) (badgeId : string)
  : Fire AwardBadgeResult :=
  match getBadgeDefinition badgeId with
  | Some badgeDef =>
      if negb (truthy userId) then ret (mkAwardBadge false false None)
      else
        let uid := default ""%string userId in
        snap <- getBadge uid badgeId ;;
        if match snap with Some b => earned b | None => false end
        then ret (mkAwardBadge true true (Some badgeDef))
        else
          putBadge uid badgeId
            (mkBadgeDoc true (Some (now clk)) (b_threshold badgeDef)
               (b_threshold badgeDef)
               (pretty (b_threshold badgeDef) +:+ "/" +:+ pretty (b_threshold badgeDef))
               (b_category badgeDef)) ;;;
          ret (mkAwardBadge true false (Some badgeDef))
  | None => ret (mkAwardBadge false false None)
  end.

(** ** Date keys of the form [YYYY-MM-DD]

    Every ECMAScript engine reads a date-only ISO string of a real calendar
    day as midnight UTC of that day; this is the part of [new Date(s)] the
    worked examples use. *)
Module IsoDate.

Definition digit (c : ascii) : option Z :=
  let n := Z.of_N (Ascii.N_of_ascii c) in
  if (48 <=? n) && (n <=? 57) then Some (n - 48) else None.

Definition isLeap (y : Z) : bool :=
  ((y mod 4 =? 0) && negb (y mod 100 =? 0)) || (y mod 400 =? 0).

Definition daysInMonth (y m : Z) : Z :=
  if m =? 2 then (if isLeap y then 29 else 28)
  else if (m =? 4) || (m =? 6) || (m =? 9) || (m =? 11) then 30 else 31.

(** Days from 1970-01-01 to the given civil date (proleptic Gregorian). *)
Definition daysFromCivil (y m d : Z) : Z :=
  let y' := if m <=? 2 then y - 1 else y in
  let era := y' `div` 400 in
  let yoe := y' - era * 400 in
  let mp := (m + 9) `mod` 12 in
  let doy := (153 * mp + 2) `div` 5 + d - 1 in
  let doe := yoe * 365 + yoe `div` 4 - yoe `div` 100 + doy in
  era * 146097 + doe - 719468.

Definition num2 (a b : ascii) : option Z :=
  match digit a, digit b with
  | Some x, Some y => Some (10 * x + y)
  | _, _ => None
  end.

Definition parse (s : string) : option Z :=
  match s with
  | String y1 (String y2 (String y3 (String y4 (String "-"%char
      (String m1 (String m2 (String "-"%char (String d1 (String d2 EmptyString))))))))) =>
      match num2 y1 y2, num2 y3 y4, num2 m1 m2, num2 d1 d2 with
      | Some yh, Some yl, Some m, Some d =>
          let y := 100 * yh + yl in
          if (1 <=? m) && (m <=? 12) && (1 <=? d) && (d <=? daysInMonth y m)
          then Some (daysFromCivil y m d * DAY_MS)
          else None
      | _, _, _, _ => None
      end
  | _ => None
  end.

End IsoDate.

(** ** The specification's own formulations *)

(** The count of thresholds that are at most [xp]. *)
Definition reached (ths : list Z) (xp : Z) : Z :=
  Z.of_nat (length (filter (fun t => t ≤ xp) ths)).

(** The level as the specification words it: one more than the count of
    thresholds reached, capped at the length of the table. *)
Definition specLevel (ths : list Z) (xp : Z) : Z :=
  Z.min (1 + reached ths xp) (Z.of_nat (length ths)).


(** The date keys of the completed reflections, in snapshot order. *)
Definition completedDates (reflectionsSnap : list (string * Reflection)) : list string :=
  map reflectionDateKey (filter (fun d => r_completed d.2 = true) reflectionsSnap).

(** The aggregate of a user as the ledger reads it: the stored document,
    or the empty object when there is none. *)
Definition statsOf (w : World) (uid : string) : StatsDoc :=
  default emptyStats (stats (db w) !! uid).

(** A store that holds the given documents and an empty trace. *)
Definition world (d : Db) : World := mkWorld d [].

(** The world after a successful grant. *)
Definition granted (clk : Clock) (u eventId : string) (amount : Z)
    (metadata : option (gmap string string)) (w : World) : World :=
  let s := statsOf w u in
  let weekKey := currentWeekKey clk in
  let weekly :=
    (if decide (weeklyKey s = Some weekKey) then default 0 (weeklyXP s) else 0) + amount in
  let all := default 0 (allTimeXP s) + amount in
  let lvl := Level.computeLevel all in
  mkWorld
    (mkDb (<[u := mergeStats (ledgerPatch weekKey weekly all lvl (Level.computeLevelName lvl)) s]>
             (stats (db w)))
          (<[(u, eventId) := mkXpEvent amount (now clk) weekKey (default ∅ metadata)]>
             (xp_events (db w)))
          (badges (db w)) (moments (db w)) (daily_reflections (db w)))
    (trace w ++ [OpGet (XpRef u eventId); OpGet (StatsRef u);
                 OpSet (XpRef u eventId); OpSet (StatsRef u)]).

(** Two calls of [awardXpOnce] with the same key and amount, one after the
    other: the two results, and the store after each call. *)
Definition awardTwice (clk1 clk2 : Clock) (uid : option string) (key : string)
    (amount : Z) (metadata : option (gmap string string)) (w : World)
  : AwardResult * AwardResult * World * World :=
  let (r1, w1) := awardXpOnce clk1 uid key amount metadata w in
  let (r2, w2) := awardXpOnce clk2 uid key amount metadata w1 in
  (r1, r2, w1, w2).

(** ** Worked scenarios of the specification *)

(** An aggregate [{allTimeXP, weeklyXP, weeklyKey}]. *)
Definition aggregate (allTime weekly : Z) (weekKey : string) : StatsDoc :=
  mkStats (Some allTime) (Some weekly) (Some weekKey) None None None None None None
          None None None None None None None None.

(** A store whose only document is the aggregate of one user. *)
Definition storeOf (uid : string) (s : StatsDoc) : World :=
  world (mkDb {[uid := s]} ∅ ∅ ∅ ∅).

(** A clock that reads the given week and day; the instant itself plays no
    part in the scenarios. *)
Definition clockAt (weekKey dateKey : string) : Clock :=
  mkClock 1704700800000 weekKey dateKey (1704700800000 - 6 * DAY_MS).

(** A completed daily reflection stored under its date key. *)
Definition completedOn (dateKey : string) : string * Reflection :=
  (dateKey, mkReflection true (Some dateKey) None).

(** Monday 8, Tuesday 9 and Wednesday 10 January 2024. *)
Definition Mon : string := "2024-01-08".
Definition Tue : string := "2024-01-09".
Definition Wed : string := "2024-01-10".
Definition Thu : string := "2024-01-11".


(** The aggregate [reconcileStatsFromData] starts from: the stored document,
    or the zeroed one [ensureStatsDoc] creates when there is none. *)
Definition priorAggregate (clk : Clock) (w : World) (uid : string) : StatsDoc :=
  default (initialStats (currentWeekKey clk)) (stats (db w) !! uid).

(** The fields the ledger owns, and the other fields reconciliation does
    not own. *)
Definition ledgerFields (s : StatsDoc) :=
  (allTimeXP s, weeklyXP s, weeklyKey s, level s, levelName s).

Definition otherFields (s : StatsDoc) :=
  (activeBadgeId s, journeyWeekKey s, patternsViewed s).

(** The reconcile effect of the home screen, up to the badge engine:
    [ensureStatsDoc], [reconcileWeeklyReset], [reconcileStatsFromData],
    [reconcileBadges]. *)
Definition reconcileOnOpen (clk : Clock) (uid : string) : Fire unit :=
  ensureStatsDoc clk uid ;;;
  reconcileWeeklyReset clk uid ;;;
  reconcileStatsFromData IsoDate.parse clk uid ;;;
  reconcileBadges clk uid.

(** A user who completed the daily reflection on Monday, Tuesday and
    Wednesday, before the engine has run. *)
Definition threeDayStore : World :=
  world (mkDb ∅ ∅ ∅ ∅ {["u1"%string := map completedOn [Mon; Tue; Wed]]}).

(** The [earned] flag of a stored badge, if the badge document exists. *)
Definition earnedFlag (w : World) (uid badgeId : string) : option bool :=
  earned <$> badges (db w) !! (uid, badgeId).

(** ** Further observations of the store *)

(** The sum of the amounts of the XP events stored for a user. *)
Definition xpTotal (d : Db) (uid : string) : Z :=
  map_fold (fun k e acc => if decide (k.1 = uid) then xp_amount e + acc else acc) 0
           (xp_events d).

(** The fields of the stats document that reconciliation owns. *)
Definition reconciledFields (s : StatsDoc) :=
  (momentsCount s, reflectionsCount s, streakDays s, bestStreakDays s, journeyDay s,
   lastMomentAt s, lastReflectionAt s, depthMoments s, emotionCounts s).

(** The ledger is consistent when, for every user, the stored [allTimeXP]
    (0 when absent) is the sum of the amounts of the user's XP events. *)
Definition ledgerConsistent (d : Db) : Prop :=
  forall uid, default 0 (allTimeXP (default emptyStats (stats d !! uid))) = xpTotal d uid.

(** The aggregate after a grant of [amount] in week [weekKey]. *)
Definition ledgerGrant (weekKey : string) (amount : Z) (s : StatsDoc) : StatsDoc :=
  let weekly :=
    (if decide (weeklyKey s = Some weekKey) then default 0 (weeklyXP s) else 0) + amount in
  let all := default 0 (allTimeXP s) + amount in
  mergeStats
    (ledgerPatch weekKey weekly all (Level.computeLevel all)
       (Level.computeLevelName (Level.computeLevel all)))
    s.

(** The fields [reconcileWeeklyReset] writes. *)
Definition weeklyResetOf (weekKey : string) (s : StatsDoc) : StatsDoc :=
  mergeStats (mkStats None (Some 0) (Some weekKey) None None None None None None None
                      None None None None None None None) s.

(** A store with the given stats documents replaced. *)
Definition withStats (d : Db) (st : gmap string StatsDoc) : Db :=
  mkDb st (xp_events d) (badges d) (moments d) (daily_reflections d).

(** ** Reading the activity collections *)

(** The number of moments that carry a tag or a note. *)
Definition depthCount (momentsSnap : list (string * Moment)) : Z :=
  Z.of_nat (length (filter (fun d => hasDepth d.2 = true) momentsSnap)).

(** The number of moments logged with emotion [e]. *)
Definition emotionTally (momentsSnap : list (string * Moment)) (e : string) : Z :=
  Z.of_nat (length (filter (fun d => m_emotion d.2 = Some e) momentsSnap)).






(** ** The rest of the badge module (src/lib/badges.native.ts and the
    shared catalog) *)

#[global] Instance BadgeCategory_eq_dec : EqDecision BadgeCategory.
Proof. solve_decision. Defined.

#[global] Instance BadgeCriteriaType_eq_dec : EqDecision BadgeCriteriaType.
Proof. solve_decision. Defined.

Definition getBadgesByCategory (c : BadgeCategory) : list BadgeDefinition :=
  List.filter (fun b => bool_decide (b_category b = c)) BADGE_DEFINITIONS.

Definition getCategoryName (c : BadgeCategory) : string :=
  match c with
  | getting_started => "Getting Started"
  | consistency => "Consistency"
  | depth => "Detail & Depth"
  | emotion => "Emotional Range"
  | insight => "Self-Insight"
  end.

(** [hasBadge(userId, badgeId)] *)
Definition hasBadge (userId : option string) (badgeId : string) : Fire bool :=
  if negb (truthy userId) || negb (truthy (Some badgeId)) then ret false
  else
    snap <- getBadge (default ""%string userId) badgeId ;;
    ret (match snap with Some b => earned b | None => false end).

(** The two [continue] tests and the threshold test of the loop of
    [checkAndAwardBadges]. *)
Definition badgeApplies (criteriaType : BadgeCriteriaType) (currentValue : Z)
    (emotionType : option string) (def : BadgeDefinition) : bool :=
  bool_decide (b_criteriaType def = criteriaType)
  && negb (truthy (b_emotionType def) && negb (bool_decide (b_emotionType def = emotionType)))
  && (currentValue >=? b_threshold def).

(** The loop of [checkAndAwardBadges] over the part of the catalog that is
    still ahead; [earnedSoFar] is the array [earned]. *)
Fixpoint checkLoop (clk : Clock) (userId : option string) (criteriaType : BadgeCriteriaType)
    (currentValue : Z) (emotionType : option string) (defs : list BadgeDefinition)
    (earnedSoFar : list BadgeDefinition) : Fire (list BadgeDefinition) :=
  match defs with
  | [] => ret earnedSoFar
  | def :: rest =>
      if badgeApplies criteriaType currentValue emotionType def then
        res <- awardBadge clk userId (b_id def) ;;
        checkLoop clk userId criteriaType currentValue emotionType rest
          (if success res then earnedSoFar ++ [def] else earnedSoFar)
      else checkLoop clk userId criteriaType currentValue emotionType rest earnedSoFar
  end.

Definition checkAndAwardBadges (clk : Clock) (userId : option string)
    (criteriaType : BadgeCriteriaType) (currentValue : Z) (emotionType : option string)
  : Fire (list BadgeDefinition) :=
  if negb (truthy userId) then ret []
  else checkLoop clk userId criteriaType currentValue emotionType BADGE_DEFINITIONS [].

(** [setActiveBadge(userId, badgeId)]; [badgeId] is [None] for [null]. *)
Definition setActiveBadge (userId : option string) (badgeId : option string) : Fire bool :=
  if negb (truthy userId) then ret false
  else
    setStatsMerge (default ""%string userId)
      (mkStats None None None None None (Some badgeId) None None None None None None None
               None None None None) ;;;
    ret true.

(** [getActiveBadge(userId)] *)
Definition getActiveBadge (userId : option string) : Fire (option BadgeDefinition) :=
  if negb (truthy userId) then ret None
  else
    snap <- getStats (default ""%string userId) ;;
    let activeId :=
      match snap with
      | Some s => match activeBadgeId s with Some id => id | None => None end
      | None => None
      end in
    if negb (truthy activeId) then ret None
    else ret (getBadgeDefinition (default ""%string activeId)).

(** What [reconcileBadges] gathers from the store of a user whose stats
    document is [s]. *)
Definition badgeInputsOf (w : World) (uid : string) (s : StatsDoc) : BadgeInputs :=
  let macc := fold_left badgeMomentStep (default [] (moments (db w) !! uid)) (0, ∅) in
  mkBadgeInputs s
    (fold_left reflectionDayStep (default [] (daily_reflections (db w) !! uid)) ∅)
    macc.1 macc.2.

(** The progress of a badge read directly off the activity of a user: the
    moments [ms], the reflections [rs] and the stored [patternsViewed]. *)
Definition activityProgress (parseDate : string -> option Z) (clk : Clock)
    (ms : list (string * Moment)) (rs : list (string * Reflection)) (patterns : Z)
    (def : BadgeDefinition) : Z :=
  match b_criteriaType def with
  | moments_logged => Z.of_nat (length ms)
  | reflections_completed => Z.of_nat (length (remove_dups (completedDates rs)))
  | tags_added => depthCount ms
  | emotion_logged =>
      let e := default ""%string (b_emotionType def) in
      if decide (e = ""%string) then 0 else emotionTally ms e
  | streak_days =>
      if bool_decide (currentDateKey clk ∈ completedDates rs)
      then streak (streakWalk (sortedDates parseDate (completedDates rs))) else 0
  | patterns_viewed => patterns
  end.

(** The record [awardBadge] stores for a catalog entry. *)
Definition awardedDoc (clk : Clock) (def : BadgeDefinition) : BadgeDoc :=
  mkBadgeDoc true (Some (now clk)) (b_threshold def) (b_threshold def)
    (pretty (b_threshold def) +:+ "/" +:+ pretty (b_threshold def)) (b_category def).

(** ** Day and week keys (getCurrentDateKey, getCurrentWeekKey)

    The calendar arithmetic of [Date] on whole days: [IsoDate.daysFromCivil]
    is [Date.UTC(y, m - 1, d) / 86400000], [civilFromDays] gives back the
    UTC year, month and day of a day number. *)
Module Calendar.

Definition civilFromDays (z : Z) : Z * Z * Z :=
  let z := z + 719468 in
  let era := z `div` 146097 in
  let doe := z - era * 146097 in
  let yoe := (doe - doe `div` 1460 + doe `div` 36524 - doe `div` 146096) `div` 365 in
  let y := yoe + era * 400 in
  let doy := doe - (365 * yoe + yoe `div` 4 - yoe `div` 100) in
  let mp := (5 * doy + 2) `div` 153 in
  let d := doy - (153 * mp + 2) `div` 5 + 1 in
  let m := if mp <? 10 then mp + 3 else mp - 9 in
  (if m <=? 2 then y + 1 else y, m, d).

(** [getUTCFullYear()] of the date at the given day number. *)
Definition yearOfDay (z : Z) : Z := (civilFromDays z).1.1.

Fixpoint zeros (n : nat) : string :=
  match n with
  | O => ""
  | S n => "0" +:+ zeros n
  end.

(** [s.padStart(len, '0')] *)
Definition padStart (len : nat) (s : string) : string :=
  zeros (len - String.length s) +:+ s.

(** The last [k] decimal digits of a natural number [n], zero-padded. *)
Fixpoint digits (k : nat) (n : Z) : string :=
  match k with
  | O => ""
  | S k => digits k (n `div` 10) +:+ String (ascii_of_N (Z.to_N (48 + n `mod` 10))) ""
  end.

(** The date part of [toISOString()]: four digits for the years 0 to 9999,
    a sign and six digits for the others. *)
Definition toISODate (ms : Z) : string :=
  let '(y, m, d) := civilFromDays (ms `div` DAY_MS) in
  let year :=
    if (0 <=? y) && (y <=? 9999) then digits 4 y
    else (if y <? 0 then "-" else "+") +:+ digits 6 (Z.abs y) in
  year +:+ "-" +:+ digits 2 m +:+ "-" +:+ digits 2 d.

(** [Date.UTC(year, month, day)] in days; the years 0 to 99 stand for 1900
    to 1999. *)
Definition dateUTC (year month day : Z) : Z :=
  IsoDate.daysFromCivil (if (0 <=? year) && (year <=? 99) then 1900 + year else year)
    (month + 1) day.

End Calendar.

(** [getCurrentDateKey(d)], on the time value of [d]. *)
Definition getCurrentDateKey (d : Z) : string := Calendar.toISODate d.

(** The ISO year and week number [getCurrentWeekKey] computes from the day
    number [date] of the local calendar date. *)
Definition isoWeekOfDay (date : Z) : Z * Z :=
  let dayNum := let wd := (date + 4) `mod` 7 in if wd =? 0 then 7 else wd in
  let date := date + 4 - dayNum in
  let yearStart := IsoDate.daysFromCivil (Calendar.yearOfDay date) 1 1 in
  let weekNo := (date - yearStart + 1 + 6) `div` 7 in
  (Calendar.yearOfDay date, weekNo).

Definition weekKeyOfDay (date : Z) : string :=
  pretty (isoWeekOfDay date).1 +:+ "-W" +:+ Calendar.padStart 2 (pretty (isoWeekOfDay date).2).

(** [getCurrentWeekKey(d)], on the local year, month (from 0) and day of
    the month of [d]. *)
Definition getCurrentWeekKey (fullYear month date : Z) : string :=
  weekKeyOfDay (Calendar.dateUTC fullYear month date).

(** The Monday that starts the week of a day number (day 0 is a Thursday). *)
Definition mondayOf (date : Z) : Z := date - (date + 3) `mod` 7.

(** Reads a key of the form [YYYY-Www] back as [100 * YYYY + ww]. *)
Definition weekKeyCode (key : string) : option Z :=
  match key with
  | String y1 (String y2 (String y3 (String y4 (String "-"%char (String "W"%char
      (String w1 (String w2 EmptyString))))))) =>
      match IsoDate.num2 y1 y2, IsoDate.num2 y3 y4, IsoDate.num2 w1 w2 with
      | Some yh, Some yl, Some w => Some (100 * (100 * yh + yl) + w)
      | _, _, _ => None
      end
  | _ => None
  end.

(** The checks behind the calendar facts, one day or one week at a time. *)
Definition dateKeyRoundTrips (day : Z) : bool :=
  match IsoDate.parse (getCurrentDateKey (day * DAY_MS)) with
  | Some t => t =? day * DAY_MS
  | None => false
  end.

Definition weekAdvances (k : Z) : bool :=
  let '(y, w) := isoWeekOfDay (7 * k) in
  let '(y', w') := isoWeekOfDay (7 * k + 7) in
  (1 <=? w) && (w <=? 53)
  && (((y' =? y) && (w' =? w + 1)) || ((y' =? y + 1) && (w' =? 1) && (52 <=? w)))
  && match weekKeyCode (weekKeyOfDay (7 * k)) with
     | Some c => c =? 100 * y + w
     | None => false
     end.

(** [f] holds at [start], [start + 1], ..., [start + count - 1]. *)
Fixpoint allFrom (f : Z -> bool) (start : Z) (count : nat) : bool :=
  match count with
  | O => true
  | S c => f start && allFrom f (start + 1) c
  end.

(** ** Daily quests (reconcileDailyQuests) *)

(** [getDoc(doc(db, 'users', uid, 'daily_reflections', id))]; the trace
    names the collection the document is read from. *)
Definition getReflectionDoc (uid id : string) : Fire (option Reflection) :=
  fun w =>
    (snd <$> List.find (fun d => String.eqb d.1 id)
                       (default [] (daily_reflections (db w) !! uid)),
     logOp (OpGet (ReflectionsCol uid)) w).

Definition newerFirst (a b : string * Moment) : Prop :=
  default 0 (m_createdAt b.2) ≤ default 0 (m_createdAt a.2).

#[global] Instance newerFirst_dec a b : Decision (newerFirst a b).
Proof. unfold newerFirst. apply _. Defined.

(** [getDocs(query(collection(..., 'moments'), orderBy('createdAt', 'desc')))]:
    the moments that have a [createdAt], latest first. *)
Definition getMomentsByCreatedAt (uid : string) : Fire (list (string * Moment)) :=
  fun w =>
    (merge_sort newerFirst
       (List.filter (fun d => bool_decide (is_Some (m_createdAt d.2)))
                    (default [] (moments (db w) !! uid))),
     logOp (OpGetDocs (MomentsCol uid)) w).

(** [momentsSnap.docs.some(...)]: a moment whose creation time falls on the
    day [todayKey]. *)
Definition hasMomentToday (docs : list (string * Moment)) (todayKey : string) : bool :=
  existsb (fun d =>
             match m_createdAt d.2 with
             | Some createdAt => String.eqb (Calendar.toISODate createdAt) todayKey
             | None => false
             end) docs.

(** [reflectionDoc.exists() && !!reflectionDoc.data()?.completed] *)
Definition reflectionsCompleted (reflectionDoc : option Reflection) : bool :=
  match reflectionDoc with
  | Some r => r_completed r
  | None => false
  end.

Definition reconcileDailyQuests (clk : Clock) (uid : string) (todayKey : string) : Fire unit :=
  momentsSnap <- getMomentsByCreatedAt uid ;;
  reflectionDoc <- getReflectionDoc uid todayKey ;;
  (if reflectionsCompleted reflectionDoc
   then awardXpOnce clk (Some uid) ("DAILY_REFLECTIONS_COMPLETED_" +:+ todayKey) 15
          (Some {["dateKey"%string := todayKey]}) ;;; ret tt
   else ret tt) ;;;
  (if hasMomentToday momentsSnap todayKey
   then awardXpOnce clk (Some uid) ("MOMENT_COMPLETED_" +:+ todayKey) 10
          (Some {["dateKey"%string := todayKey]}) ;;; ret tt
   else ret tt).

(** The two conditions of the daily quests, read off a store. *)
Definition questReflectionDone (d : Db) (uid todayKey : string) : bool :=
  reflectionsCompleted
    (snd <$> List.find (fun r => String.eqb r.1 todayKey)
                       (default [] (daily_reflections d !! uid))).

Definition questMomentToday (d : Db) (uid todayKey : string) : bool :=
  hasMomentToday
    (merge_sort newerFirst
       (List.filter (fun m => bool_decide (is_Some (m_createdAt m.2)))
                    (default [] (moments d !! uid))))
    todayKey.

(** Whether an XP event is stored at a key. *)
Definition xpStored (d : Db) (uid key : string) : bool :=
  bool_decide (is_Some (xp_events d !! (uid, key))).

(** The documents after a grant, and after a call of [awardXpOnce] with a
    user id, a key and a positive amount: a grant unless the event is
    stored already. *)
Definition grantDb (clk : Clock) (u key : string) (amount : Z)
    (metadata : option (gmap string string)) (d : Db) : Db :=
  mkDb (<[u := ledgerGrant (currentWeekKey clk) amount (default emptyStats (stats d !! u))]>
          (stats d))
       (<[(u, key) := mkXpEvent amount (now clk) (currentWeekKey clk) (default ∅ metadata)]>
          (xp_events d))
       (badges d) (moments d) (daily_reflections d).

Definition awardEffect (clk : Clock) (u key : string) (amount : Z)
    (metadata : option (gmap string string)) (d : Db) : Db :=
  if xpStored d u key then d else grantDb clk u key amount metadata d.

(** ** The progress model of the home screen (src/hooks/useProgress.native.ts) *)

Module Progress.

(** [ProgressModel].  [progressToNext] is kept as the exact fraction
    numerator / denominator that the source divides out. *)
Record ProgressModel := mkModel {
  totalXP : Z;
  weekly : Z;
  streak : Z;
  lvl : Z;
  lvlName : string;
  currentLevelMinXP : Z;
  nextLevelXP : option Z;
  progressToNext : Z * Z;
  xpRemaining : option Z;
  isMaxLevel : bool;
  activeBadge : option string
}.

End Progress.

(** [LEVEL_THRESHOLDS.find((t) => t > xp) || null] *)
Definition nextThresholdOf (xp : Z) : option Z :=
  match List.find (fun t => t >? xp) Level.LEVEL_THRESHOLDS with
  | Some t => if t =? 0 then None else Some t
  | None => None
  end.

(** A number that may be missing or [null], with 0 for falsy values. *)
Definition orZero (o : option Z) : Z := default 0 o.

(** The model [loadProgress] builds from the stats data. *)
Definition progressOf (stats : StatsDoc) : Progress.ProgressModel :=
  let xp := orZero (allTimeXP stats) in
  let level := Level.computeLevel xp in
  let nextThreshold := nextThresholdOf xp in
  let currentMin := default 0 (Level.LEVEL_THRESHOLDS !! Z.to_nat (level - 1)) in
  let isMaxLevel := level =? Z.of_nat (length Level.LEVEL_THRESHOLDS) in
  let progressToNext :=
    if isMaxLevel then (1, 1)
    else
      let span := default currentMin nextThreshold - currentMin in
      (xp - currentMin, if span =? 0 then 1 else span) in
  let xpRemaining := if isMaxLevel then None else Some (orZero nextThreshold - xp) in
  Progress.mkModel xp (orZero (weeklyXP stats)) (orZero (streakDays stats)) level
    ("Level " +:+ pretty level) currentMin nextThreshold progressToNext xpRemaining isMaxLevel
    (match activeBadgeId stats with
     | Some (Some id) => if truthy (Some id) then Some id else None
     | _ => None
     end).

(** The document [loadProgress] creates when there is none. *)
Definition progressInitialStats (weekKey : string) : StatsDoc :=
  mkStats (Some 0) (Some 0) (Some weekKey) (Some 1) None (Some None) (Some 0) (Some 0) None
          None None None None None None None None.

(** [loadProgress]: the value handed to [setProgress]; [user] is the uid of
    the signed-in user, if any. *)
Definition loadProgress (clk : Clock) (user : option string)
  : Fire (option Progress.ProgressModel) :=
  match user with
  | None => ret None
  | Some uid =>
      snap <- getStats uid ;;
      (match snap with
       | Some _ => ret tt
       | None => putStats uid (progressInitialStats (currentWeekKey clk))
       end) ;;;
      statsSnap <- getStats uid ;;
      ret (Some (progressOf (default emptyStats statsSnap)))
  end.


(** The whole reconcile effect of the home screen: the four steps of
    [reconcileOnOpen], then the daily quests of the current day. *)
Definition reconcileHome (clk : Clock) (uid : string) : Fire unit :=
  reconcileOnOpen clk uid ;;;
  reconcileDailyQuests clk uid (currentDateKey clk).


(** ** The rewards of a saved moment (src/components/EventCapture.native.tsx)

    After [createEventWithAttachments] has stored the event under
    [users/{uid}/events] and returned its id, [handleSubmit] runs the block
    below.  The block touches the stats document and the XP ledger only. *)

(** [(tags?.length || 0) + (notes ? 1 : 0) + (emotionIntensity ? 1 : 0)
     + (uploadedFiles.length ? 1 : 0)] *)
Definition depthSignals (tags : list string) (notes : string) (emotionIntensity : Z)
    (uploadedFiles : nat) : Z :=
  Z.of_nat (length tags)
  + (if String.eqb notes "" then 0 else 1)
  + (if emotionIntensity =? 0 then 0 else 1)
  + (if Nat.eqb uploadedFiles 0 then 0 else 1).

(** The stats document after
    [updateDoc(statsRef, { momentsCount: increment(1), lastMomentAt: serverTimestamp() })];
    [increment] counts a missing field as 0. *)
Definition momentStatsUpdate (serverTime : Z) (s : StatsDoc) : StatsDoc :=
  mergeStats
    {| allTimeXP := None; weeklyXP := None; weeklyKey := None; level := None;
       levelName := None; activeBadgeId := None;
       momentsCount := Some (default 0 (momentsCount s) + 1);
       reflectionsCount := None; streakDays := None; bestStreakDays := None;
       journeyDay := None; journeyWeekKey := None;
       lastMomentAt := Some (Some serverTime);
       lastReflectionAt := None; depthMoments := None; emotionCounts := None;
       patternsViewed := None |}
    s.

(** [updateDoc] rejects when the document does not exist; the result is
    [false] then, and the caller's [catch] takes over. *)
Definition updateMomentStats (serverTime : Z) (uid : string) : Fire bool :=
  fun w =>
    match stats (db w) !! uid with
    | Some s => (true, (putStats uid (momentStatsUpdate serverTime s) w).2)
    | None => (false, logOp (OpSet (StatsRef uid)) w)
    end.

(** The block [if (user) { ... }] of [handleSubmit]; [signals] is
    [depthSignals], and the result tells whether the block ran to its end. *)
Definition momentRewards (clk : Clock) (serverTime : Z) (uid eventId : string)
    (signals : Z) : Fire bool :=
  ensureStatsDoc clk uid ;;;
  updated <- updateMomentStats serverTime uid ;;
  if updated then
    awardXpOnce clk (Some uid) ("MOMENT_COMPLETED_" +:+ eventId) 10
      (Some (<["eventId"%string := eventId]>
               {["dateKey"%string := currentDateKey clk]})) ;;;
    (if signals >=? 2
     then awardXpOnce clk (Some uid) ("DEPTH_BONUS_" +:+ eventId) 5
            (Some {["eventId"%string := eventId]}) ;;; ret tt
     else ret tt) ;;;
    ret true
  else ret false.

(** The documents the block leaves for a signed-in user. *)
Definition momentRewardsDb (clk : Clock) (serverTime : Z) (uid eventId : string)
    (signals : Z) (d : Db) : Db :=
  let prior := default (initialStats (currentWeekKey clk)) (stats d !! uid) in
  let d1 := withStats d (<[uid := momentStatsUpdate serverTime prior]> (stats d)) in
  let d2 :=
    awardEffect clk uid ("MOMENT_COMPLETED_" +:+ eventId) 10
      (Some (<["eventId"%string := eventId]>
               {["dateKey"%string := currentDateKey clk]})) d1 in
  if signals >=? 2
  then awardEffect clk uid ("DEPTH_BONUS_" +:+ eventId) 5
         (Some {["eventId"%string := eventId]}) d2
  else d2.


(** ** Completing the daily reflection (the [DailyReflections] component)

    The component stores the answers under
    [users/{uid}/daily_reflections/{todayKey}]; once all three are given,
    its [markComplete] effect marks the document completed and grants the
    reward. *)

(** A document written at [id]: it takes the place of the stored document
    with that id, or joins the collection when there is none. *)
Fixpoint upsertDoc {A} (id : string) (v : A) (docs : list (string * A))
  : list (string * A) :=
  match docs with
  | [] => [(id, v)]
  | d :: rest => if String.eqb d.1 id then (id, v) :: rest else d :: upsertDoc id v rest
  end.

(** [setDoc(ref, { completed: true, completedAt: new Date().toISOString(),
    dateKey: todayKey }, { merge: true })]: the three fields the engine
    reads are all written. *)
Definition setReflectionCompleted (clk : Clock) (uid todayKey : string) : Fire unit :=
  fun w =>
    let d := db w in
    (tt, mkWorld
           (mkDb (stats d) (xp_events d) (badges d) (moments d)
                 (<[uid := upsertDoc todayKey
                             (mkReflection true (Some todayKey) (Some (now clk)))
                             (default [] (daily_reflections d !! uid))]>
                    (daily_reflections d)))
           (trace w ++ [OpSet (ReflectionsCol uid)])).

(** [markComplete]; [isComplete] is [answeredCount >= 3] and
    [hasReflection] tells whether the component holds a reflection. *)
Definition markComplete (clk : Clock) (user : option string)
    (isComplete hasReflection : bool) : Fire unit :=
  match user with
  | None => ret tt
  | Some uid =>
      if negb isComplete || negb hasReflection then ret tt
      else
        let todayKey := currentDateKey clk in
        setReflectionCompleted clk uid todayKey ;;;
        ensureStatsDoc clk uid ;;;
        awardXpOnce clk (Some uid) ("DAILY_REFLECTIONS_COMPLETED_" +:+ todayKey) 15
          (Some {["dateKey"%string := todayKey]}) ;;;
        ret tt
  end.

(** The reflections of a user after today's one is marked completed. *)
Definition reflectionsAfterComplete (clk : Clock) (uid : string) (d : Db)
  : list (string * Reflection) :=
  upsertDoc (currentDateKey clk)
    (mkReflection true (Some (currentDateKey clk)) (Some (now clk)))
    (default [] (daily_reflections d !! uid)).

(** * Properties *)

(** ** Level calculator *)

Section LevelFacts.
Import Level.

Lemma reached_cons t ths xp :
  reached (t :: ths) xp = (if decide (t ≤ xp) then 1 else 0) + reached ths xp.
Proof.
  unfold reached. rewrite filter_cons.
  destruct (decide (t ≤ xp)); simpl; lia.
Qed.

Lemma reached_bounds ths xp : 0 ≤ reached ths xp ≤ Z.of_nat (length ths).
Proof.
  induction ths as [|t ths IH]; [unfold reached; simpl; lia|].
  rewrite reached_cons. cbn [length]. destruct (decide (t ≤ xp)); lia.
Qed.

Lemma reached_mono ths a b : a ≤ b -> reached ths a ≤ reached ths b.
Proof.
  intros Hab. induction ths as [|t ths IH]; [reflexivity|].
  rewrite !reached_cons.
  destruct (decide (t ≤ a)), (decide (t ≤ b)); lia.
Qed.

Lemma reached_none ths xp : Forall (fun t => xp < t) ths -> reached ths xp = 0.
Proof.
  induction 1 as [|t ths Ht _ IH]; [reflexivity|].
  rewrite reached_cons, IH. destruct (decide (t ≤ xp)); lia.
Qed.

(** On an ascending table the loop ends on the number of thresholds
    reached, counted from the loop index, or leaves [level] alone when no
    threshold is reached. *)
Lemma levelLoop_ascending ths i xp lvl :
  StronglySorted Z.le ths ->
  levelLoop ths i xp lvl =
    if reached ths xp =? 0 then lvl else i + reached ths xp.
Proof.
  intros Hs. revert i lvl.
  induction Hs as [|t ths Hs IH Hall]; intros i lvl; [reflexivity|].
  cbn [levelLoop]. rewrite IH, reached_cons.
  pose proof (reached_bounds ths xp) as Hb.
  destruct (decide (t ≤ xp)) as [Hle|Hgt].
  - rewrite Z.geb_leb, (proj2 (Z.leb_le t xp) Hle).
    destruct (Z.eqb_spec (reached ths xp) 0), (Z.eqb_spec (1 + reached ths xp) 0); lia.
  - rewrite Z.geb_leb, (proj2 (Z.leb_gt t xp)) by lia.
    rewrite (reached_none ths xp).
    + reflexivity.
    + eapply Forall_impl; [exact Hall|]. intros x Hx. simpl in Hx. lia.
Qed.

Lemma computeLevelWith_ascending ths xp :
  StronglySorted Z.le ths ->
  computeLevelWith ths xp = Z.min (Z.max 1 (reached ths xp)) (Z.of_nat (length ths)).
Proof.
  intros Hs. unfold computeLevelWith. rewrite levelLoop_ascending by exact Hs.
  pose proof (reached_bounds ths xp).
  destruct (Z.eqb_spec (reached ths xp) 0); lia.
Qed.

Lemma LEVEL_THRESHOLDS_ascending : StronglySorted Z.le LEVEL_THRESHOLDS.
Proof. unfold LEVEL_THRESHOLDS. repeat constructor; lia. Qed.

Lemma computeLevel_reached xp :
  computeLevel xp = Z.max 1 (reached LEVEL_THRESHOLDS xp).
Proof.
  unfold computeLevel.
  rewrite computeLevelWith_ascending by apply LEVEL_THRESHOLDS_ascending.
  pose proof (reached_bounds LEVEL_THRESHOLDS xp) as Hb.
  change (Z.of_nat (length LEVEL_THRESHOLDS)) with 7 in *. lia.
Qed.

(** C3, as the specification states it, fails at XP 0: the code answers
    level 1, the formula 1 + (thresholds reached) answers 2. *)
Lemma C3_formula_off_by_one :
  0 ≤ 0 ∧ computeLevel 0 = 1 ∧ specLevel LEVEL_THRESHOLDS 0 = 2
  ∧ computeLevel 0 ≠ specLevel LEVEL_THRESHOLDS 0.
Proof. vm_compute. repeat split; congruence. Qed.

(** C3 (amended): for every non-negative XP, [computeLevel] is the number
    of thresholds of [0; 50; 200; 600; 1500; 3500; 7500] that are at most
    the XP, which lies between 1 and the length of the table. *)
Theorem C3_level_is_thresholds_reached (xp : Z) :
  0 ≤ xp ->
  computeLevel xp = reached LEVEL_THRESHOLDS xp
  ∧ 1 ≤ computeLevel xp ≤ Z.of_nat (length LEVEL_THRESHOLDS).
Proof.
  intros Hxp. rewrite computeLevel_reached.
  pose proof (reached_bounds LEVEL_THRESHOLDS xp) as Hb.
  assert (1 ≤ reached LEVEL_THRESHOLDS xp).
  { unfold LEVEL_THRESHOLDS. rewrite reached_cons.
    pose proof (reached_bounds [50; 200; 600; 1500; 3500; 7500] xp).
    destruct (decide (0 ≤ xp)); lia. }
  lia.
Qed.

Lemma C3_level_witness :
  0 ≤ 200
  ∧ computeLevel 200 = reached LEVEL_THRESHOLDS 200
  ∧ 1 ≤ computeLevel 200 ≤ Z.of_nat (length LEVEL_THRESHOLDS).
Proof. split; [lia | apply (C3_level_is_thresholds_reached 200); lia]. Defined.

(** C4: [computeLevel] is non-decreasing, is 1 at XP 0, never exceeds the
    length of the threshold table, and takes the listed values at 49, 50,
    7500 and 1,000,000.  It is a total function: there is no input on which
    it fails. *)
Theorem C4_level_monotone_capped :
  (forall a b : Z, a ≤ b -> computeLevel a ≤ computeLevel b)
  ∧ computeLevel 0 = 1
  ∧ (forall xp : Z, computeLevel xp ≤ Z.of_nat (length LEVEL_THRESHOLDS))
  ∧ computeLevel 49 = 1
  ∧ computeLevel 50 = 2
  ∧ computeLevel 7500 = 7
  ∧ computeLevel 1000000 = 7.
Proof.
  split; [|split; [reflexivity|split; [|repeat split; reflexivity]]].
  - intros a b Hab. rewrite !computeLevel_reached.
    pose proof (reached_mono LEVEL_THRESHOLDS a b Hab). lia.
  - intros xp. unfold computeLevel, computeLevelWith. lia.
Qed.

Lemma C4_level_witness : 49 ≤ 50 ∧ computeLevel 49 ≤ computeLevel 50.
Proof. split; [lia | apply (proj1 C4_level_monotone_capped 49 50); lia]. Defined.

End LevelFacts.

(** ** XP ledger *)

Section LedgerFacts.

Lemma truthy_Some s : s ≠ ""%string -> truthy (Some s) = true.
Proof.
  intros Hs. unfold truthy. destruct (String.eqb_spec s ""); [contradiction|reflexivity].
Qed.

Lemma awardXpOnce_fresh clk u eventId amount metadata w :
  u ≠ ""%string -> eventId ≠ ""%string -> 0 < amount ->
  xp_events (db w) !! (u, eventId) = None ->
  awardXpOnce clk (Some u) eventId amount metadata w =
    (mkAward true
       (Some (Level.computeLevel (default 0 (allTimeXP (statsOf w u)) + amount))),
     granted clk u eventId amount metadata w).
Proof.
  intros Hu He Ha Hfresh. unfold awardXpOnce.
  rewrite !truthy_Some by assumption.
  rewrite (proj2 (Z.leb_gt amount 0)) by lia.
  cbn [negb orb default from_option id].
  unfold runTransaction, bind, getXp. cbv beta.
  rewrite Hfresh. cbv beta iota.
  unfold getStats, putXp, setStatsMerge, putStats, ret, granted, statsOf, logOp.
  cbn [db trace stats xp_events badges moments daily_reflections].
  rewrite <- !app_assoc. reflexivity.
Qed.

Lemma awardXpOnce_repeat clk u eventId amount metadata w e :
  u ≠ ""%string -> eventId ≠ ""%string -> 0 < amount ->
  xp_events (db w) !! (u, eventId) = Some e ->
  awardXpOnce clk (Some u) eventId amount metadata w =
    (notAwarded, logOp (OpGet (XpRef u eventId)) w).
Proof.
  intros Hu He Ha Hseen. unfold awardXpOnce.
  rewrite !truthy_Some by assumption.
  rewrite (proj2 (Z.leb_gt amount 0)) by lia.
  cbn [negb orb default from_option id].
  unfold runTransaction, bind, getXp. cbv beta.
  rewrite Hseen. reflexivity.
Qed.

Lemma granted_event clk u eventId amount metadata w :
  xp_events (db (granted clk u eventId amount metadata w)) !! (u, eventId)
  = Some (mkXpEvent amount (now clk) (currentWeekKey clk) (default ∅ metadata)).
Proof. unfold granted. cbn [db xp_events]. apply lookup_insert_eq. Qed.

Lemma statsOf_granted clk u eventId amount metadata w :
  statsOf (granted clk u eventId amount metadata w) u =
    let s := statsOf w u in
    let weekKey := currentWeekKey clk in
    let all := default 0 (allTimeXP s) + amount in
    mergeStats
      (ledgerPatch weekKey
         ((if decide (weeklyKey s = Some weekKey) then default 0 (weeklyXP s) else 0)
          + amount)
         all (Level.computeLevel all)
         (Level.computeLevelName (Level.computeLevel all)))
      s.
Proof.
  unfold granted. set (s := statsOf w u). unfold statsOf. cbn [db stats].
  rewrite lookup_insert_eq. reflexivity.
Qed.

Lemma granted_stats clk u eventId amount metadata w :
  let s := statsOf w u in
  let s' := statsOf (granted clk u eventId amount metadata w) u in
  allTimeXP s' = Some (default 0 (allTimeXP s) + amount)
  ∧ weeklyXP s' =
      Some ((if decide (weeklyKey s = Some (currentWeekKey clk))
             then default 0 (weeklyXP s) else 0) + amount)
  ∧ weeklyKey s' = Some (currentWeekKey clk)
  ∧ level s' = Some (Level.computeLevel (default 0 (allTimeXP s) + amount))
  ∧ levelName s' =
      Some (Level.computeLevelName
              (Level.computeLevel (default 0 (allTimeXP s) + amount))).
Proof.
  cbv zeta. rewrite statsOf_granted. repeat split; reflexivity.
Qed.

(** C9: with a missing or empty user id, an empty key or an amount that is
    not positive, [awardXpOnce] returns [{awarded: false, level: null}] and
    is a no-op: the store is the one it started from and the trace of reads
    and writes has gained no entry. *)
Theorem C9_award_invalid_input_noop clk uid eventId amount metadata w :
  uid = None ∨ uid = Some ""%string ∨ eventId = ""%string ∨ amount ≤ 0 ->
  awardXpOnce clk uid eventId amount metadata w = (mkAward false None, w).
Proof.
  intros H. unfold awardXpOnce.
  assert (negb (truthy uid) || negb (truthy (Some eventId)) || (amount <=? 0) = true)
    as ->; [|reflexivity].
  destruct H as [->|[->|[->|Ha]]]; try reflexivity.
  - destruct (truthy uid); reflexivity.
  - rewrite (proj2 (Z.leb_le amount 0) Ha).
    destruct (truthy uid), (truthy (Some eventId)); reflexivity.
Qed.

Lemma C9_award_invalid_input_witness :
  ((None : option string) = None ∨ (None : option string) = Some ""%string
   ∨ "K"%string = ""%string ∨ 10 ≤ 0)
  ∧ awardXpOnce (clockAt "2024-W01" "2024-01-08") None "K" 10 None
      (storeOf "u1" (aggregate 40 40 "2024-W01"))
    = (mkAward false None, storeOf "u1" (aggregate 40 40 "2024-W01")).
Proof.
  split; [left; reflexivity|].
  apply (C9_award_invalid_input_noop _ None "K" 10 None). left; reflexivity.
Defined.

(** C1, as the specification states it, fails in two ways.  On a store
    whose weekly counter belongs to an earlier week and that holds no event
    at the key, the first call is awarded and yet [weeklyXP] goes from 40 to
    10 rather than up by the amount.  On a store that already holds an
    event at the key, the first of the two calls is not awarded and
    [allTimeXP] does not move. *)
Lemma C1_not_for_every_state :
  (let w := storeOf "u1" (aggregate 40 40 "2024-W01") in
   let clk := clockAt "2024-W02" "2024-01-08" in
   let '(r1, r2, w1, w2) := awardTwice clk clk (Some "u1"%string) "K" 10 None w in
   xp_events (db w) !! ("u1"%string, "K"%string) = None
   ∧ awarded r1 = true ∧ awarded r2 = false
   ∧ default 0 (weeklyXP (statsOf w "u1")) = 40
   ∧ default 0 (weeklyXP (statsOf w2 "u1")) = 10
   ∧ default 0 (weeklyXP (statsOf w2 "u1")) ≠ default 0 (weeklyXP (statsOf w "u1")) + 10)
  ∧ (let clk := clockAt "2024-W01" "2024-01-08" in
     let w :=
       (awardXpOnce clk (Some "u1"%string) "K" 10 None
          (storeOf "u1" (aggregate 40 40 "2024-W01"))).2 in
     let '(r1, r2, w1, w2) := awardTwice clk clk (Some "u1"%string) "K" 10 None w in
     awarded r1 = false
     ∧ default 0 (allTimeXP (statsOf w "u1")) = 50
     ∧ default 0 (allTimeXP (statsOf w2 "u1")) = 50
     ∧ default 0 (allTimeXP (statsOf w2 "u1")) ≠ default 0 (allTimeXP (statsOf w "u1")) + 10).
Proof. vm_compute. repeat split; congruence. Qed.

(** C1 (amended): on every store that holds no XP event at the key, for a
    non-empty user id, a non-empty key and a positive amount, two calls of
    [awardXpOnce] raise [allTimeXP] by the amount once, and set [weeklyXP]
    to the amount on top of the stored [weeklyXP] when the stored
    [weeklyKey] is the current week and on top of 0 otherwise; the first
    call returns [awarded: true], the second returns
    [{awarded: false, level: null}] and leaves the whole store, the
    aggregate included, as the first call left it. *)
Theorem C1_award_idempotent clk1 clk2 u key amount metadata w :
  u ≠ ""%string -> key ≠ ""%string -> 0 < amount ->
  xp_events (db w) !! (u, key) = None ->
  let '(r1, r2, w1, w2) := awardTwice clk1 clk2 (Some u) key amount metadata w in
  awarded r1 = true
  ∧ r2 = mkAward false None
  ∧ db w2 = db w1
  ∧ statsOf w2 u = statsOf w1 u
  ∧ allTimeXP (statsOf w2 u) = Some (default 0 (allTimeXP (statsOf w u)) + amount)
  ∧ weeklyXP (statsOf w2 u) =
      Some ((if decide (weeklyKey (statsOf w u) = Some (currentWeekKey clk1))
             then default 0 (weeklyXP (statsOf w u)) else 0) + amount).
Proof.
  intros Hu Hk Ha Hfresh. unfold awardTwice.
  rewrite awardXpOnce_fresh by assumption.
  rewrite (awardXpOnce_repeat clk2 u key amount metadata _ _ Hu Hk Ha
             (granted_event clk1 u key amount metadata w)).
  destruct (granted_stats clk1 u key amount metadata w) as (Hall & Hweek & _).
  repeat split; assumption.
Qed.

Lemma C1_award_idempotent_witness :
  let w := storeOf "u1" (aggregate 40 40 "2024-W01") in
  let clk := clockAt "2024-W01" "2024-01-08" in
  let '(r1, r2, w1, w2) := awardTwice clk clk (Some "u1"%string) "K" 10 None w in
  awarded r1 = true
  ∧ r2 = mkAward false None
  ∧ db w2 = db w1
  ∧ statsOf w2 "u1" = statsOf w1 "u1"
  ∧ allTimeXP (statsOf w2 "u1") = Some (default 0 (allTimeXP (statsOf w "u1")) + 10)
  ∧ weeklyXP (statsOf w2 "u1") =
      Some ((if decide (weeklyKey (statsOf w "u1") = Some (currentWeekKey clk))
             then default 0 (weeklyXP (statsOf w "u1")) else 0) + 10).
Proof.
  apply (C1_award_idempotent (clockAt "2024-W01" "2024-01-08")
           (clockAt "2024-W01" "2024-01-08") "u1" "K" 10 None
           (storeOf "u1" (aggregate 40 40 "2024-W01")));
    [discriminate | discriminate | lia | reflexivity].
Defined.

(** C2, as the specification states it, fails: in the scenario the call
    returns the level just reached, 2, and not level 1. *)
Lemma C2_returns_new_level :
  let w := storeOf "u1" (aggregate 40 40 "2024-W01") in
  let clk := clockAt "2024-W01" "2024-01-08" in
  let r := (awardXpOnce clk (Some "u1"%string) "MOMENT_COMPLETED_2024-01-08" 10 None w).1 in
  xp_events (db w) !! ("u1"%string, "MOMENT_COMPLETED_2024-01-08"%string) = None
  ∧ r = mkAward true (Some 2)
  ∧ r ≠ mkAward true (Some 1).
Proof. vm_compute. repeat split; congruence. Qed.

(** C2 (amended): from an aggregate with [allTimeXP] 40, [weeklyXP] 40 and
    [weeklyKey] "2024-W01", in week "2024-W01" and with no XP event at the
    key, [awardXpOnce(u1, "MOMENT_COMPLETED_2024-01-08", 10)] returns
    [{awarded: true, level: 2}] and the new aggregate has [allTimeXP] 50,
    [weeklyXP] 50 and [level] 2. *)
Theorem C2_end_to_end clk metadata w s :
  currentWeekKey clk = "2024-W01"%string ->
  stats (db w) !! "u1"%string = Some s ->
  allTimeXP s = Some 40 -> weeklyXP s = Some 40 -> weeklyKey s = Some "2024-W01"%string ->
  xp_events (db w) !! ("u1"%string, "MOMENT_COMPLETED_2024-01-08"%string) = None ->
  let (r, w') :=
    awardXpOnce clk (Some "u1"%string) "MOMENT_COMPLETED_2024-01-08" 10 metadata w in
  r = mkAward true (Some 2)
  ∧ allTimeXP (statsOf w' "u1") = Some 50
  ∧ weeklyXP (statsOf w' "u1") = Some 50
  ∧ level (statsOf w' "u1") = Some 2.
Proof.
  intros Hclk Hs Hall Hweekly Hkey Hfresh.
  rewrite awardXpOnce_fresh by (try discriminate; try lia; assumption).
  destruct (granted_stats clk "u1" "MOMENT_COMPLETED_2024-01-08" 10 metadata w)
    as (Ha & Hw & _ & Hl & _).
  rewrite Ha, Hw, Hl. unfold statsOf. rewrite Hs. cbn [default from_option id].
  rewrite Hall, Hweekly, Hkey, Hclk. rewrite decide_True by reflexivity.
  repeat split; reflexivity.
Qed.

Lemma C2_end_to_end_witness :
  let (r, w') :=
    awardXpOnce (clockAt "2024-W01" "2024-01-08") (Some "u1"%string)
      "MOMENT_COMPLETED_2024-01-08" 10 None (storeOf "u1" (aggregate 40 40 "2024-W01")) in
  r = mkAward true (Some 2)
  ∧ allTimeXP (statsOf w' "u1") = Some 50
  ∧ weeklyXP (statsOf w' "u1") = Some 50
  ∧ level (statsOf w' "u1") = Some 2.
Proof.
  apply (C2_end_to_end (clockAt "2024-W01" "2024-01-08") None
           (storeOf "u1" (aggregate 40 40 "2024-W01")) (aggregate 40 40 "2024-W01"));
    reflexivity.
Defined.

(** A call that is awarded had a user id, a key, a positive amount and no
    event stored at the key. *)
Lemma awardXpOnce_awarded clk uid eventId amount metadata w :
  awarded (awardXpOnce clk uid eventId amount metadata w).1 = true ->
  exists u, uid = Some u ∧ u ≠ ""%string ∧ eventId ≠ ""%string ∧ 0 < amount
            ∧ xp_events (db w) !! (u, eventId) = None.
Proof.
  unfold awardXpOnce. destruct uid as [u|]; [|discriminate].
  unfold truthy.
  destruct (String.eqb_spec u ""); [discriminate|].
  destruct (String.eqb_spec eventId ""); [discriminate|].
  destruct (Z.leb_spec amount 0); [discriminate|].
  cbn [negb orb default from_option id].
  unfold runTransaction, bind, getXp. cbv beta.
  destruct (xp_events (db w) !! (u, eventId)) eqn:Hx; [discriminate|].
  intros _. exists u. repeat split; assumption.
Qed.

(** C5: when the stored [weeklyKey] is not the current week key (or there
    is none), a successful [awardXpOnce] counts the stored [weeklyXP] as 0:
    the new [weeklyXP] is the amount and the stored [weeklyKey] becomes the
    current week key.  From [{weeklyXP: 40, weeklyKey: "2024-W01"}] in week
    "2024-W02", awarding 10 XP gives [weeklyXP] 10, not 50. *)
Theorem C5_weekly_reset :
  (forall clk u eventId amount metadata w,
     let (r, w') := awardXpOnce clk (Some u) eventId amount metadata w in
     awarded r = true ->
     weeklyKey (statsOf w u) ≠ Some (currentWeekKey clk) ->
     weeklyXP (statsOf w' u) = Some amount
     ∧ weeklyKey (statsOf w' u) = Some (currentWeekKey clk))
  ∧ (forall allTime,
       let (r, w') :=
         awardXpOnce (clockAt "2024-W02" "2024-01-08") (Some "u1"%string) "K" 10 None
           (storeOf "u1" (aggregate allTime 40 "2024-W01")) in
       awarded r = true
       ∧ weeklyXP (statsOf w' "u1") = Some 10
       ∧ weeklyXP (statsOf w' "u1") ≠ Some 50
       ∧ weeklyKey (statsOf w' "u1") = Some "2024-W02"%string).
Proof.
  assert (forall clk u eventId amount metadata w,
     let (r, w') := awardXpOnce clk (Some u) eventId amount metadata w in
     awarded r = true ->
     weeklyKey (statsOf w u) ≠ Some (currentWeekKey clk) ->
     weeklyXP (statsOf w' u) = Some amount
     ∧ weeklyKey (statsOf w' u) = Some (currentWeekKey clk)) as Hgen.
  { intros clk u eventId amount metadata w.
    pose proof (awardXpOnce_awarded clk (Some u) eventId amount metadata w) as Hinv.
    destruct (awardXpOnce clk (Some u) eventId amount metadata w) as [r w'] eqn:Hrun.
    intros Hr Hstale. destruct (Hinv Hr) as (u' & [= <-] & Hu & He & Ha & Hfresh).
    rewrite awardXpOnce_fresh in Hrun by assumption. injection Hrun as _ <-.
    destruct (granted_stats clk u eventId amount metadata w) as (_ & Hw & Hk & _).
    rewrite Hw, Hk. rewrite decide_False by assumption.
    split; reflexivity. }
  split; [exact Hgen|].
  intros allTime.
  specialize (Hgen (clockAt "2024-W02" "2024-01-08") "u1"%string "K"%string 10 None
                (storeOf "u1" (aggregate allTime 40 "2024-W01"))).
  rewrite awardXpOnce_fresh in * by (try discriminate; try lia; reflexivity).
  destruct Hgen as (Hw & Hk); [reflexivity | vm_compute; congruence |].
  rewrite Hw. split; [reflexivity|]. split; [reflexivity|].
  split; [congruence | exact Hk].
Qed.

Lemma C5_weekly_reset_witness :
  let (r, w') :=
    awardXpOnce (clockAt "2024-W02" "2024-01-08") (Some "u1"%string) "K" 10 None
      (storeOf "u1" (aggregate 40 40 "2024-W01")) in
  awarded r = true
  ∧ weeklyKey (statsOf (storeOf "u1" (aggregate 40 40 "2024-W01")) "u1")
      ≠ Some (currentWeekKey (clockAt "2024-W02" "2024-01-08"))
  ∧ weeklyXP (statsOf w' "u1") = Some 10
  ∧ weeklyKey (statsOf w' "u1") = Some (currentWeekKey (clockAt "2024-W02" "2024-01-08")).
Proof.
  pose proof (proj1 C5_weekly_reset (clockAt "2024-W02" "2024-01-08") "u1"%string
                "K"%string 10 None (storeOf "u1" (aggregate 40 40 "2024-W01"))) as H.
  destruct (awardXpOnce (clockAt "2024-W02" "2024-01-08") (Some "u1"%string) "K" 10 None
              (storeOf "u1" (aggregate 40 40 "2024-W01"))) as [r w'] eqn:Hrun.
  assert (awarded r = true) as Hr.
  { change r with (r, w').1. rewrite <- Hrun. reflexivity. }
  assert (weeklyKey (statsOf (storeOf "u1" (aggregate 40 40 "2024-W01")) "u1")
            ≠ Some (currentWeekKey (clockAt "2024-W02" "2024-01-08"))) as Hstale.
  { vm_compute. congruence. }
  split; [exact Hr|]. split; [exact Hstale|]. exact (H Hr Hstale).
Defined.

End LedgerFacts.

(** ** Streak walk *)

Section StreakFacts.

#[local] Instance laterFirst_total : Total laterFirst.
Proof. intros x y. unfold laterFirst. lia. Qed.

Lemma streakWalk_snoc l d : streakWalk (l ++ [d]) = streakStep (streakWalk l) d.
Proof. unfold streakWalk. rewrite fold_left_app. reflexivity. Qed.

Lemma prev_streakWalk_snoc l p : prev (streakWalk (l ++ [p])) = Some p.
Proof. rewrite streakWalk_snoc. reflexivity. Qed.

Lemma streakStep_bounds acc d :
  0 ≤ streak acc ≤ bestStreak acc ->
  0 ≤ streak (streakStep acc d) ≤ bestStreak (streakStep acc d).
Proof.
  intros H. unfold streakStep. cbn [streak bestStreak].
  destruct (prev acc) as [p|]; [|lia].
  destruct (p - d =? DAY_MS); [lia|].
  destruct (p - d >? DAY_MS); lia.
Qed.

Lemma fold_streakStep_bounds l acc :
  0 ≤ streak acc ≤ bestStreak acc ->
  0 ≤ streak (fold_left streakStep l acc) ≤ bestStreak (fold_left streakStep l acc).
Proof.
  revert acc. induction l as [|d l IH]; intros acc H; [exact H|].
  cbn [fold_left]. apply IH, streakStep_bounds, H.
Qed.

Lemma streakWalk_bounds l :
  0 ≤ streak (streakWalk l) ≤ bestStreak (streakWalk l).
Proof. apply fold_streakStep_bounds. cbn. lia. Qed.





Lemma fold_reflectionStep_dates rs acc :
  acc_reflectionDates (fold_left reflectionStep rs acc)
  = acc_reflectionDates acc ++ completedDates rs.
Proof.
  revert acc. induction rs as [|r rs IH]; intros acc.
  - cbn. rewrite app_nil_r. reflexivity.
  - cbn [fold_left]. rewrite IH. unfold completedDates. rewrite filter_cons.
    unfold reflectionStep. destruct (r_completed r.2) eqn:E.
    + rewrite decide_True by reflexivity. cbn [acc_reflectionDates map].
      rewrite <- app_assoc. reflexivity.
    + rewrite decide_False by congruence. reflexivity.
Qed.

#[local] Instance laterFirst_trans : Transitive laterFirst.
Proof. intros x y z. unfold laterFirst. lia. Qed.

#[local] Instance laterFirst_antisymm : AntiSymm (=) laterFirst.
Proof. intros x y. unfold laterFirst. lia. Qed.




End StreakFacts.

(** ** Reconciliation of the statistics *)

Section ReconcileFacts.

Variable parseDate : string -> option Z.

Lemma statsUpdates_streak clk momentsSnap reflectionsSnap :
  let dates := completedDates reflectionsSnap in
  let walk := streakWalk (sortedDates parseDate dates) in
  streakDays (statsUpdates parseDate clk momentsSnap reflectionsSnap)
    = Some (if bool_decide (currentDateKey clk ∈ dates) then streak walk else 0)
  ∧ bestStreakDays (statsUpdates parseDate clk momentsSnap reflectionsSnap)
    = Some (bestStreak walk).
Proof.
  cbv zeta. unfold statsUpdates. cbn [streakDays bestStreakDays].
  rewrite fold_reflectionStep_dates. cbn [acc_reflectionDates app].
  destruct (bool_decide _); split; reflexivity.
Qed.

(** The run of [reconcileStatsFromData]: the [updates] it returns and the
    store it leaves. *)
Lemma reconcileStatsFromData_run clk uid w :
  let prior := priorAggregate clk w uid in
  let updates :=
    statsUpdates parseDate clk (default [] (moments (db w) !! uid))
      (default [] (daily_reflections (db w) !! uid)) in
  let (r, w') := reconcileStatsFromData parseDate clk uid w in
  r = updates
  ∧ stats (db w') = <[uid := mergeStats updates prior]> (stats (db w))
  ∧ xp_events (db w') = xp_events (db w)
  ∧ badges (db w') = badges (db w)
  ∧ moments (db w') = moments (db w)
  ∧ daily_reflections (db w') = daily_reflections (db w).
Proof.
  cbv zeta. unfold reconcileStatsFromData, ensureStatsDoc, priorAggregate, bind, getStats.
  cbv beta. destruct (stats (db w) !! uid) as [s|] eqn:Hs.
  - unfold ret, getMoments, getReflections, setStatsMerge, putStats, logOp.
    cbn [db trace stats xp_events badges moments daily_reflections default from_option id].
    rewrite Hs. repeat split; reflexivity.
  - unfold ret, getMoments, getReflections, setStatsMerge, putStats, logOp.
    cbn [db trace stats xp_events badges moments daily_reflections default from_option id].
    rewrite lookup_insert_eq. cbn [default from_option id].
    rewrite insert_insert_eq. repeat split; reflexivity.
Qed.

End ReconcileFacts.



(** C10: in the updates [reconcileStatsFromData] produces, and in the
    aggregate it leaves in the store, [streakDays] is at most
    [bestStreakDays]; forcing [streakDays] to 0 leaves [bestStreakDays]
    as the walk computed it. *)
Theorem C10_streak_le_best parseDate clk uid w :
  let (updates, w') := reconcileStatsFromData parseDate clk uid w in
  exists s b : Z,
    streakDays updates = Some s
    ∧ bestStreakDays updates = Some b
    ∧ s ≤ b
    ∧ streakDays (statsOf w' uid) = Some s
    ∧ bestStreakDays (statsOf w' uid) = Some b
    ∧ b = bestStreak (streakWalk (sortedDates parseDate
            (completedDates (default [] (daily_reflections (db w) !! uid))))).
Proof.
  pose proof (reconcileStatsFromData_run parseDate clk uid w) as Hrun. cbv zeta in Hrun.
  destruct (reconcileStatsFromData parseDate clk uid w) as [updates w'].
  destruct Hrun as (-> & Hstats & _).
  destruct (statsUpdates_streak parseDate clk (default [] (moments (db w) !! uid))
              (default [] (daily_reflections (db w) !! uid))) as [Hd Hb].
  pose proof (streakWalk_bounds (sortedDates parseDate
                (completedDates (default [] (daily_reflections (db w) !! uid))))) as Hbd.
  eexists _, _. split; [exact Hd|]. split; [exact Hb|].
  split; [destruct (bool_decide _); lia|].
  unfold statsOf. rewrite Hstats, lookup_insert_eq. cbn [default from_option id].
  unfold mergeStats. cbn [streakDays bestStreakDays]. rewrite Hd, Hb.
  repeat split; reflexivity.
Qed.



(** ** Badge engine *)

Section BadgeFacts.

(** The other writer, [awardBadge], never takes a badge back: a badge that
    is stored as earned is left as it is. *)
Lemma awardBadge_keeps_earned clk uid badgeId b w :
  badges (db w) !! (uid, badgeId) = Some b -> earned b = true ->
  badges (db (awardBadge clk (Some uid) badgeId w).2) = badges (db w).
Proof.
  intros Hb He. unfold awardBadge.
  destruct (getBadgeDefinition badgeId); [|reflexivity].
  destruct (negb (truthy (Some uid))); [reflexivity|].
  cbn [default from_option id]. unfold bind, getBadge. cbv beta.
  rewrite Hb, He. reflexivity.
Qed.

(** Whatever [awardBadge] writes is an earned badge. *)
Lemma awardBadge_only_earns clk uid badgeId w b' :
  (awardBadge clk (Some uid) badgeId w).1 = mkAwardBadge true false (getBadgeDefinition badgeId) ->
  badges (db (awardBadge clk (Some uid) badgeId w).2) !! (uid, badgeId) = Some b' ->
  earned b' = true.
Proof.
  unfold awardBadge.
  destruct (getBadgeDefinition badgeId) as [def|]; [|discriminate].
  destruct (negb (truthy (Some uid))); [discriminate|].
  cbn [default from_option id]. unfold bind, getBadge. cbv beta.
  destruct (match badges (db w) !! (uid, badgeId) with
            | Some b => earned b
            | None => false
            end); [discriminate|].
  intros _. unfold putBadge, ret, logOp. cbn [snd db badges].
  rewrite lookup_insert_eq. intros [= <-]. reflexivity.
Qed.

(** C7 does not hold of [reconcileBadges].  A user completes the daily
    reflection on Monday, Tuesday and Wednesday; opening the app on
    Wednesday earns the 3-day streak badge; opening it on Thursday, before
    that day's reflection, recomputes [streakDays] as 0 and the same badge
    is written back with [earned = false] and [earnedAt = null]. *)
Theorem C7_streak_badge_taken_back :
  let wed := (reconcileOnOpen (clockAt "2024-W02" Wed) "u1" threeDayStore).2 in
  let thu := (reconcileOnOpen (clockAt "2024-W02" Thu) "u1" wed).2 in
  earnedFlag wed "u1" "streak_starter" = Some true
  ∧ streakDays (statsOf wed "u1") = Some 3
  ∧ streakDays (statsOf thu "u1") = Some 0
  ∧ earnedFlag thu "u1" "streak_starter" = Some false
  ∧ (earnedAt <$> badges (db thu) !! ("u1"%string, "streak_starter"%string)) = Some None.
Proof. vm_compute. repeat split; reflexivity. Qed.

End BadgeFacts.

(** * Further properties of the engine *)

(** ** XP ledger *)

Section LedgerMore.

(** The three ways a call of [awardXpOnce] can go: refused before any
    access, refused because the event is stored already, or granted. *)
Lemma awardXpOnce_cases clk uid eventId amount metadata w :
  awardXpOnce clk uid eventId amount metadata w = (notAwarded, w)
  ∨ (exists u e, uid = Some u ∧ xp_events (db w) !! (u, eventId) = Some e
       ∧ awardXpOnce clk uid eventId amount metadata w
         = (notAwarded, logOp (OpGet (XpRef u eventId)) w))
  ∨ (exists u, uid = Some u ∧ u ≠ ""%string ∧ eventId ≠ ""%string ∧ 0 < amount
       ∧ xp_events (db w) !! (u, eventId) = None
       ∧ awardXpOnce clk uid eventId amount metadata w
         = (mkAward true
              (Some (Level.computeLevel (default 0 (allTimeXP (statsOf w u)) + amount))),
            granted clk u eventId amount metadata w)).
Proof.
  destruct uid as [u|]; [|left; reflexivity].
  destruct (decide (u = ""%string)) as [->|Hu]; [left; reflexivity|].
  destruct (decide (eventId = ""%string)) as [->|He].
  { left. unfold awardXpOnce. rewrite truthy_Some by assumption. reflexivity. }
  destruct (Z.leb_spec amount 0) as [Ha|Ha].
  { left. unfold awardXpOnce. rewrite !truthy_Some by assumption.
    rewrite (proj2 (Z.leb_le amount 0) Ha). reflexivity. }
  destruct (xp_events (db w) !! (u, eventId)) as [e|] eqn:Hx.
  - right; left. exists u, e. split; [reflexivity|]. split; [exact Hx|].
    apply (awardXpOnce_repeat _ _ _ _ _ _ e); assumption.
  - right; right. exists u. repeat split; try assumption.
    apply awardXpOnce_fresh; assumption.
Qed.

(** A call that is not awarded leaves every document as it was. *)
Lemma awardXpOnce_refused_db clk uid eventId amount metadata w :
  awarded (awardXpOnce clk uid eventId amount metadata w).1 = false ->
  db (awardXpOnce clk uid eventId amount metadata w).2 = db w.
Proof.
  destruct (awardXpOnce_cases clk uid eventId amount metadata w)
    as [->|[(u & e & _ & _ & ->)|(u & _ & _ & _ & _ & _ & ->)]];
    [reflexivity | reflexivity | discriminate].
Qed.

End LedgerMore.

Section LedgerFrame.

Lemma mergeStats_ledgerPatch_frame wk weekly all lvl name s :
  reconciledFields (mergeStats (ledgerPatch wk weekly all lvl name) s) = reconciledFields s
  ∧ otherFields (mergeStats (ledgerPatch wk weekly all lvl name) s) = otherFields s.
Proof. split; reflexivity. Qed.

Lemma statsOf_granted_other clk u eventId amount metadata w u' :
  u' ≠ u -> stats (db (granted clk u eventId amount metadata w)) !! u' = stats (db w) !! u'.
Proof. intros Hne. unfold granted. cbn [db stats]. apply lookup_insert_ne. congruence. Qed.

(** X1: [awardXpOnce] is append-only on the XP events and writes nothing but
    the ledger fields of the caller's aggregate: whatever the arguments,
    every stored XP event is still stored unchanged, the badges and the
    activity collections are untouched, the stats of other users are
    untouched, and the fields of the caller's aggregate that the ledger does
    not own keep their value.  An awarded call stores one event, at its key,
    holding the amount and the current week key. *)
Theorem award_append_only_frame clk uid eventId amount metadata w :
  let (r, w') := awardXpOnce clk uid eventId amount metadata w in
  (forall k e, xp_events (db w) !! k = Some e -> xp_events (db w') !! k = Some e)
  ∧ badges (db w') = badges (db w)
  ∧ moments (db w') = moments (db w)
  ∧ daily_reflections (db w') = daily_reflections (db w)
  ∧ (forall u, Some u ≠ uid -> stats (db w') !! u = stats (db w) !! u)
  ∧ (forall u, reconciledFields (statsOf w' u) = reconciledFields (statsOf w u)
               ∧ otherFields (statsOf w' u) = otherFields (statsOf w u))
  ∧ (awarded r = true ->
       exists u, uid = Some u
         ∧ xp_events (db w) !! (u, eventId) = None
         ∧ xp_events (db w') =
             <[(u, eventId) := mkXpEvent amount (now clk) (currentWeekKey clk)
                                 (default ∅ metadata)]> (xp_events (db w))).
Proof.
  destruct (awardXpOnce_cases clk uid eventId amount metadata w)
    as [->|[(u & e & _ & _ & ->)|(u & -> & Hu & He & Ha & Hfresh & ->)]].
  - repeat split; auto; discriminate.
  - repeat split; auto; discriminate.
  - split; [|split; [reflexivity|split; [reflexivity|split; [reflexivity|split; [|split]]]]].
    + intros k e Hk. unfold granted. cbn [db xp_events].
      rewrite lookup_insert_ne; [exact Hk|]. intros <-. congruence.
    + intros u' Hne. apply statsOf_granted_other. congruence.
    + intros u'. destruct (decide (u' = u)) as [->|Hne].
      * rewrite statsOf_granted. apply mergeStats_ledgerPatch_frame.
      * unfold statsOf. rewrite statsOf_granted_other by assumption. split; reflexivity.
    + intros _. exists u. repeat split; [exact Hfresh].
Qed.

Lemma award_append_only_frame_witness :
  let w := storeOf "u1" (aggregate 40 40 "2024-W01") in
  let clk := clockAt "2024-W01" "2024-01-08" in
  let (r, w') := awardXpOnce clk (Some "u1"%string) "K" 10 None w in
  awarded r = true
  ∧ xp_events (db w') = <[("u1"%string, "K"%string) := mkXpEvent 10 (now clk) "2024-W01" ∅]> ∅.
Proof.
  cbv zeta.
  pose proof (award_append_only_frame (clockAt "2024-W01" "2024-01-08") (Some "u1"%string)
                "K" 10 None (storeOf "u1" (aggregate 40 40 "2024-W01"))) as H.
  destruct (awardXpOnce (clockAt "2024-W01" "2024-01-08") (Some "u1"%string) "K" 10 None
              (storeOf "u1" (aggregate 40 40 "2024-W01"))) as [r w'] eqn:Hrun.
  assert (awarded r = true) as Hr.
  { change r with (r, w').1. rewrite <- Hrun. reflexivity. }
  destruct H as (_ & _ & _ & _ & _ & _ & H).
  destruct (H Hr) as (u & [= <-] & _ & ->). split; [exact Hr | reflexivity].
Defined.

(** X2: An awarded call raises [allTimeXP] by the amount and leaves the stored
    [level] and [levelName] in agreement with it; the level computed from
    the XP never goes down. *)
Theorem award_level_consistent clk u eventId amount metadata w :
  let (r, w') := awardXpOnce clk (Some u) eventId amount metadata w in
  awarded r = true ->
  let xp := default 0 (allTimeXP (statsOf w u)) in
  let xp' := default 0 (allTimeXP (statsOf w' u)) in
  xp' = xp + amount
  ∧ xp < xp'
  ∧ level (statsOf w' u) = Some (Level.computeLevel xp')
  ∧ levelName (statsOf w' u) = Some (Level.computeLevelName (Level.computeLevel xp'))
  ∧ awardedLevel r = Some (Level.computeLevel xp')
  ∧ Level.computeLevel xp ≤ Level.computeLevel xp'.
Proof.
  pose proof (awardXpOnce_awarded clk (Some u) eventId amount metadata w) as Hinv.
  destruct (awardXpOnce clk (Some u) eventId amount metadata w) as [r w'] eqn:Hrun.
  intros Hr. destruct (Hinv Hr) as (u' & [= <-] & Hu & He & Ha & Hfresh).
  rewrite awardXpOnce_fresh in Hrun by assumption. injection Hrun as <- <-.
  destruct (granted_stats clk u eventId amount metadata w) as (Hall & _ & _ & Hl & Hn).
  cbv zeta. rewrite Hall, Hl, Hn. cbn [default from_option id awardedLevel].
  repeat split; try reflexivity; try lia.
  rewrite !computeLevel_reached.
  pose proof (reached_mono Level.LEVEL_THRESHOLDS (default 0 (allTimeXP (statsOf w u)))
                (default 0 (allTimeXP (statsOf w u)) + amount)). lia.
Qed.

Lemma award_level_consistent_witness :
  let w := storeOf "u1" (aggregate 40 40 "2024-W01") in
  let (r, w') := awardXpOnce (clockAt "2024-W01" "2024-01-08") (Some "u1"%string) "K" 10 None w in
  awarded r = true
  ∧ level (statsOf w' "u1") = Some (Level.computeLevel (default 0 (allTimeXP (statsOf w' "u1")))).
Proof.
  cbv zeta.
  pose proof (award_level_consistent (clockAt "2024-W01" "2024-01-08") "u1"%string
                "K" 10 None (storeOf "u1" (aggregate 40 40 "2024-W01"))) as H.
  destruct (awardXpOnce (clockAt "2024-W01" "2024-01-08") (Some "u1"%string) "K" 10 None
              (storeOf "u1" (aggregate 40 40 "2024-W01"))) as [r w'] eqn:Hrun.
  assert (awarded r = true) as Hr.
  { change r with (r, w').1. rewrite <- Hrun. reflexivity. }
  split; [exact Hr|]. exact (proj1 (proj2 (proj2 (H Hr)))).
Defined.

End LedgerFrame.

Section LedgerSum.

Lemma xpTotal_insert d d' u eventId e uid :
  xp_events d !! (u, eventId) = None ->
  xp_events d' = <[(u, eventId) := e]> (xp_events d) ->
  xpTotal d' uid = (if decide (u = uid) then xp_amount e else 0) + xpTotal d uid.
Proof.
  intros Hfresh Hev. unfold xpTotal. rewrite Hev.
  rewrite map_fold_insert_L; [|intros; repeat case_decide; lia | exact Hfresh].
  cbn [fst]. destruct (decide (u = uid)); lia.
Qed.

Lemma xpTotal_same_events d d' uid :
  xp_events d' = xp_events d -> xpTotal d' uid = xpTotal d uid.
Proof. intros H. unfold xpTotal. rewrite H. reflexivity. Qed.

(* A call of [awardXpOnce] adds the amount to [allTimeXP] exactly when it
   stores the event. *)
Lemma awardXpOnce_ledgerConsistent clk uid eventId amount metadata w :
  ledgerConsistent (db w) ->
  ledgerConsistent (db (awardXpOnce clk uid eventId amount metadata w).2).
Proof.
  intros Hc.
  destruct (awardXpOnce_cases clk uid eventId amount metadata w)
    as [->|[(u & e & _ & _ & ->)|(u & -> & Hu & He & Ha & Hfresh & ->)]];
    [exact Hc | exact Hc |].
  cbn [snd]. intros uid.
  rewrite (xpTotal_insert (db w) (db (granted clk u eventId amount metadata w)) u eventId
             (mkXpEvent amount (now clk) (currentWeekKey clk) (default ∅ metadata)) uid
             Hfresh eq_refl).
  cbn [xp_amount]. specialize (Hc uid).
  destruct (decide (u = uid)) as [<-|Hne].
  - change (default emptyStats (stats (db (granted clk u eventId amount metadata w)) !! u))
      with (statsOf (granted clk u eventId amount metadata w) u).
    destruct (granted_stats clk u eventId amount metadata w) as (-> & _).
    cbn [default from_option id]. unfold statsOf. lia.
  - rewrite statsOf_granted_other by congruence. lia.
Qed.

End LedgerSum.

Section LedgerCommute.

Lemma granted_db clk u eventId amount metadata w :
  db (granted clk u eventId amount metadata w) =
    mkDb (<[u := ledgerGrant (currentWeekKey clk) amount (statsOf w u)]> (stats (db w)))
         (<[(u, eventId) := mkXpEvent amount (now clk) (currentWeekKey clk)
                              (default ∅ metadata)]> (xp_events (db w)))
         (badges (db w)) (moments (db w)) (daily_reflections (db w)).
Proof. reflexivity. Qed.

Lemma statsOf_granted_ledgerGrant clk u eventId amount metadata w :
  statsOf (granted clk u eventId amount metadata w) u
  = ledgerGrant (currentWeekKey clk) amount (statsOf w u).
Proof. rewrite statsOf_granted. reflexivity. Qed.

Lemma ledgerGrant_comm wk a1 a2 s :
  ledgerGrant wk a2 (ledgerGrant wk a1 s) = ledgerGrant wk a1 (ledgerGrant wk a2 s).
Proof.
  unfold ledgerGrant, mergeStats, ledgerPatch.
  cbn [allTimeXP weeklyXP weeklyKey level levelName activeBadgeId momentsCount
       reflectionsCount streakDays bestStreakDays journeyDay journeyWeekKey lastMomentAt
       lastReflectionAt depthMoments emotionCounts patternsViewed orElse mergeMap
       default from_option id].
  destruct (decide (Some wk = Some wk)) as [_|Hn]; [|congruence].
  replace (default 0 (allTimeXP s) + a2 + a1) with (default 0 (allTimeXP s) + a1 + a2) by lia.
  f_equal. f_equal. lia.
Qed.

Lemma allTimeXP_ledgerGrant wk a s :
  allTimeXP (ledgerGrant wk a s) = Some (default 0 (allTimeXP s) + a).
Proof. reflexivity. Qed.

(** X3: Grants under different keys add up, in either order: with one clock,
    awarding [k1] then [k2] leaves the same documents as awarding [k2] then
    [k1], both calls are awarded, and [allTimeXP] has gained both amounts. *)
Theorem award_distinct_keys_commute clk u k1 k2 a1 a2 md1 md2 w :
  u ≠ ""%string -> k1 ≠ ""%string -> k2 ≠ ""%string -> 0 < a1 -> 0 < a2 -> k1 ≠ k2 ->
  xp_events (db w) !! (u, k1) = None -> xp_events (db w) !! (u, k2) = None ->
  let (r1, w1) := awardXpOnce clk (Some u) k1 a1 md1 w in
  let (r2, w12) := awardXpOnce clk (Some u) k2 a2 md2 w1 in
  let (r2', w2) := awardXpOnce clk (Some u) k2 a2 md2 w in
  let (r1', w21) := awardXpOnce clk (Some u) k1 a1 md1 w2 in
  awarded r1 = true ∧ awarded r2 = true ∧ awarded r2' = true ∧ awarded r1' = true
  ∧ db w12 = db w21
  ∧ allTimeXP (statsOf w12 u) = Some (default 0 (allTimeXP (statsOf w u)) + a1 + a2).
Proof.
  intros Hu Hk1 Hk2 Ha1 Ha2 Hne Hf1 Hf2.
  rewrite (awardXpOnce_fresh clk u k1 a1 md1 w) by assumption.
  rewrite (awardXpOnce_fresh clk u k2 a2 md2 w) by assumption.
  rewrite (awardXpOnce_fresh clk u k2 a2 md2 (granted clk u k1 a1 md1 w)); try assumption.
  2:{ rewrite granted_db. cbn [xp_events]. rewrite lookup_insert_ne by congruence. exact Hf2. }
  rewrite (awardXpOnce_fresh clk u k1 a1 md1 (granted clk u k2 a2 md2 w)); try assumption.
  2:{ rewrite granted_db. cbn [xp_events]. rewrite lookup_insert_ne by congruence. exact Hf1. }
  split; [reflexivity|]. split; [reflexivity|]. split; [reflexivity|]. split; [reflexivity|].
  split.
  - rewrite (granted_db clk u k2), (granted_db clk u k1 a1 md1 (granted clk u k2 a2 md2 w)).
    rewrite !statsOf_granted_ledgerGrant, !granted_db.
    cbn [stats xp_events badges moments daily_reflections].
    rewrite !insert_insert_eq, ledgerGrant_comm.
    f_equal. apply insert_insert_ne. congruence.
  - rewrite !statsOf_granted_ledgerGrant, !allTimeXP_ledgerGrant. reflexivity.
Qed.

Lemma award_distinct_keys_commute_witness :
  let w := storeOf "u1" (aggregate 40 40 "2024-W01") in
  let clk := clockAt "2024-W01" "2024-01-08" in
  let (r1, w1) := awardXpOnce clk (Some "u1"%string) "A" 10 None w in
  let (r2, w12) := awardXpOnce clk (Some "u1"%string) "B" 5 None w1 in
  let (r2', w2) := awardXpOnce clk (Some "u1"%string) "B" 5 None w in
  let (r1', w21) := awardXpOnce clk (Some "u1"%string) "A" 10 None w2 in
  awarded r1 = true ∧ awarded r2 = true ∧ awarded r2' = true ∧ awarded r1' = true
  ∧ db w12 = db w21
  ∧ allTimeXP (statsOf w12 "u1") = Some (default 0 (allTimeXP (statsOf w "u1")) + 10 + 5).
Proof.
  apply (award_distinct_keys_commute (clockAt "2024-W01" "2024-01-08") "u1"%string
           "A"%string "B"%string 10 5 None None (storeOf "u1" (aggregate 40 40 "2024-W01")));
    try discriminate; try lia; reflexivity.
Defined.

End LedgerCommute.

(** ** Lazy creation and weekly reset of the aggregate *)

Section EnsureReset.

Lemma ensureStatsDoc_db clk uid w :
  db (ensureStatsDoc clk uid w).2 =
    match stats (db w) !! uid with
    | Some _ => db w
    | None => withStats (db w) (<[uid := initialStats (currentWeekKey clk)]> (stats (db w)))
    end.
Proof.
  unfold ensureStatsDoc, bind, getStats. cbv beta.
  destruct (stats (db w) !! uid); reflexivity.
Qed.

(** X4: [ensureStatsDoc] creates the aggregate only when there is none: an
    existing document is never overwritten, a missing one becomes the zeroed
    document (0 XP, level 1, named as [computeLevelName] names level 1, the
    level [computeLevel] gives for 0 XP), and a second call, at any later
    time, changes nothing.  No other document is touched. *)
Theorem ensureStatsDoc_creates_once clk clk' uid w :
  let w1 := (ensureStatsDoc clk uid w).2 in
  let w2 := (ensureStatsDoc clk' uid w1).2 in
  (forall s, stats (db w) !! uid = Some s -> db w1 = db w)
  ∧ (stats (db w) !! uid = None ->
       stats (db w1) !! uid = Some (initialStats (currentWeekKey clk)))
  ∧ is_Some (stats (db w1) !! uid)
  ∧ db w2 = db w1
  ∧ (forall other, other ≠ uid -> stats (db w1) !! other = stats (db w) !! other)
  ∧ xp_events (db w1) = xp_events (db w)
  ∧ badges (db w1) = badges (db w)
  ∧ allTimeXP (initialStats (currentWeekKey clk)) = Some 0
  ∧ level (initialStats (currentWeekKey clk)) = Some (Level.computeLevel 0)
  ∧ levelName (initialStats (currentWeekKey clk))
      = Some (Level.computeLevelName (Level.computeLevel 0)).
Proof.
  cbv zeta. rewrite (ensureStatsDoc_db clk' uid), (ensureStatsDoc_db clk uid w).
  destruct (stats (db w) !! uid) as [s|] eqn:Hs.
  - rewrite Hs. repeat split; eauto; discriminate.
  - unfold withStats. cbn [stats xp_events badges]. rewrite lookup_insert_eq.
    repeat split; eauto; try discriminate.
    intros other Hne. apply lookup_insert_ne. congruence.
Qed.

Lemma ensureStatsDoc_creates_once_witness :
  let w := storeOf "u1" (aggregate 40 40 "2024-W01") in
  db (ensureStatsDoc (clockAt "2024-W02" "2024-01-08") "u1" w).2 = db w
  ∧ stats (db (ensureStatsDoc (clockAt "2024-W02" "2024-01-08") "u2" w).2) !! "u2"%string
    = Some (initialStats "2024-W02").
Proof.
  cbv zeta.
  destruct (ensureStatsDoc_creates_once (clockAt "2024-W02" "2024-01-08")
              (clockAt "2024-W02" "2024-01-08") "u1"
              (storeOf "u1" (aggregate 40 40 "2024-W01"))) as (H1 & _).
  destruct (ensureStatsDoc_creates_once (clockAt "2024-W02" "2024-01-08")
              (clockAt "2024-W02" "2024-01-08") "u2"
              (storeOf "u1" (aggregate 40 40 "2024-W01"))) as (_ & H2 & _).
  split; [apply (H1 (aggregate 40 40 "2024-W01")); reflexivity | apply H2; reflexivity].
Defined.

Lemma reconcileWeeklyReset_db clk uid w :
  db (reconcileWeeklyReset clk uid w).2 =
    match stats (db w) !! uid with
    | Some s =>
        if decide (weeklyKey s = Some (currentWeekKey clk)) then db w
        else withStats (db w) (<[uid := weeklyResetOf (currentWeekKey clk) s]> (stats (db w)))
    | None => db w
    end.
Proof.
  unfold reconcileWeeklyReset, bind, getStats. cbv beta.
  destruct (stats (db w) !! uid) as [s|] eqn:Hs; [|reflexivity].
  destruct (decide (weeklyKey s = Some (currentWeekKey clk))); [reflexivity|].
  unfold setStatsMerge, putStats, logOp, weeklyResetOf, withStats.
  cbn [db trace stats xp_events badges moments daily_reflections snd].
  rewrite Hs. reflexivity.
Qed.

(** X5: [reconcileWeeklyReset] writes only when the stored week key is not the
    current one: then [weeklyXP] becomes 0 and [weeklyKey] the current key,
    while [allTimeXP], [level], [levelName] and every other field keep their
    value.  It does not create a missing aggregate, leaves a current one
    alone, touches no other document, and running it again changes
    nothing. *)
Theorem weeklyReset_behaviour clk uid w :
  let w1 := (reconcileWeeklyReset clk uid w).2 in
  (stats (db w) !! uid = None -> db w1 = db w)
  ∧ (forall s, stats (db w) !! uid = Some s ->
       weeklyKey s = Some (currentWeekKey clk) -> db w1 = db w)
  ∧ (forall s, stats (db w) !! uid = Some s ->
       weeklyKey s ≠ Some (currentWeekKey clk) ->
       exists s', stats (db w1) !! uid = Some s'
         ∧ weeklyXP s' = Some 0
         ∧ weeklyKey s' = Some (currentWeekKey clk)
         ∧ (allTimeXP s', level s', levelName s') = (allTimeXP s, level s, levelName s)
         ∧ reconciledFields s' = reconciledFields s
         ∧ otherFields s' = otherFields s)
  ∧ db (reconcileWeeklyReset clk uid w1).2 = db w1
  ∧ (forall other, other ≠ uid -> stats (db w1) !! other = stats (db w) !! other)
  ∧ xp_events (db w1) = xp_events (db w)
  ∧ badges (db w1) = badges (db w).
Proof.
  cbv zeta.
  rewrite (reconcileWeeklyReset_db clk uid (reconcileWeeklyReset clk uid w).2),
    !(reconcileWeeklyReset_db clk uid w).
  destruct (stats (db w) !! uid) as [s|] eqn:Hs.
  - destruct (decide (weeklyKey s = Some (currentWeekKey clk))) as [Hk|Hk].
    + rewrite Hs, decide_True by assumption.
      repeat split; eauto; try discriminate. intros s' [= <-] Hne. contradiction.
    + unfold withStats. cbn [stats xp_events badges]. rewrite lookup_insert_eq.
      rewrite decide_True by reflexivity.
      split; [discriminate|]. split; [intros s' [= <-] Hk'; contradiction|].
      split; [intros s' [= <-] _; eexists; split; [reflexivity|];
              repeat split; reflexivity|].
      split; [reflexivity|].
      split; [intros other Hne; apply lookup_insert_ne; congruence|].
      split; reflexivity.
  - rewrite Hs. repeat split; eauto; discriminate.
Qed.

Lemma weeklyReset_behaviour_witness :
  let w := storeOf "u1" (aggregate 40 40 "2024-W01") in
  let w1 := (reconcileWeeklyReset (clockAt "2024-W02" "2024-01-08") "u1" w).2 in
  exists s', stats (db w1) !! "u1"%string = Some s'
    ∧ weeklyXP s' = Some 0 ∧ weeklyKey s' = Some "2024-W02"%string
    ∧ allTimeXP s' = Some 40.
Proof.
  cbv zeta.
  destruct (weeklyReset_behaviour (clockAt "2024-W02" "2024-01-08") "u1"
              (storeOf "u1" (aggregate 40 40 "2024-W01"))) as (_ & _ & H & _).
  destruct (H (aggregate 40 40 "2024-W01")) as (s' & Hs' & Hw & Hk & Hall & _);
    [reflexivity | vm_compute; congruence |].
  exists s'. split; [exact Hs'|]. split; [exact Hw|]. split; [exact Hk|].
  injection Hall as -> _ _. reflexivity.
Defined.

End EnsureReset.

Section ResetThenAward.

Lemma ledgerGrant_weeklyReset wk a s :
  weeklyKey s ≠ Some wk -> ledgerGrant wk a (weeklyResetOf wk s) = ledgerGrant wk a s.
Proof.
  intros Hk. unfold ledgerGrant, weeklyResetOf, mergeStats, ledgerPatch.
  cbn [allTimeXP weeklyXP weeklyKey level levelName activeBadgeId momentsCount
       reflectionsCount streakDays bestStreakDays journeyDay journeyWeekKey lastMomentAt
       lastReflectionAt depthMoments emotionCounts patternsViewed orElse mergeMap
       default from_option id].
  destruct (decide (Some wk = Some wk)) as [_|Hn]; [|congruence].
  destruct (decide (weeklyKey s = Some wk)) as [Hk'|_]; [contradiction|].
  reflexivity.
Qed.

(** X6: The weekly reset is already part of the grant: awarding right after
    [reconcileWeeklyReset] returns the same result as awarding without it,
    and an awarded call leaves the same documents either way. *)
Theorem award_after_weeklyReset clk uid eventId amount metadata w :
  let (r, w1) := awardXpOnce clk (Some uid) eventId amount metadata w in
  let (r', w2) :=
    awardXpOnce clk (Some uid) eventId amount metadata (reconcileWeeklyReset clk uid w).2 in
  r' = r ∧ (awarded r = true -> db w2 = db w1).
Proof.
  pose proof (reconcileWeeklyReset_db clk uid w) as Hdb.
  set (w0 := (reconcileWeeklyReset clk uid w).2) in *.
  assert (xp_events (db w0) = xp_events (db w)) as Hxp.
  { rewrite Hdb. destruct (stats (db w) !! uid); [|reflexivity].
    destruct (decide _); reflexivity. }
  assert (allTimeXP (statsOf w0 uid) = allTimeXP (statsOf w uid)) as Hall.
  { unfold statsOf. rewrite Hdb. destruct (stats (db w) !! uid) as [s|] eqn:Hs.
    - destruct (decide _); [rewrite Hs; reflexivity|].
      unfold withStats. cbn [stats]. rewrite lookup_insert_eq. reflexivity.
    - rewrite Hs. reflexivity. }
  destruct (decide (uid = ""%string)) as [->|Hu]; [split; [reflexivity|discriminate]|].
  destruct (decide (eventId = ""%string)) as [->|He].
  { unfold awardXpOnce. rewrite truthy_Some by assumption.
    split; [reflexivity|discriminate]. }
  destruct (Z.leb_spec amount 0) as [Ha|Ha].
  { unfold awardXpOnce. rewrite !truthy_Some by assumption.
    rewrite (proj2 (Z.leb_le amount 0) Ha). split; [reflexivity|discriminate]. }
  destruct (xp_events (db w) !! (uid, eventId)) as [e|] eqn:Hx.
  - rewrite (awardXpOnce_repeat clk uid eventId amount metadata w e) by assumption.
    rewrite (awardXpOnce_repeat clk uid eventId amount metadata w0 e)
      by (try assumption; rewrite Hxp; exact Hx).
    split; [reflexivity|discriminate].
  - rewrite (awardXpOnce_fresh clk uid eventId amount metadata w) by assumption.
    rewrite (awardXpOnce_fresh clk uid eventId amount metadata w0)
      by (try assumption; rewrite Hxp; exact Hx).
    rewrite Hall. split; [reflexivity|]. intros _.
    rewrite !granted_db, Hxp. unfold statsOf. rewrite Hdb.
    destruct (stats (db w) !! uid) as [s|] eqn:Hs; [|rewrite Hs; reflexivity].
    destruct (decide (weeklyKey s = Some (currentWeekKey clk))) as [Hk|Hk];
      [rewrite Hs; reflexivity|].
    unfold withStats. cbn [stats xp_events badges moments daily_reflections].
    rewrite lookup_insert_eq, insert_insert_eq. cbn [default from_option id].
    rewrite ledgerGrant_weeklyReset by assumption. reflexivity.
Qed.

Lemma award_after_weeklyReset_witness :
  let w := storeOf "u1" (aggregate 40 40 "2024-W01") in
  let clk := clockAt "2024-W02" "2024-01-08" in
  let (r, w1) := awardXpOnce clk (Some "u1"%string) "K" 10 None w in
  let (r', w2) :=
    awardXpOnce clk (Some "u1"%string) "K" 10 None (reconcileWeeklyReset clk "u1" w).2 in
  r' = r ∧ awarded r = true ∧ db w2 = db w1.
Proof.
  cbv zeta.
  pose proof (award_after_weeklyReset (clockAt "2024-W02" "2024-01-08") "u1"%string "K" 10
                None (storeOf "u1" (aggregate 40 40 "2024-W01"))) as H.
  destruct (awardXpOnce (clockAt "2024-W02" "2024-01-08") (Some "u1"%string) "K" 10 None
              (storeOf "u1" (aggregate 40 40 "2024-W01"))) as [r w1] eqn:Hrun.
  destruct (awardXpOnce (clockAt "2024-W02" "2024-01-08") (Some "u1"%string) "K" 10 None
              (reconcileWeeklyReset (clockAt "2024-W02" "2024-01-08") "u1"
                 (storeOf "u1" (aggregate 40 40 "2024-W01"))).2) as [r' w2].
  assert (awarded r = true) as Hr.
  { change r with (r, w1).1. rewrite <- Hrun. reflexivity. }
  destruct H as [H1 H2]. split; [exact H1|]. split; [exact Hr | exact (H2 Hr)].
Defined.

End ResetThenAward.

(** ** What reconciliation counts *)

Section ReconcileCounts.

Lemma fold_momentStep_depth ms acc :
  acc_depthMoments (fold_left momentStep ms acc) = acc_depthMoments acc + depthCount ms.
Proof.
  revert acc. induction ms as [|d ms IH]; intros acc.
  - unfold depthCount. cbn. lia.
  - cbn [fold_left]. rewrite IH. unfold depthCount. rewrite filter_cons.
    unfold momentStep at 1. cbn [acc_depthMoments].
    destruct (hasDepth d.2) eqn:E.
    + rewrite decide_True by reflexivity. cbn [length]. lia.
    + rewrite decide_False by congruence. lia.
Qed.







End ReconcileCounts.

Section ReconcileDetails.

Lemma countEmotion_lookup d (m : gmap string Z) e :
  countEmotion d m !! e =
    if decide (e ≠ ""%string ∧ m_emotion d = Some e)
    then Some (default 0 (m !! e) + 1) else m !! e.
Proof.
  unfold countEmotion, truthy. destruct (m_emotion d) as [e'|].
  - destruct (String.eqb_spec e' "") as [->|Hne]; cbn [negb default from_option id].
    + rewrite decide_False; [reflexivity|]. intros [H1 [= H2]]. congruence.
    + destruct (decide (e' = e)) as [->|Hd].
      * rewrite lookup_insert_eq, decide_True by (split; [assumption|reflexivity]).
        reflexivity.
      * rewrite lookup_insert_ne by assumption.
        rewrite decide_False; [reflexivity|]. intros [_ [= H2]]. congruence.
  - rewrite decide_False; [reflexivity|]. intros [_ H]. discriminate.
Qed.

Lemma emotionTally_cons d ms e :
  emotionTally (d :: ms) e
  = (if decide (m_emotion d.2 = Some e) then 1 else 0) + emotionTally ms e.
Proof.
  unfold emotionTally. rewrite filter_cons.
  destruct (decide (m_emotion d.2 = Some e)); cbn [length]; lia.
Qed.

Lemma emotionTally_nonneg ms e : 0 ≤ emotionTally ms e.
Proof. unfold emotionTally. lia. Qed.

Lemma fold_momentStep_emotion ms acc e :
  acc_emotionCounts (fold_left momentStep ms acc) !! e =
    if decide (e ≠ ""%string ∧ 0 < emotionTally ms e)
    then Some (default 0 (acc_emotionCounts acc !! e) + emotionTally ms e)
    else acc_emotionCounts acc !! e.
Proof.
  revert acc. induction ms as [|d ms IH]; intros acc.
  - cbn [fold_left]. rewrite decide_False; [reflexivity|].
    unfold emotionTally. cbn. lia.
  - cbn [fold_left]. rewrite IH, emotionTally_cons.
    change (acc_emotionCounts (momentStep acc d))
      with (countEmotion d.2 (acc_emotionCounts acc)).
    rewrite countEmotion_lookup.
    pose proof (emotionTally_nonneg ms e) as Hnn.
    destruct (decide (e ≠ ""%string)) as [He|He].
    + destruct (decide (m_emotion d.2 = Some e)) as [Hd|Hd].
      * rewrite (decide_True (P := e ≠ ""%string ∧ m_emotion d.2 = Some e)) by tauto.
        cbn [default from_option id].
        rewrite (decide_True (P := e ≠ ""%string ∧ 0 < 1 + emotionTally ms e))
          by (split; [assumption|lia]).
        destruct (decide (e ≠ ""%string ∧ 0 < emotionTally ms e)) as [[_ Ht]|Ht].
        -- f_equal. lia.
        -- f_equal. assert (emotionTally ms e = 0) by (destruct (decide (0 < emotionTally ms e)); [tauto|lia]).
           lia.
      * rewrite (decide_False (P := e ≠ ""%string ∧ m_emotion d.2 = Some e)) by tauto.
        replace (0 + emotionTally ms e) with (emotionTally ms e) by lia. reflexivity.
    + rewrite !(decide_False (P := e ≠ ""%string ∧ _)) by tauto. reflexivity.
Qed.








End ReconcileDetails.

Section ReconcileAgain.

#[local] Existing Instance laterFirst_total.
#[local] Existing Instance laterFirst_trans.
#[local] Existing Instance laterFirst_antisymm.

Lemma Db_ext d d' :
  stats d = stats d' -> xp_events d = xp_events d' -> badges d = badges d' ->
  moments d = moments d' -> daily_reflections d = daily_reflections d' -> d = d'.
Proof. destruct d, d'. cbn. intros -> -> -> -> ->. reflexivity. Qed.

Lemma orElse_idemp {A} (p s : option A) : orElse p (orElse p s) = orElse p s.
Proof. destruct p; reflexivity. Qed.

Lemma mergeMap_idemp p s : mergeMap p (mergeMap p s) = mergeMap p s.
Proof.
  unfold mergeMap. destruct p as [m|]; [|reflexivity].
  destruct (decide (m = ∅)); [reflexivity|]. cbn [default from_option id].
  f_equal. rewrite (assoc_L (∪)), (idemp_L (∪)). reflexivity.
Qed.

Lemma mergeStats_idemp p s : mergeStats p (mergeStats p s) = mergeStats p s.
Proof.
  unfold mergeStats.
  cbn [allTimeXP weeklyXP weeklyKey level levelName activeBadgeId momentsCount
       reflectionsCount streakDays bestStreakDays journeyDay journeyWeekKey lastMomentAt
       lastReflectionAt depthMoments emotionCounts patternsViewed].
  rewrite !orElse_idemp, mergeMap_idemp. reflexivity.
Qed.

(** X10: Reconciliation is safe to run again: a second [reconcileStatsFromData]
    on unchanged activity, read at the same clock, returns the same updates
    and leaves every document as the first run left it. *)
Theorem reconcile_idempotent parseDate clk uid w :
  let (u1, w1) := reconcileStatsFromData parseDate clk uid w in
  let (u2, w2) := reconcileStatsFromData parseDate clk uid w1 in
  u2 = u1 ∧ db w2 = db w1.
Proof.
  pose proof (reconcileStatsFromData_run parseDate clk uid w) as H1. cbv zeta in H1.
  destruct (reconcileStatsFromData parseDate clk uid w) as [u1 w1].
  destruct H1 as (-> & Hs1 & Hx1 & Hb1 & Hm1 & Hr1).
  pose proof (reconcileStatsFromData_run parseDate clk uid w1) as H2. cbv zeta in H2.
  destruct (reconcileStatsFromData parseDate clk uid w1) as [u2 w2].
  destruct H2 as (-> & Hs2 & Hx2 & Hb2 & Hm2 & Hr2).
  rewrite Hm1, Hr1. split; [reflexivity|].
  apply Db_ext; try assumption.
  rewrite Hs2. unfold priorAggregate. rewrite Hs1, lookup_insert_eq.
  cbn [default from_option id]. rewrite Hm1, Hr1, insert_insert_eq, mergeStats_idemp.
  reflexivity.
Qed.









Lemma streakWalk_positive l : l ≠ [] -> 1 ≤ streak (streakWalk l).
Proof.
  induction l as [|d l IH] using rev_ind; [congruence|]. intros _.
  rewrite streakWalk_snoc. unfold streakStep. cbn [streak].
  destruct l as [|p l _] using rev_ind; [cbn; lia|].
  rewrite prev_streakWalk_snoc.
  assert (1 ≤ streak (streakWalk (l ++ [p]))) by (apply IH; destruct l; discriminate).
  destruct (p - d =? DAY_MS); [lia|]. destruct (p - d >? DAY_MS); lia.
Qed.


End ReconcileAgain.

(** ** Badge engine, continued *)

Section BadgeEngine.

Lemma BADGE_ids_NoDup : NoDup (map b_id BADGE_DEFINITIONS).
Proof. apply (bool_decide_unpack (NoDup (map b_id BADGE_DEFINITIONS))). vm_compute. exact I. Qed.

Lemma BADGE_thresholds_positive : Forall (fun def => 0 < b_threshold def) BADGE_DEFINITIONS.
Proof. unfold BADGE_DEFINITIONS. repeat constructor. Qed.

Lemma forEachM_cons {A} (f : A -> Fire unit) x rest w :
  (forEachM f (x :: rest) w).2 = (forEachM f rest (f x w).2).2.
Proof. cbn [forEachM]. unfold bind. destruct (f x w). reflexivity. Qed.

Lemma forEachM_putBadge uid (f : BadgeDefinition -> BadgeDoc) defs w :
  let w' := (forEachM (fun def => putBadge uid (b_id def) (f def)) defs w).2 in
  stats (db w') = stats (db w)
  ∧ xp_events (db w') = xp_events (db w)
  ∧ moments (db w') = moments (db w)
  ∧ daily_reflections (db w') = daily_reflections (db w)
  ∧ (forall key, (forall def, def ∈ defs -> key ≠ (uid, b_id def)) ->
       badges (db w') !! key = badges (db w) !! key)
  ∧ (NoDup (map b_id defs) ->
     forall def, def ∈ defs -> badges (db w') !! (uid, b_id def) = Some (f def)).
Proof.
  cbv zeta. revert w. induction defs as [|x rest IH]; intros w.
  - cbn. repeat split; auto. intros _ def Hin. inversion Hin.
  - rewrite forEachM_cons.
    set (w1 := (putBadge uid (b_id x) (f x) w).2).
    assert (badges (db w1) = <[(uid, b_id x) := f x]> (badges (db w))) as Hb1 by reflexivity.
    destruct (IH w1) as (Hs & Hx & Hm & Hr & Hother & Hin).
    split; [rewrite Hs; reflexivity|]. split; [rewrite Hx; reflexivity|].
    split; [rewrite Hm; reflexivity|]. split; [rewrite Hr; reflexivity|].
    split.
    + intros key Hkey. rewrite Hother.
      * rewrite Hb1. apply lookup_insert_ne.
        intros Heq. apply (Hkey x); [left|]. symmetry. exact Heq.
      * intros def Hdef. apply Hkey. right. exact Hdef.
    + intros Hnd def Hdef. cbn [map] in Hnd. apply NoDup_cons in Hnd as [Hx_notin Hnd].
      apply elem_of_cons in Hdef as [->|Hdef].
      * rewrite Hother.
        -- rewrite Hb1. apply lookup_insert_eq.
        -- intros def Hdef [= Heq]. apply Hx_notin. rewrite Heq.
           apply list_elem_of_fmap. exists def. split; [reflexivity|exact Hdef].
      * apply Hin; assumption.
Qed.

(** The run of [reconcileBadges] on a user that has a stats document. *)
Lemma reconcileBadges_run clk uid w s :
  stats (db w) !! uid = Some s ->
  let w' := (reconcileBadges clk uid w).2 in
  let inp := badgeInputsOf w uid s in
  stats (db w') = stats (db w)
  ∧ xp_events (db w') = xp_events (db w)
  ∧ moments (db w') = moments (db w)
  ∧ daily_reflections (db w') = daily_reflections (db w)
  ∧ (forall key, (forall def, def ∈ BADGE_DEFINITIONS -> key ≠ (uid, b_id def)) ->
       badges (db w') !! key = badges (db w) !! key)
  ∧ (forall def, def ∈ BADGE_DEFINITIONS ->
       badges (db w') !! (uid, b_id def) = Some (badgeWrite clk inp def)).
Proof.
  intros Hs. cbv zeta. unfold reconcileBadges, bind, getStats. cbv beta.
  rewrite Hs. unfold getMoments, getReflections, logOp. cbv beta iota.
  cbn [db trace].
  match goal with
  | |- context [forEachM ?f ?l ?w0] =>
      destruct (forEachM_putBadge uid (badgeWrite clk (badgeInputsOf w uid s)) l w0)
        as (H1 & H2 & H3 & H4 & H5 & H6)
  end.
  cbv zeta in *. unfold badgeInputsOf in *.
  split; [exact H1|]. split; [exact H2|]. split; [exact H3|]. split; [exact H4|].
  split; [exact H5|]. apply H6, BADGE_ids_NoDup.
Qed.

Lemma reconcileBadges_absent clk uid w :
  stats (db w) !! uid = None ->
  reconcileBadges clk uid w = (tt, logOp (OpGet (StatsRef uid)) w).
Proof.
  intros Hs. unfold reconcileBadges, bind, getStats. cbv beta. rewrite Hs. reflexivity.
Qed.

End BadgeEngine.

Section BadgeEngineFacts.

(** X13: After [reconcileBadges] on a user that has a stats document, every
    badge of the catalog has a record: its progress is the one the criteria
    dispatch reads, its target is the badge's threshold, it is earned
    exactly when the progress has reached the threshold, and [earnedAt] is
    set exactly when it is earned.  The run writes badge records of that
    user only: no stats document and no XP event changes, so the
    [xpReward] of a badge is not granted by it. *)
Theorem reconcileBadges_records clk uid w s :
  stats (db w) !! uid = Some s ->
  let w' := (reconcileBadges clk uid w).2 in
  (forall def, def ∈ BADGE_DEFINITIONS ->
     exists b, badges (db w') !! (uid, b_id def) = Some b
       ∧ progressCurrent b = badgeProgress (badgeInputsOf w uid s) def
       ∧ progressTarget b = b_threshold def
       ∧ (earned b = true <-> b_threshold def ≤ progressCurrent b)
       ∧ earnedAt b = (if earned b then Some (now clk) else None)
       ∧ category b = b_category def)
  ∧ stats (db w') = stats (db w)
  ∧ xp_events (db w') = xp_events (db w)
  ∧ (forall u id, u ≠ uid -> badges (db w') !! (u, id) = badges (db w) !! (u, id))
  ∧ (forall id, getBadgeDefinition id = None ->
       badges (db w') !! (uid, id) = badges (db w) !! (uid, id)).
Proof.
  intros Hs. destruct (reconcileBadges_run clk uid w s Hs) as (H1 & H2 & _ & _ & H5 & H6).
  cbv zeta in *. split; [|split; [exact H1|split; [exact H2|split]]].
  - intros def Hdef. eexists. split; [apply H6, Hdef|].
    pose proof BADGE_thresholds_positive as Hpos. rewrite Forall_forall in Hpos.
    specialize (Hpos def Hdef). unfold badgeWrite.
    cbn [progressCurrent progressTarget earned earnedAt category].
    repeat split; try reflexivity.
    + intros H. apply andb_true_iff in H as [H _]. lia.
    + intros H. apply andb_true_iff. split; lia.
  - intros u id Hne. apply H5. intros def _ [= Heq _]. congruence.
  - intros id Hnone. apply H5. intros def Hdef [= Heq].
    unfold getBadgeDefinition in Hnone.
    pose proof (find_none _ _ Hnone def (proj1 (list_elem_of_In _ _) Hdef)) as Hf.
    cbv beta in Hf. rewrite Heq, String.eqb_refl in Hf. discriminate.
Qed.

Lemma reconcileBadges_records_witness :
  let w := storeOf "u1" (mkStats None None None None None None (Some 1) None (Some 0) None
                           None None None None None None None) in
  let w' := (reconcileBadges (clockAt "2024-W02" Wed) "u1" w).2 in
  earnedFlag w' "u1" "first_steps" = Some true
  ∧ earnedFlag w' "u1" "streak_starter" = Some false
  ∧ stats (db w') = stats (db w).
Proof.
  cbv zeta.
  destruct (reconcileBadges_records (clockAt "2024-W02" Wed) "u1"
              (storeOf "u1" (mkStats None None None None None None (Some 1) None (Some 0)
                               None None None None None None None None))
              (mkStats None None None None None None (Some 1) None (Some 0)
                       None None None None None None None None) eq_refl)
    as (Hrec & Hst & _).
  split; [|split; [|exact Hst]].
  - destruct (Hrec (mkBadge "first_steps" getting_started moments_logged 1 None 10))
      as (b & Hb & Hp & _ & He & _); [repeat constructor|].
    unfold earnedFlag. cbn [b_id] in Hb. rewrite Hb. cbn [fmap option_fmap option_map].
    f_equal. apply He. rewrite Hp. vm_compute. discriminate.
  - destruct (Hrec (mkBadge "streak_starter" consistency streak_days 3 None 30))
      as (b & Hb & Hp & _ & He & _).
    { unfold BADGE_DEFINITIONS. do 10 right. left. }
    unfold earnedFlag. cbn [b_id] in Hb. rewrite Hb. cbn [fmap option_fmap option_map].
    f_equal. destruct (earned b) eqn:E; [|reflexivity].
    exfalso. destruct He as [He _]. specialize (He eq_refl).
    rewrite Hp in He. vm_compute in He. apply He. reflexivity.
Defined.

(** X14: [reconcileBadges] does nothing for a user without a stats document,
    and running it a second time at the same clock leaves every document
    as the first run left it. *)
Theorem reconcileBadges_idempotent clk uid w :
  let w1 := (reconcileBadges clk uid w).2 in
  let w2 := (reconcileBadges clk uid w1).2 in
  (stats (db w) !! uid = None -> db w1 = db w) ∧ db w2 = db w1.
Proof.
  cbv zeta. destruct (stats (db w) !! uid) as [s|] eqn:Hs.
  - split; [discriminate|].
    destruct (reconcileBadges_run clk uid w s Hs) as (H1 & H2 & H3 & H4 & H5 & H6).
    cbv zeta in *.
    assert (stats (db (reconcileBadges clk uid w).2) !! uid = Some s) as Hs1
      by (rewrite H1; exact Hs).
    destruct (reconcileBadges_run clk uid _ s Hs1) as (G1 & G2 & G3 & G4 & G5 & G6).
    cbv zeta in *.
    assert (badgeInputsOf (reconcileBadges clk uid w).2 uid s = badgeInputsOf w uid s) as Hinp.
    { unfold badgeInputsOf. rewrite H3, H4. reflexivity. }
    rewrite Hinp in G6.
    apply Db_ext; try assumption.
    apply map_eq. intros key.
    destruct (decide (key ∈ map (fun def => (uid, b_id def)) BADGE_DEFINITIONS)) as [Hin|Hout].
    + apply list_elem_of_fmap in Hin as (def & -> & Hdef).
      rewrite G6, H6 by assumption. reflexivity.
    + apply G5. intros def Hdef ->. apply Hout.
      apply list_elem_of_fmap. exists def. split; [reflexivity|exact Hdef].
  - rewrite !(reconcileBadges_absent clk uid) by (try exact Hs; exact Hs).
    split; reflexivity.
Qed.

Lemma reconcileBadges_idempotent_witness :
  let w := world (mkDb ∅ ∅ ∅ ∅ ∅) in
  stats (db w) !! "u1"%string = None ∧ db (reconcileBadges (clockAt "2024-W02" Wed) "u1" w).2 = db w.
Proof.
  cbv zeta. split; [reflexivity|].
  apply (proj1 (reconcileBadges_idempotent (clockAt "2024-W02" Wed) "u1"
                  (world (mkDb ∅ ∅ ∅ ∅ ∅)))). reflexivity.
Defined.

(** X15: The badges of one criterion are tiered: after a run of
    [reconcileBadges], a badge that is earned implies that every catalog
    badge with the same criterion, the same emotion and a threshold that is
    not higher is earned too. *)
Theorem reconcileBadges_tiers clk uid w s d1 d2 :
  stats (db w) !! uid = Some s ->
  d1 ∈ BADGE_DEFINITIONS -> d2 ∈ BADGE_DEFINITIONS ->
  b_criteriaType d1 = b_criteriaType d2 -> b_emotionType d1 = b_emotionType d2 ->
  b_threshold d1 ≤ b_threshold d2 ->
  let w' := (reconcileBadges clk uid w).2 in
  earnedFlag w' uid (b_id d2) = Some true -> earnedFlag w' uid (b_id d1) = Some true.
Proof.
  intros Hs Hd1 Hd2 Hc He Ht. cbv zeta.
  destruct (reconcileBadges_run clk uid w s Hs) as (_ & _ & _ & _ & _ & H6). cbv zeta in H6.
  unfold earnedFlag. rewrite (H6 d1 Hd1), (H6 d2 Hd2).
  cbn [fmap option_fmap option_map]. unfold badgeWrite. cbn [earned].
  assert (badgeProgress (badgeInputsOf w uid s) d1 = badgeProgress (badgeInputsOf w uid s) d2)
    as ->.
  { unfold badgeProgress. rewrite Hc, He. reflexivity. }
  pose proof BADGE_thresholds_positive as Hpos. rewrite Forall_forall in Hpos.
  pose proof (Hpos d1 Hd1) as Hp1. intros [= Hearned]. f_equal.
  apply andb_true_iff in Hearned as [Hge _]. apply andb_true_iff. split; lia.
Qed.

Lemma reconcileBadges_tiers_witness :
  let w := mkWorld (mkDb {["u1"%string := aggregate 40 40 "2024-W02"]} ∅ ∅ ∅
                         {["u1"%string := map completedOn [Mon; Tue; Wed]]}) [] in
  let w' := (reconcileBadges (clockAt "2024-W02" Wed) "u1" w).2 in
  earnedFlag w' "u1" "three_in_a_row" = Some true
  ∧ earnedFlag w' "u1" "reflection_starter" = Some true.
Proof.
  cbv zeta.
  assert (earnedFlag
            (reconcileBadges (clockAt "2024-W02" Wed) "u1"
               (mkWorld (mkDb {["u1"%string := aggregate 40 40 "2024-W02"]} ∅ ∅ ∅
                              {["u1"%string := map completedOn [Mon; Tue; Wed]]}) [])).2
            "u1" "three_in_a_row" = Some true) as H3 by (vm_compute; reflexivity).
  split; [exact H3|].
  refine (reconcileBadges_tiers (clockAt "2024-W02" Wed) "u1"
            (mkWorld (mkDb {["u1"%string := aggregate 40 40 "2024-W02"]} ∅ ∅ ∅
                           {["u1"%string := map completedOn [Mon; Tue; Wed]]}) [])
            (aggregate 40 40 "2024-W02")
            (mkBadge "reflection_starter" getting_started reflections_completed 1 None 15)
            (mkBadge "three_in_a_row" consistency reflections_completed 3 None 25)
            _ _ _ eq_refl eq_refl _ H3).
  - vm_compute. reflexivity.
  - unfold BADGE_DEFINITIONS. right. left.
  - unfold BADGE_DEFINITIONS. do 2 right. left.
  - cbn. lia.
Defined.

End BadgeEngineFacts.

Section BadgesAfterReconcile.

Lemma fold_badgeMomentStep ms acc :
  fold_left badgeMomentStep ms (acc_depthMoments acc, acc_emotionCounts acc)
  = (acc_depthMoments (fold_left momentStep ms acc),
     acc_emotionCounts (fold_left momentStep ms acc)).
Proof.
  revert acc. induction ms as [|d ms IH]; intros acc; [reflexivity|].
  cbn [fold_left]. rewrite <- IH. reflexivity.
Qed.

Lemma fold_reflectionDayStep rs (days : gset string) :
  fold_left reflectionDayStep rs days = list_to_set (completedDates rs) ∪ days.
Proof.
  revert days. induction rs as [|r rs IH]; intros days.
  - cbn. apply set_eq. intros x. rewrite elem_of_union, elem_of_empty. tauto.
  - cbn [fold_left]. rewrite IH. unfold completedDates. rewrite filter_cons.
    unfold reflectionDayStep. destruct (r_completed r.2) eqn:E.
    + rewrite decide_True by reflexivity. cbn [map list_to_set].
      apply set_eq. intros x. rewrite !elem_of_union. tauto.
    + rewrite decide_False by congruence. reflexivity.
Qed.

Lemma size_list_to_set_remove_dups (l : list string) :
  size (list_to_set l : gset string) = length (remove_dups l).
Proof.
  rewrite <- (size_list_to_set (C := gset string) (remove_dups l))
    by apply NoDup_remove_dups.
  f_equal. apply set_eq. intros x.
  rewrite !elem_of_list_to_set, elem_of_remove_dups. reflexivity.
Qed.

(** X16: Reconciling the stats and then the badges, as the home screen does,
    leaves every catalog badge with the progress of the user's activity at
    that moment: the number of moments, the number of distinct completed
    reflection days, the number of moments with a tag or note, the number
    of moments with the badge's emotion, the streak just computed, or the
    stored count of pattern views. *)
Theorem badges_follow_activity parseDate clk uid w :
  let ms := default [] (moments (db w) !! uid) in
  let rs := default [] (daily_reflections (db w) !! uid) in
  let patterns := default 0 (patternsViewed (priorAggregate clk w uid)) in
  let w1 := (reconcileStatsFromData parseDate clk uid w).2 in
  let w2 := (reconcileBadges clk uid w1).2 in
  forall def, def ∈ BADGE_DEFINITIONS ->
    exists b, badges (db w2) !! (uid, b_id def) = Some b
      ∧ progressCurrent b = activityProgress parseDate clk ms rs patterns def
      ∧ (earned b = true <-> b_threshold def ≤ progressCurrent b).
Proof.
  cbv zeta. intros def Hdef.
  pose proof (reconcileStatsFromData_run parseDate clk uid w) as Hrun. cbv zeta in Hrun.
  destruct (reconcileStatsFromData parseDate clk uid w) as [u w1].
  destruct Hrun as (-> & Hs & _ & _ & Hm & Hr). cbn [snd].
  set (ms := default [] (moments (db w) !! uid)) in *.
  set (rs := default [] (daily_reflections (db w) !! uid)) in *.
  set (u := statsUpdates parseDate clk ms rs) in *.
  assert (stats (db w1) !! uid = Some (mergeStats u (priorAggregate clk w uid))) as Hs1
    by (rewrite Hs; apply lookup_insert_eq).
  destruct (reconcileBadges_run clk uid w1 _ Hs1) as (_ & _ & _ & _ & _ & H6).
  cbv zeta in H6. eexists. split; [apply H6, Hdef|].
  pose proof BADGE_thresholds_positive as Hpos. rewrite Forall_forall in Hpos.
  specialize (Hpos def Hdef).
  unfold badgeWrite. cbn [progressCurrent earned].
  split.
  2:{ split; intros H.
      - apply andb_true_iff in H as [H _]. lia.
      - apply andb_true_iff. split; lia. }
  unfold badgeProgress, activityProgress, badgeInputsOf.
  cbn [in_stats in_reflectionsDays in_tagsNotesCount in_emotionCounts].
  rewrite Hm, Hr. fold ms rs.
  change (0, ∅) with (acc_depthMoments (mkMomentAcc None 0 ∅),
                       acc_emotionCounts (mkMomentAcc None 0 ∅)).
  rewrite fold_badgeMomentStep. cbn [fst snd].
  destruct (b_criteriaType def).
  - reflexivity.
  - rewrite fold_reflectionDayStep.
    replace (list_to_set (completedDates rs) ∪ (∅ : gset string))
      with (list_to_set (completedDates rs) : gset string)
      by (apply set_eq; intros x; rewrite elem_of_union, elem_of_empty; tauto).
    rewrite size_list_to_set_remove_dups. reflexivity.
  - rewrite fold_momentStep_depth. cbn [acc_depthMoments]. lia.
  - rewrite fold_momentStep_emotion. cbn [acc_emotionCounts].
    rewrite lookup_empty. cbn [default from_option id].
    pose proof (emotionTally_nonneg ms (default ""%string (b_emotionType def))).
    destruct (decide (default ""%string (b_emotionType def) = ""%string)) as [He|He].
    + rewrite decide_False by tauto. reflexivity.
    + destruct (decide _) as [_|Hn]; cbn [default from_option id]; [lia|].
      assert (emotionTally ms (default ""%string (b_emotionType def)) = 0)
        by (destruct (decide (0 < emotionTally ms (default ""%string (b_emotionType def))));
            [tauto|lia]).
      lia.
  - reflexivity.
  - unfold mergeStats. cbn [streakDays]. unfold u at 1.
    destruct (statsUpdates_streak parseDate clk ms rs) as [-> _].
    reflexivity.
Qed.

Lemma badges_follow_activity_witness :
  let w2 := (reconcileBadges (clockAt "2024-W02" Wed) "u1"
               (reconcileStatsFromData IsoDate.parse (clockAt "2024-W02" Wed) "u1"
                  threeDayStore).2).2 in
  exists b, badges (db w2) !! ("u1"%string, "three_in_a_row"%string) = Some b
    ∧ progressCurrent b = 3 ∧ earned b = true.
Proof.
  cbv zeta.
  destruct (badges_follow_activity IsoDate.parse (clockAt "2024-W02" Wed) "u1" threeDayStore
              (mkBadge "three_in_a_row" consistency reflections_completed 3 None 25))
    as (b & Hb & Hp & He).
  { unfold BADGE_DEFINITIONS. do 2 right. left. }
  exists b. split; [exact Hb|].
  assert (progressCurrent b = 3) as H3 by (rewrite Hp; vm_compute; reflexivity).
  split; [exact H3|]. apply He. rewrite H3. cbn. lia.
Defined.

End BadgesAfterReconcile.

(** ** Awarding badges by hand (src/lib/badges.native.ts) *)

Section BadgeModule.

(** Looking a catalog entry up by its id gives the entry back. *)
Lemma getBadgeDefinition_catalog def :
  def ∈ BADGE_DEFINITIONS -> getBadgeDefinition (b_id def) = Some def.
Proof.
  intros Hdef. unfold getBadgeDefinition.
  destruct (List.find _ BADGE_DEFINITIONS) as [d|] eqn:Hf.
  - apply find_some in Hf as [Hin Heq]. apply String.eqb_eq in Heq.
    f_equal. apply list_elem_of_In in Hin.
    pose proof BADGE_ids_NoDup as Hnd.
    revert Hin Hdef Heq Hnd. generalize BADGE_DEFINITIONS.
    induction l as [|x l IH]; intros Hin Hdef Heq Hnd; [inversion Hin|].
    cbn [map] in Hnd. apply NoDup_cons in Hnd as [Hx Hnd].
    apply elem_of_cons in Hin as [->|Hin], Hdef as [->|Hdef]; try reflexivity.
    + exfalso. apply Hx. rewrite Heq. apply list_elem_of_fmap. eauto.
    + exfalso. apply Hx. rewrite <- Heq. apply list_elem_of_fmap. eauto.
    + apply IH; assumption.
  - pose proof (find_none _ _ Hf def (proj1 (list_elem_of_In _ _) Hdef)) as Hn.
    cbv beta in Hn. rewrite String.eqb_refl in Hn. discriminate.
Qed.

Lemma getBadgeDefinition_Some id def :
  getBadgeDefinition id = Some def -> def ∈ BADGE_DEFINITIONS ∧ b_id def = id.
Proof.
  unfold getBadgeDefinition. intros Hf. apply find_some in Hf as [Hin Heq].
  split; [apply list_elem_of_In, Hin | apply String.eqb_eq, Heq].
Qed.

(** One valid call of [awardBadge]. *)
Lemma awardBadge_valid clk u def w :
  u ≠ ""%string -> def ∈ BADGE_DEFINITIONS ->
  let (r, w') := awardBadge clk (Some u) (b_id def) w in
  success r = true ∧ badge r = Some def
  ∧ (alreadyEarned r = true <-> exists b, badges (db w) !! (u, b_id def) = Some b ∧ earned b = true)
  ∧ (alreadyEarned r = true -> db w' = db w)
  ∧ (alreadyEarned r = false ->
       badges (db w') = <[(u, b_id def) := awardedDoc clk def]> (badges (db w)))
  ∧ stats (db w') = stats (db w)
  ∧ xp_events (db w') = xp_events (db w)
  ∧ moments (db w') = moments (db w)
  ∧ daily_reflections (db w') = daily_reflections (db w).
Proof.
  intros Hu Hdef. unfold awardBadge. rewrite (getBadgeDefinition_catalog def Hdef).
  rewrite truthy_Some by assumption. cbn [negb default from_option id].
  unfold bind, getBadge. cbv beta.
  destruct (badges (db w) !! (u, b_id def)) as [b|] eqn:Hb.
  - destruct (earned b) eqn:He.
    + cbn. repeat split; eauto; try discriminate.
    + cbn. repeat split; eauto; try discriminate.
      intros (b' & [= <-] & He'). congruence.
  - cbn. repeat split; eauto; try discriminate. intros (b' & Hb' & _). discriminate.
Qed.

(** X17: [awardBadge] earns a catalog badge once: a valid call succeeds and the
    badge is then stored as earned with its progress at the threshold, so
    that [hasBadge] answers true; a second call, at any later time, reports
    [alreadyEarned] and changes no document, which keeps the first
    [earnedAt].  No stats document, XP event or other badge record is
    touched. *)
Theorem awardBadge_earns_once clk clk' u def w :
  u ≠ ""%string -> def ∈ BADGE_DEFINITIONS ->
  let (r1, w1) := awardBadge clk (Some u) (b_id def) w in
  let (r2, w2) := awardBadge clk' (Some u) (b_id def) w1 in
  success r1 = true ∧ badge r1 = Some def
  ∧ (exists b, badges (db w1) !! (u, b_id def) = Some b ∧ earned b = true
       ∧ (alreadyEarned r1 = false -> b = awardedDoc clk def))
  ∧ (hasBadge (Some u) (b_id def) w1).1 = true
  ∧ r2 = mkAwardBadge true true (Some def)
  ∧ db w2 = db w1
  ∧ stats (db w1) = stats (db w)
  ∧ xp_events (db w1) = xp_events (db w)
  ∧ (forall key, key ≠ (u, b_id def) -> badges (db w1) !! key = badges (db w) !! key).
Proof.
  intros Hu Hdef.
  pose proof (awardBadge_valid clk u def w Hu Hdef) as H1.
  destruct (awardBadge clk (Some u) (b_id def) w) as [r1 w1].
  destruct H1 as (Hs1 & Hb1 & Hae & Hsame & Hnew & Hst & Hxp & _).
  assert (exists b, badges (db w1) !! (u, b_id def) = Some b ∧ earned b = true
            ∧ (alreadyEarned r1 = false -> b = awardedDoc clk def)) as Hearned.
  { destruct (alreadyEarned r1) eqn:E.
    - destruct (proj1 Hae eq_refl) as (b & Hb & He). exists b.
      rewrite (Hsame eq_refl). repeat split; [exact Hb | exact He | discriminate].
    - exists (awardedDoc clk def). rewrite (Hnew eq_refl), lookup_insert_eq.
      repeat split; reflexivity. }
  pose proof (awardBadge_valid clk' u def w1 Hu Hdef) as H2.
  destruct (awardBadge clk' (Some u) (b_id def) w1) as [r2 w2].
  destruct H2 as (Hs2 & Hb2 & Hae2 & Hsame2 & _).
  destruct Hearned as (b & Hb & He & Hdoc).
  assert (alreadyEarned r2 = true) as Hr2 by (apply Hae2; eauto).
  split; [exact Hs1|]. split; [exact Hb1|]. split; [eauto|].
  split.
  { unfold hasBadge. rewrite !truthy_Some; [| |assumption].
    - cbn [negb orb default from_option id]. unfold bind, getBadge. cbv beta.
      rewrite Hb. exact He.
    - intros Hid. pose proof (getBadgeDefinition_catalog def Hdef) as Hg.
      rewrite Hid in Hg. vm_compute in Hg. discriminate. }
  split; [destruct r2; cbn in *; congruence|].
  split; [apply Hsame2, Hr2|]. split; [exact Hst|]. split; [exact Hxp|].
  intros key Hne. destruct (alreadyEarned r1) eqn:E.
  - rewrite (Hsame eq_refl). reflexivity.
  - rewrite (Hnew eq_refl). apply lookup_insert_ne. congruence.
Qed.

Lemma awardBadge_earns_once_witness :
  let w := world (mkDb ∅ ∅ ∅ ∅ ∅) in
  let (r1, w1) := awardBadge (clockAt "2024-W02" Wed) (Some "u1"%string) "committed" w in
  let (r2, w2) := awardBadge (clockAt "2024-W02" Thu) (Some "u1"%string) "committed" w1 in
  success r1 = true ∧ (hasBadge (Some "u1"%string) "committed" w1).1 = true
  ∧ r2 = mkAwardBadge true true (Some (mkBadge "committed" consistency streak_days 7 None 60))
  ∧ db w2 = db w1.
Proof.
  cbv zeta.
  pose proof (awardBadge_earns_once (clockAt "2024-W02" Wed) (clockAt "2024-W02" Thu)
                "u1"%string (mkBadge "committed" consistency streak_days 7 None 60)
                (world (mkDb ∅ ∅ ∅ ∅ ∅))) as H.
  cbn [b_id] in H.
  destruct (awardBadge (clockAt "2024-W02" Wed) (Some "u1"%string) "committed"
              (world (mkDb ∅ ∅ ∅ ∅ ∅))) as [r1 w1].
  destruct (awardBadge (clockAt "2024-W02" Thu) (Some "u1"%string) "committed" w1)
    as [r2 w2].
  destruct H as (H1 & _ & _ & H4 & H5 & H6 & _);
    [discriminate | unfold BADGE_DEFINITIONS; do 11 right; left |].
  repeat split; assumption.
Defined.

(** X18: Without a user id the badge module touches nothing: [hasBadge],
    [awardBadge], [checkAndAwardBadges], [setActiveBadge] and
    [getActiveBadge] return their neutral answer and the store and its
    trace are unchanged.  The same holds for [awardBadge] on an id that is
    not in the catalog and for [hasBadge] on an empty badge id. *)
Theorem badge_module_guards clk userId badgeId criteriaType currentValue emotionType
    activeId w :
  (truthy userId = false ->
     hasBadge userId badgeId w = (false, w)
     ∧ awardBadge clk userId badgeId w = (mkAwardBadge false false None, w)
     ∧ checkAndAwardBadges clk userId criteriaType currentValue emotionType w = ([], w)
     ∧ setActiveBadge userId activeId w = (false, w)
     ∧ getActiveBadge userId w = (None, w))
  ∧ (getBadgeDefinition badgeId = None ->
       awardBadge clk userId badgeId w = (mkAwardBadge false false None, w))
  ∧ hasBadge userId "" w = (false, w).
Proof.
  split; [|split].
  - intros Hu. unfold hasBadge, awardBadge, checkAndAwardBadges, setActiveBadge,
      getActiveBadge. rewrite Hu. cbn [negb orb].
    repeat split. destruct (getBadgeDefinition badgeId); reflexivity.
  - intros Hn. unfold awardBadge. rewrite Hn. reflexivity.
  - unfold hasBadge. cbn. destruct (truthy userId); reflexivity.
Qed.

Lemma badge_module_guards_witness :
  awardBadge (clockAt "2024-W02" Wed) (Some "u1"%string) "no_such_badge"
    (world (mkDb ∅ ∅ ∅ ∅ ∅))
  = (mkAwardBadge false false None, world (mkDb ∅ ∅ ∅ ∅ ∅))
  ∧ checkAndAwardBadges (clockAt "2024-W02" Wed) (Some ""%string) streak_days 7 None
      (world (mkDb ∅ ∅ ∅ ∅ ∅))
    = ([], world (mkDb ∅ ∅ ∅ ∅ ∅)).
Proof.
  split.
  - apply (proj1 (proj2 (badge_module_guards (clockAt "2024-W02" Wed) (Some "u1"%string)
                           "no_such_badge" streak_days 0 None None
                           (world (mkDb ∅ ∅ ∅ ∅ ∅))))). reflexivity.
  - apply (proj1 (badge_module_guards (clockAt "2024-W02" Wed) (Some ""%string)
                    "first_steps" streak_days 7 None None (world (mkDb ∅ ∅ ∅ ∅ ∅)))).
    reflexivity.
Defined.

End BadgeModule.

Section CheckAndAward.

Lemma awardBadge_monotone clk u def w :
  u ≠ ""%string -> def ∈ BADGE_DEFINITIONS ->
  let w' := (awardBadge clk (Some u) (b_id def) w).2 in
  (forall key b, badges (db w) !! key = Some b -> earned b = true ->
     badges (db w') !! key = Some b)
  ∧ (exists b, badges (db w') !! (u, b_id def) = Some b ∧ earned b = true)
  ∧ (forall key, key ≠ (u, b_id def) -> badges (db w') !! key = badges (db w) !! key).
Proof.
  intros Hu Hdef. cbv zeta.
  pose proof (awardBadge_valid clk u def w Hu Hdef) as H.
  destruct (awardBadge clk (Some u) (b_id def) w) as [r w']. cbn [snd].
  destruct H as (_ & _ & Hae & Hsame & Hnew & _).
  destruct (alreadyEarned r) eqn:E.
  - rewrite (Hsame eq_refl). split; [auto|]. split; [apply Hae; reflexivity | auto].
  - rewrite (Hnew eq_refl). split; [|split].
    + intros key b Hb He. rewrite lookup_insert_ne; [exact Hb|].
      intros <-. assert (false = true) as Habs by (apply Hae; eauto). discriminate.
    + exists (awardedDoc clk def). rewrite lookup_insert_eq. split; reflexivity.
    + intros key Hne. apply lookup_insert_ne. congruence.
Qed.

Lemma checkLoop_run clk u criteriaType currentValue emotionType defs acc w :
  u ≠ ""%string -> Forall (fun def => def ∈ BADGE_DEFINITIONS) defs ->
  let applies := badgeApplies criteriaType currentValue emotionType in
  let (res, w') := checkLoop clk (Some u) criteriaType currentValue emotionType defs acc w in
  res = acc ++ List.filter applies defs
  ∧ stats (db w') = stats (db w)
  ∧ xp_events (db w') = xp_events (db w)
  ∧ (forall key b, badges (db w) !! key = Some b -> earned b = true ->
       badges (db w') !! key = Some b)
  ∧ (forall def, In def (List.filter applies defs) ->
       exists b, badges (db w') !! (u, b_id def) = Some b ∧ earned b = true)
  ∧ (forall key, (forall def, In def (List.filter applies defs) -> key ≠ (u, b_id def)) ->
       badges (db w') !! key = badges (db w) !! key).
Proof.
  intros Hu Hall. cbv zeta. revert acc w.
  induction Hall as [|def rest Hdef _ IH]; intros acc w.
  - cbn. rewrite app_nil_r. repeat split; auto. intros def [].
  - cbn [checkLoop List.filter].
    destruct (badgeApplies criteriaType currentValue emotionType def) eqn:Happ.
    + unfold bind.
      pose proof (awardBadge_valid clk u def w Hu Hdef) as Hv.
      pose proof (awardBadge_monotone clk u def w Hu Hdef) as Hm. cbv zeta in Hm.
      destruct (awardBadge clk (Some u) (b_id def) w) as [r w1]. cbn [snd] in Hm.
      destruct Hv as (Hsucc & _ & _ & _ & _ & Hst & Hxp & _).
      destruct Hm as (Hmono & Hearned & Hother).
      rewrite Hsucc. specialize (IH (acc ++ [def]) w1).
      destruct (checkLoop clk (Some u) criteriaType currentValue emotionType rest
                  (acc ++ [def]) w1) as [res w'].
      destruct IH as (Hres & Hst' & Hxp' & Hmono' & Hearned' & Hother').
      split; [rewrite Hres, <- app_assoc; reflexivity|].
      split; [congruence|]. split; [congruence|].
      split; [intros key b Hb He; apply Hmono'; [apply Hmono|]; assumption|].
      split.
      * intros d [<-|Hd]; [|apply Hearned', Hd].
        destruct Hearned as (b & Hb & He). exists b. split; [|exact He].
        apply Hmono'; assumption.
      * intros key Hkey. rewrite Hother'.
        -- apply Hother. apply Hkey. left. reflexivity.
        -- intros d Hd. apply Hkey. right. exact Hd.
    + apply IH.
Qed.

(** X19: [checkAndAwardBadges] returns the catalog badges of the given
    criterion (and emotion, where the badge names one) whose threshold the
    value has reached, in catalog order, and each of them is stored as
    earned afterwards.  It never takes a badge back: every record that was
    stored as earned is still stored, unchanged.  Nothing but the records
    of the returned badges is written. *)
Theorem checkAndAwardBadges_only_earns clk u criteriaType currentValue emotionType w :
  u ≠ ""%string ->
  let (res, w') := checkAndAwardBadges clk (Some u) criteriaType currentValue emotionType w in
  res = List.filter (badgeApplies criteriaType currentValue emotionType) BADGE_DEFINITIONS
  ∧ (forall def, In def res -> earnedFlag w' u (b_id def) = Some true)
  ∧ (forall key b, badges (db w) !! key = Some b -> earned b = true ->
       badges (db w') !! key = Some b)
  ∧ (forall key, (forall def, In def res -> key ≠ (u, b_id def)) ->
       badges (db w') !! key = badges (db w) !! key)
  ∧ stats (db w') = stats (db w)
  ∧ xp_events (db w') = xp_events (db w).
Proof.
  intros Hu. unfold checkAndAwardBadges. rewrite truthy_Some by assumption. cbn [negb].
  pose proof (checkLoop_run clk u criteriaType currentValue emotionType BADGE_DEFINITIONS []
                w Hu) as H.
  cbv zeta in H.
  destruct (checkLoop clk (Some u) criteriaType currentValue emotionType BADGE_DEFINITIONS []
              w) as [res w'].
  destruct H as (Hres & Hst & Hxp & Hmono & Hearned & Hother).
  { apply Forall_forall. auto. }
  cbn [app] in Hres. split; [exact Hres|]. split.
  - intros def Hd. rewrite Hres in Hd. destruct (Hearned def Hd) as (b & Hb & He).
    unfold earnedFlag. rewrite Hb. cbn. rewrite He. reflexivity.
  - split; [exact Hmono|]. split; [|split; assumption].
    intros key Hkey. apply Hother. intros def Hd. apply Hkey. rewrite Hres. exact Hd.
Qed.

Lemma checkAndAwardBadges_only_earns_witness :
  let (res, w') :=
    checkAndAwardBadges (clockAt "2024-W02" Wed) (Some "u1"%string) streak_days 5 None
      (world (mkDb ∅ ∅ ∅ ∅ ∅)) in
  res = [mkBadge "streak_starter" consistency streak_days 3 None 30]
  ∧ earnedFlag w' "u1" "streak_starter" = Some true.
Proof.
  pose proof (checkAndAwardBadges_only_earns (clockAt "2024-W02" Wed) "u1"%string
                streak_days 5 None (world (mkDb ∅ ∅ ∅ ∅ ∅))) as H.
  destruct (checkAndAwardBadges (clockAt "2024-W02" Wed) (Some "u1"%string) streak_days 5
              None (world (mkDb ∅ ∅ ∅ ∅ ∅))) as [res w'].
  destruct H as (Hres & Hearned & _); [discriminate|].
  assert (res = [mkBadge "streak_starter" consistency streak_days 3 None 30]) as Hr
    by (rewrite Hres; vm_compute; reflexivity).
  split; [exact Hr|].
  apply (Hearned (mkBadge "streak_starter" consistency streak_days 3 None 30)).
  rewrite Hr. left. reflexivity.
Defined.

(** X20: [setActiveBadge] and [getActiveBadge] are a round trip on the stats
    document: after setting a badge id for a user, [getActiveBadge] returns
    the catalog entry of that id (nothing for [null], for an empty id or
    for an id that is not in the catalog).  Setting the active badge merges
    one field: the ledger fields and the reconciled fields of the aggregate,
    and all other documents, keep their value.  It does not ask whether the
    badge is earned. *)
Theorem activeBadge_round_trip u badgeId w :
  u ≠ ""%string ->
  let (ok, w') := setActiveBadge (Some u) badgeId w in
  ok = true
  ∧ (getActiveBadge (Some u) w').1
      = (if truthy badgeId then getBadgeDefinition (default ""%string badgeId) else None)
  ∧ (forall def, def ∈ BADGE_DEFINITIONS -> badgeId = Some (b_id def) ->
       (getActiveBadge (Some u) w').1 = Some def)
  ∧ ledgerFields (statsOf w' u) = ledgerFields (statsOf w u)
  ∧ reconciledFields (statsOf w' u) = reconciledFields (statsOf w u)
  ∧ (forall other, other ≠ u -> stats (db w') !! other = stats (db w) !! other)
  ∧ xp_events (db w') = xp_events (db w)
  ∧ badges (db w') = badges (db w).
Proof.
  intros Hu. unfold setActiveBadge. rewrite truthy_Some by assumption.
  cbn [negb default from_option id]. unfold bind, setStatsMerge, putStats, ret.
  cbv beta iota.
  set (w' := mkWorld _ _).
  assert (stats (db w') !! u
          = Some (mergeStats (mkStats None None None None None (Some badgeId) None None None
                                None None None None None None None None)
                    (statsOf w u))) as Hs
    by (subst w'; cbn [db stats]; apply lookup_insert_eq).
  assert ((getActiveBadge (Some u) w').1
          = (if truthy badgeId then getBadgeDefinition (default ""%string badgeId) else None))
    as Hget.
  { unfold getActiveBadge. rewrite truthy_Some by assumption.
    cbn [negb default from_option id]. unfold bind, getStats. cbv beta.
    rewrite Hs. cbn [mergeStats activeBadgeId orElse].
    destruct (truthy badgeId); reflexivity. }
  split; [reflexivity|]. split; [exact Hget|]. split.
  { intros def Hdef ->. rewrite Hget.
    assert (b_id def ≠ ""%string) as Hid.
    { intros Hid. pose proof (getBadgeDefinition_catalog def Hdef) as Hg.
      rewrite Hid in Hg. vm_compute in Hg. discriminate. }
    rewrite truthy_Some by assumption. cbn [default from_option id].
    apply getBadgeDefinition_catalog, Hdef. }
  unfold statsOf at 1 3. rewrite Hs. cbn [default from_option id].
  split; [reflexivity|]. split; [reflexivity|].
  split; [|split; reflexivity].
  intros other Hne. subst w'. cbn [db stats]. apply lookup_insert_ne. congruence.
Qed.

Lemma activeBadge_round_trip_witness :
  let (ok, w') :=
    setActiveBadge (Some "u1"%string) (Some "committed"%string)
      (storeOf "u1" (aggregate 40 40 "2024-W01")) in
  ok = true
  ∧ (getActiveBadge (Some "u1"%string) w').1
    = Some (mkBadge "committed" consistency streak_days 7 None 60)
  ∧ ledgerFields (statsOf w' "u1") = ledgerFields (aggregate 40 40 "2024-W01").
Proof.
  pose proof (activeBadge_round_trip "u1"%string (Some "committed"%string)
                (storeOf "u1" (aggregate 40 40 "2024-W01"))) as H.
  destruct (setActiveBadge (Some "u1"%string) (Some "committed"%string)
              (storeOf "u1" (aggregate 40 40 "2024-W01"))) as [ok w'].
  destruct H as (H1 & _ & H3 & H4 & _); [discriminate|].
  split; [exact H1|]. split; [|exact H4].
  apply (H3 (mkBadge "committed" consistency streak_days 7 None 60));
    [unfold BADGE_DEFINITIONS; do 11 right; left | reflexivity].
Defined.

End CheckAndAward.

(** ** Day keys and week keys *)

Section CalendarFacts.

Lemma allFrom_spec f start count :
  allFrom f start count = true ->
  forall n, start ≤ n < start + Z.of_nat count -> f n = true.
Proof.
  revert start. induction count as [|c IH]; intros start H n Hn; [lia|].
  cbn [allFrom] in H. apply andb_true_iff in H as [H0 Hrest].
  destruct (decide (n = start)) as [->|Hne]; [exact H0|].
  apply (IH (start + 1) Hrest). lia.
Qed.

Lemma dateKeys_checked : allFrom dateKeyRoundTrips 0 (Z.to_nat 47482) = true.
Proof. vm_cast_no_check (eq_refl true). Qed.

Lemma weeks_checked : allFrom weekAdvances 0 (Z.to_nat 6784) = true.
Proof. vm_cast_no_check (eq_refl true). Qed.

Lemma januaries_checked :
  allFrom (fun y => String.eqb (getCurrentWeekKey y 0 4) (pretty y +:+ "-W01")) 1970
          (Z.to_nat 130) = true.
Proof. vm_cast_no_check (eq_refl true). Qed.

Lemma getCurrentDateKey_day ms :
  getCurrentDateKey ms = getCurrentDateKey (ms `div` DAY_MS * DAY_MS).
Proof.
  unfold getCurrentDateKey, Calendar.toISODate.
  rewrite Z.div_mul by (unfold DAY_MS; lia). reflexivity.
Qed.

(** X21: Between 1970-01-01 and 2099-12-31 the day key of an instant reads back,
    as a date, as the UTC midnight of its day; so two instants have the same
    day key exactly when they fall on the same UTC day. *)
Theorem dateKey_round_trip ms ms' :
  0 ≤ ms < 47482 * DAY_MS -> 0 ≤ ms' < 47482 * DAY_MS ->
  IsoDate.parse (getCurrentDateKey ms) = Some (ms `div` DAY_MS * DAY_MS)
  ∧ (getCurrentDateKey ms = getCurrentDateKey ms' <-> ms `div` DAY_MS = ms' `div` DAY_MS).
Proof.
  assert (forall t, 0 ≤ t < 47482 * DAY_MS ->
            IsoDate.parse (getCurrentDateKey t) = Some (t `div` DAY_MS * DAY_MS)) as Hrt.
  { intros t Ht. rewrite getCurrentDateKey_day.
    assert (0 ≤ t `div` DAY_MS < 0 + Z.of_nat (Z.to_nat 47482)) as Hd.
    { unfold DAY_MS in *. split; [apply Z.div_pos; lia|].
      rewrite Z2Nat.id by lia. apply Z.div_lt_upper_bound; lia. }
    pose proof (allFrom_spec _ _ _ dateKeys_checked _ Hd) as Hc.
    unfold dateKeyRoundTrips in Hc.
    destruct (IsoDate.parse _) as [p|]; [|discriminate].
    apply Z.eqb_eq in Hc. rewrite Hc. reflexivity. }
  intros Hms Hms'. split; [apply Hrt, Hms|]. split.
  - intros Heq. pose proof (Hrt ms Hms) as H1. pose proof (Hrt ms' Hms') as H2.
    rewrite Heq, H2 in H1. injection H1 as H1. unfold DAY_MS in *. lia.
  - intros Heq. rewrite (getCurrentDateKey_day ms), (getCurrentDateKey_day ms'), Heq.
    reflexivity.
Qed.

Lemma dateKey_round_trip_witness :
  IsoDate.parse (getCurrentDateKey 1704700800000) = Some (1704700800000 `div` DAY_MS * DAY_MS).
Proof.
  apply (proj1 (dateKey_round_trip 1704700800000 1704700800000 ltac:(unfold DAY_MS; lia)
                  ltac:(unfold DAY_MS; lia))).
Defined.

Lemma thursday_of_day a :
  a + 4 - (if (a + 4) `mod` 7 =? 0 then 7 else (a + 4) `mod` 7) = 7 * ((a + 3) `div` 7).
Proof.
  destruct (Z.eqb_spec ((a + 4) `mod` 7) 0); Z.div_mod_to_equations; lia.
Qed.

Lemma isoWeekOfDay_thursday a : isoWeekOfDay a = isoWeekOfDay (7 * ((a + 3) `div` 7)).
Proof.
  assert (forall d, isoWeekOfDay d =
            let t := d + 4 - (if (d + 4) `mod` 7 =? 0 then 7 else (d + 4) `mod` 7) in
            (Calendar.yearOfDay t,
             (t - IsoDate.daysFromCivil (Calendar.yearOfDay t) 1 1 + 1 + 6) `div` 7)) as Hdef
    by reflexivity.
  rewrite (Hdef a), (Hdef (7 * ((a + 3) `div` 7))). cbv zeta.
  rewrite (thursday_of_day a), (thursday_of_day (7 * ((a + 3) `div` 7))).
  replace ((7 * ((a + 3) `div` 7) + 3) `div` 7) with ((a + 3) `div` 7)
    by (Z.div_mod_to_equations; lia).
  reflexivity.
Qed.

Lemma mondayOf_week a : mondayOf a = 7 * ((a + 3) `div` 7) - 3.
Proof. unfold mondayOf. Z.div_mod_to_equations. lia. Qed.

(** The code [100 * year + week] of week [k], the week of day [7 * k]. *)
Lemma week_code_step k :
  0 ≤ k < 6784 ->
  let c := 100 * (isoWeekOfDay (7 * k)).1 + (isoWeekOfDay (7 * k)).2 in
  let c' := 100 * (isoWeekOfDay (7 * k + 7)).1 + (isoWeekOfDay (7 * k + 7)).2 in
  c < c'
  ∧ 1 ≤ (isoWeekOfDay (7 * k)).2 ≤ 53
  ∧ weekKeyCode (weekKeyOfDay (7 * k)) = Some c.
Proof.
  intros Hk. cbv zeta.
  pose proof (allFrom_spec _ _ _ weeks_checked k ltac:(lia)) as Hc.
  unfold weekAdvances in Hc.
  destruct (isoWeekOfDay (7 * k)) as [y w], (isoWeekOfDay (7 * k + 7)) as [y' w'].
  cbn [fst snd].
  apply andb_true_iff in Hc as [Hc Hkey]. apply andb_true_iff in Hc as [Hw Hnext].
  apply andb_true_iff in Hw as [Hw1 Hw2].
  destruct (weekKeyCode _) as [c|]; [|discriminate]. apply Z.eqb_eq in Hkey.
  split; [|split; [lia|congruence]].
  apply orb_true_iff in Hnext as [Hn|Hn].
  - apply andb_true_iff in Hn as [Hy Hw']. lia.
  - apply andb_true_iff in Hn as [Hn H52]. apply andb_true_iff in Hn as [Hy Hw']. lia.
Qed.

Lemma week_code_mono k1 k2 :
  0 ≤ k1 -> k1 < k2 -> k2 ≤ 6784 ->
  100 * (isoWeekOfDay (7 * k1)).1 + (isoWeekOfDay (7 * k1)).2
  < 100 * (isoWeekOfDay (7 * k2)).1 + (isoWeekOfDay (7 * k2)).2.
Proof.
  intros H0 Hlt. assert (k1 + 1 ≤ k2) as Hle1 by lia. clear Hlt. revert k2 Hle1.
  apply (Zlt_lower_bound_ind
           (fun k2 => k2 ≤ 6784 ->
              100 * (isoWeekOfDay (7 * k1)).1 + (isoWeekOfDay (7 * k1)).2
              < 100 * (isoWeekOfDay (7 * k2)).1 + (isoWeekOfDay (7 * k2)).2) (k1 + 1)).
  intros k2 IH Hk2 Hle.
  destruct (week_code_step (k2 - 1) ltac:(lia)) as (Hstep & _).
  cbv zeta in Hstep. replace (7 * (k2 - 1) + 7) with (7 * k2) in Hstep by lia.
  destruct (decide (k2 = k1 + 1)) as [->|Hne].
  - replace (k1 + 1 - 1) with k1 in Hstep by lia. exact Hstep.
  - pose proof (IH (k2 - 1) ltac:(lia) ltac:(lia)). lia.
Qed.

Lemma januaryFourth_key y :
  1970 ≤ y ≤ 2099 -> getCurrentWeekKey y 0 4 = pretty y +:+ "-W01".
Proof.
  intros Hy.
  assert (1970 ≤ y < 1970 + Z.of_nat (Z.to_nat 130)) as Hr by lia.
  pose proof (allFrom_spec _ 1970 (Z.to_nat 130) januaries_checked y Hr) as Hc.
  cbv beta in Hc. exact (proj1 (String.eqb_eq _ _) Hc).
Qed.

(** X22: For the local dates from 1970-01-01 to 2099-12-31, two dates have the
    same week key exactly when they lie in the same week from Monday to
    Sunday; the week number lies between 1 and 53; and the week of 4 January
    is week 01 of its year, as ISO 8601 numbers the weeks. *)
Theorem weekKey_weeks a b :
  0 ≤ a ≤ 47481 -> 0 ≤ b ≤ 47481 ->
  (weekKeyOfDay a = weekKeyOfDay b <-> mondayOf a = mondayOf b)
  ∧ 1 ≤ (isoWeekOfDay a).2 ≤ 53
  ∧ (forall y, 1970 ≤ y ≤ 2099 -> getCurrentWeekKey y 0 4 = pretty y +:+ "-W01").
Proof.
  intros Ha Hb.
  set (ka := (a + 3) `div` 7). set (kb := (b + 3) `div` 7).
  assert (0 ≤ ka < 6784) as Hka by (subst ka; Z.div_mod_to_equations; lia).
  assert (0 ≤ kb < 6784) as Hkb by (subst kb; Z.div_mod_to_equations; lia).
  assert (weekKeyOfDay a = weekKeyOfDay (7 * ka)) as Ea
    by (unfold weekKeyOfDay; rewrite (isoWeekOfDay_thursday a); reflexivity).
  assert (weekKeyOfDay b = weekKeyOfDay (7 * kb)) as Eb
    by (unfold weekKeyOfDay; rewrite (isoWeekOfDay_thursday b); reflexivity).
  split; [|split].
  - rewrite Ea, Eb, (mondayOf_week a), (mondayOf_week b). fold ka kb. split.
    + intros Hkey.
      destruct (week_code_step ka Hka) as (_ & _ & Hca).
      destruct (week_code_step kb Hkb) as (_ & _ & Hcb).
      cbv zeta in Hca, Hcb.
      assert (100 * (isoWeekOfDay (7 * ka)).1 + (isoWeekOfDay (7 * ka)).2
              = 100 * (isoWeekOfDay (7 * kb)).1 + (isoWeekOfDay (7 * kb)).2) as Hcode
        by congruence.
      destruct (Z.lt_trichotomy ka kb) as [Hlt|[Heq|Hgt]]; [|lia|].
      * pose proof (week_code_mono ka kb ltac:(lia) Hlt ltac:(lia)). lia.
      * pose proof (week_code_mono kb ka ltac:(lia) Hgt ltac:(lia)). lia.
    + intros Heq. replace kb with ka by lia. reflexivity.
  - rewrite (isoWeekOfDay_thursday a). apply (week_code_step ka Hka).
  - apply januaryFourth_key.
Qed.

Lemma weekKey_weeks_witness :
  weekKeyOfDay 19730 = weekKeyOfDay 19736
  ∧ getCurrentWeekKey 2024 0 4 = "2024-W01"%string.
Proof.
  destruct (weekKey_weeks 19730 19736 ltac:(lia) ltac:(lia)) as (Hsame & _ & Hjan).
  split; [apply Hsame; reflexivity|].
  apply (Hjan 2024). lia.
Defined.

End CalendarFacts.

(** ** Daily quests *)

Section DailyQuests.

Lemma awardXpOnce_db clk u key amount metadata w :
  u ≠ ""%string -> key ≠ ""%string -> 0 < amount ->
  db (awardXpOnce clk (Some u) key amount metadata w).2
  = awardEffect clk u key amount metadata (db w).
Proof.
  intros Hu Hk Ha. unfold awardEffect, xpStored.
  destruct (xp_events (db w) !! (u, key)) as [e|] eqn:Hx.
  - rewrite (awardXpOnce_repeat clk u key amount metadata w e) by assumption.
    rewrite bool_decide_eq_true_2 by eauto. reflexivity.
  - rewrite awardXpOnce_fresh by assumption.
    rewrite bool_decide_eq_false_2 by (intros [? ?]; discriminate).
    cbn [snd]. apply granted_db.
Qed.

Lemma awardEffect_facts clk u key amount metadata d :
  let d' := awardEffect clk u key amount metadata d in
  xpStored d' u key = true
  ∧ (forall k, k ≠ key -> xpStored d' u k = xpStored d u k)
  ∧ default 0 (allTimeXP (default emptyStats (stats d' !! u)))
    = default 0 (allTimeXP (default emptyStats (stats d !! u)))
      + (if xpStored d u key then 0 else amount)
  ∧ badges d' = badges d ∧ moments d' = moments d
  ∧ daily_reflections d' = daily_reflections d.
Proof.
  cbv zeta. unfold awardEffect. destruct (xpStored d u key) eqn:Hs.
  - rewrite Hs. repeat split; auto. lia.
  - unfold grantDb, xpStored. cbn [stats xp_events badges moments daily_reflections].
    rewrite !lookup_insert_eq. cbn [default from_option id].
    rewrite allTimeXP_ledgerGrant. cbn [default from_option id].
    split; [apply bool_decide_eq_true_2; eauto|].
    split; [|repeat split; reflexivity].
    intros k Hk. rewrite lookup_insert_ne by congruence. reflexivity.
Qed.

Lemma awardEffect_again clk clk' u key amount md md' d :
  awardEffect clk' u key amount md' (awardEffect clk u key amount md d)
  = awardEffect clk u key amount md d.
Proof.
  destruct (awardEffect_facts clk u key amount md d) as (Hs & _).
  cbv zeta in Hs. unfold awardEffect at 1. rewrite Hs. reflexivity.
Qed.

Lemma quest_keys todayKey :
  ("DAILY_REFLECTIONS_COMPLETED_" +:+ todayKey) ≠ ""%string
  ∧ ("MOMENT_COMPLETED_" +:+ todayKey) ≠ ""%string
  ∧ ("MOMENT_COMPLETED_" +:+ todayKey) ≠ ("DAILY_REFLECTIONS_COMPLETED_" +:+ todayKey).
Proof. cbn. repeat split; discriminate. Qed.

(** The documents [reconcileDailyQuests] leaves. *)
Lemma reconcileDailyQuests_db clk uid todayKey w :
  uid ≠ ""%string ->
  db (reconcileDailyQuests clk uid todayKey w).2 =
    let md := Some {["dateKey"%string := todayKey]} in
    let d1 :=
      if questReflectionDone (db w) uid todayKey
      then awardEffect clk uid ("DAILY_REFLECTIONS_COMPLETED_" +:+ todayKey) 15 md (db w)
      else db w in
    if questMomentToday (db w) uid todayKey
    then awardEffect clk uid ("MOMENT_COMPLETED_" +:+ todayKey) 10 md d1
    else d1.
Proof.
  intros Hu. destruct (quest_keys todayKey) as (Hk1 & Hk2 & _).
  unfold reconcileDailyQuests, questReflectionDone, questMomentToday.
  unfold bind at 1. unfold getMomentsByCreatedAt at 1. cbv beta iota.
  unfold bind at 1. unfold getReflectionDoc at 1. cbv beta iota.
  cbn [db logOp].
  set (r := reflectionsCompleted _). set (m := hasMomentToday _ _).
  set (w0 := logOp _ (logOp _ w)).
  assert (db w0 = db w) as Hw0 by reflexivity.
  unfold bind at 1. destruct r.
  - unfold bind at 1.
    pose proof (awardXpOnce_db clk uid ("DAILY_REFLECTIONS_COMPLETED_" +:+ todayKey) 15
                  (Some {["dateKey"%string := todayKey]}) w0 Hu Hk1 ltac:(lia)) as H1.
    destruct (awardXpOnce clk (Some uid) _ 15 _ w0) as [r1 w1]. cbn [snd] in H1.
    unfold ret at 1. cbv beta iota. destruct m.
    + unfold bind at 1.
      pose proof (awardXpOnce_db clk uid ("MOMENT_COMPLETED_" +:+ todayKey) 10
                    (Some {["dateKey"%string := todayKey]}) w1 Hu Hk2 ltac:(lia)) as H2.
      destruct (awardXpOnce clk (Some uid) _ 10 _ w1) as [r2 w2]. cbn [snd] in H2.
      unfold ret. cbn [snd]. rewrite H2, H1, Hw0. reflexivity.
    + unfold ret. cbn [snd]. rewrite H1, Hw0. reflexivity.
  - unfold ret at 1. cbv beta iota. destruct m.
    + unfold bind at 1.
      pose proof (awardXpOnce_db clk uid ("MOMENT_COMPLETED_" +:+ todayKey) 10
                    (Some {["dateKey"%string := todayKey]}) w0 Hu Hk2 ltac:(lia)) as H2.
      destruct (awardXpOnce clk (Some uid) _ 10 _ w0) as [r2 w2]. cbn [snd] in H2.
      unfold ret. cbn [snd]. rewrite H2, Hw0. reflexivity.
    + reflexivity.
Qed.

(** X23: [reconcileDailyQuests] grants 15 XP for the completed reflection of the
    day and 10 XP for a moment created on the day, each at most once per
    day: [allTimeXP] grows by exactly the grants whose event was not stored
    yet, afterwards the event of every met condition is stored, and running
    it again, at any later time, changes no document.  Badges and the
    activity collections are never written. *)
Theorem dailyQuests_grant_once clk clk' uid todayKey w :
  uid ≠ ""%string ->
  let w1 := (reconcileDailyQuests clk uid todayKey w).2 in
  let w2 := (reconcileDailyQuests clk' uid todayKey w1).2 in
  let kr := ("DAILY_REFLECTIONS_COMPLETED_" +:+ todayKey)%string in
  let km := ("MOMENT_COMPLETED_" +:+ todayKey)%string in
  let r := questReflectionDone (db w) uid todayKey in
  let m := questMomentToday (db w) uid todayKey in
  default 0 (allTimeXP (statsOf w1 uid))
    = default 0 (allTimeXP (statsOf w uid))
      + (if r && negb (xpStored (db w) uid kr) then 15 else 0)
      + (if m && negb (xpStored (db w) uid km) then 10 else 0)
  ∧ (r = true -> xpStored (db w1) uid kr = true)
  ∧ (m = true -> xpStored (db w1) uid km = true)
  ∧ db w2 = db w1
  ∧ badges (db w1) = badges (db w)
  ∧ moments (db w1) = moments (db w)
  ∧ daily_reflections (db w1) = daily_reflections (db w).
Proof.
  intros Hu. cbv zeta. destruct (quest_keys todayKey) as (_ & _ & Hne).
  set (md := Some ({["dateKey"%string := todayKey]} : gmap string string)).
  set (kr := ("DAILY_REFLECTIONS_COMPLETED_" +:+ todayKey)%string) in *.
  set (km := ("MOMENT_COMPLETED_" +:+ todayKey)%string) in *.
  pose proof (reconcileDailyQuests_db clk uid todayKey w Hu) as H1. cbv zeta in H1.
  fold md kr km in H1.
  set (w1 := (reconcileDailyQuests clk uid todayKey w).2) in *.
  pose proof (reconcileDailyQuests_db clk' uid todayKey w1 Hu) as H2. cbv zeta in H2.
  fold md kr km in H2.
  set (r := questReflectionDone (db w) uid todayKey) in *.
  set (m := questMomentToday (db w) uid todayKey) in *.
  set (dA := if r then awardEffect clk uid kr 15 md (db w) else db w) in *.
  destruct (awardEffect_facts clk uid kr 15 md (db w)) as (Ar & Ao & Ax & Ab & Am & Ad).
  destruct (awardEffect_facts clk uid km 10 md dA) as (Br & Bo & Bx & Bb & Bm & Bd).
  cbv zeta in *.
  assert (badges dA = badges (db w) ∧ moments dA = moments (db w)
          ∧ daily_reflections dA = daily_reflections (db w)) as (Fb & Fm & Fd)
    by (subst dA; destruct r; auto).
  assert (xpStored dA uid km = xpStored (db w) uid km) as Hkm
    by (subst dA; destruct r; [apply Ao, Hne | reflexivity]).
  assert (default 0 (allTimeXP (default emptyStats (stats dA !! uid)))
          = default 0 (allTimeXP (default emptyStats (stats (db w) !! uid)))
            + (if r && negb (xpStored (db w) uid kr) then 15 else 0)) as HxA.
  { subst dA. destruct r; cbn [andb]; [|lia]. rewrite Ax.
    destruct (xpStored (db w) uid kr); reflexivity. }
  assert (r = true -> xpStored dA uid kr = true) as HrA
    by (intros Hr; subst dA; rewrite Hr; exact Ar).
  assert (badges (db w1) = badges (db w) ∧ moments (db w1) = moments (db w)
          ∧ daily_reflections (db w1) = daily_reflections (db w)) as (Gb & Gm & Gd).
  { rewrite H1. destruct m; [rewrite Bb, Bm, Bd|]; auto. }
  assert (r = true -> xpStored (db w1) uid kr = true) as Hr1.
  { intros Hr. rewrite H1. destruct m; [|apply HrA, Hr].
    rewrite Bo; [apply HrA, Hr | congruence]. }
  assert (m = true -> xpStored (db w1) uid km = true) as Hm1
    by (intros Hm; rewrite H1, Hm; exact Br).
  split; [|split; [exact Hr1 | split; [exact Hm1 | split; [|auto]]]].
  - unfold statsOf. rewrite H1. destruct m; cbn [andb].
    + rewrite Bx, HxA, Hkm. destruct (xpStored (db w) uid km); cbn [negb]; lia.
    + rewrite HxA. lia.
  - rewrite H2.
    assert (questReflectionDone (db w1) uid todayKey = r) as ->
      by (unfold questReflectionDone, r; rewrite Gd; reflexivity).
    assert (questMomentToday (db w1) uid todayKey = m) as ->
      by (unfold questMomentToday, m; rewrite Gm; reflexivity).
    assert ((if r then awardEffect clk' uid kr 15 md (db w1) else db w1) = db w1) as ->.
    { destruct r eqn:Er; [|reflexivity]. unfold awardEffect. rewrite Hr1; reflexivity. }
    destruct m eqn:Em; [|reflexivity]. unfold awardEffect. rewrite Hm1; reflexivity.
Qed.

Lemma dailyQuests_grant_once_witness :
  let w := mkWorld (mkDb ∅ ∅ ∅
                      {["u1"%string := [("m1"%string,
                                         mkMoment (Some 1704880000000) None None None)]]}
                      {["u1"%string := [completedOn Wed]]}) [] in
  let w1 := (reconcileDailyQuests (clockAt "2024-W02" Wed) "u1" Wed w).2 in
  default 0 (allTimeXP (statsOf w1 "u1")) = 25
  ∧ db (reconcileDailyQuests (clockAt "2024-W02" Thu) "u1" Wed w1).2 = db w1.
Proof.
  cbv zeta.
  destruct (dailyQuests_grant_once (clockAt "2024-W02" Wed) (clockAt "2024-W02" Thu)
              "u1"%string Wed
              (mkWorld (mkDb ∅ ∅ ∅
                          {["u1"%string := [("m1"%string,
                                             mkMoment (Some 1704880000000) None None None)]]}
                          {["u1"%string := [completedOn Wed]]}) []))
    as (Hxp & _ & _ & Hidem & _); [discriminate|].
  split; [|exact Hidem]. rewrite Hxp. vm_compute. reflexivity.
Defined.

End DailyQuests.

(** ** The progress model *)

Section ProgressFacts.
Import Level.

Lemma computeLevel_ranges xp :
  (xp < 50 -> computeLevel xp = 1)
  ∧ (50 ≤ xp < 200 -> computeLevel xp = 2)
  ∧ (200 ≤ xp < 600 -> computeLevel xp = 3)
  ∧ (600 ≤ xp < 1500 -> computeLevel xp = 4)
  ∧ (1500 ≤ xp < 3500 -> computeLevel xp = 5)
  ∧ (3500 ≤ xp < 7500 -> computeLevel xp = 6)
  ∧ (7500 ≤ xp -> computeLevel xp = 7).
Proof.
  rewrite !computeLevel_reached. unfold LEVEL_THRESHOLDS. rewrite !reached_cons.
  change (reached [] xp) with 0.
  repeat split; intros H; repeat case_decide; lia.
Qed.

Lemma nextThresholdOf_ranges xp :
  (xp < 0 -> nextThresholdOf xp = None)
  ∧ (0 ≤ xp < 50 -> nextThresholdOf xp = Some 50)
  ∧ (50 ≤ xp < 200 -> nextThresholdOf xp = Some 200)
  ∧ (200 ≤ xp < 600 -> nextThresholdOf xp = Some 600)
  ∧ (600 ≤ xp < 1500 -> nextThresholdOf xp = Some 1500)
  ∧ (1500 ≤ xp < 3500 -> nextThresholdOf xp = Some 3500)
  ∧ (3500 ≤ xp < 7500 -> nextThresholdOf xp = Some 7500)
  ∧ (7500 ≤ xp -> nextThresholdOf xp = None).
Proof.
  unfold nextThresholdOf, LEVEL_THRESHOLDS. cbn [List.find].
  repeat split; intros H;
    repeat match goal with
           | |- context [?a >? xp] => destruct (Z.gtb_spec a xp); try lia
           end; reflexivity.
Qed.

Ltac table_lookups :=
  repeat match goal with
         | |- context [default 0 (LEVEL_THRESHOLDS !! Z.to_nat ?k)] =>
             let v := eval vm_compute in (default 0 (LEVEL_THRESHOLDS !! Z.to_nat k)) in
             change (default 0 (LEVEL_THRESHOLDS !! Z.to_nat k)) with v
         end; cbn.

(** X24: The progress shown on the home screen agrees with the level
    calculator.  The level is [computeLevel] of the stored XP.  The top
    level is shown from 7500 XP on, with no next threshold and a full bar.
    Below it, for a non-negative XP, the XP lies between the minimum of the
    level and the next threshold, [xpRemaining] is the distance to that
    threshold and is positive, the bar is the fraction of the level's span
    that is covered, at least 0 and less than 1, and the threshold is exactly
    where [computeLevel] moves to the next level. *)
Theorem progress_matches_levels (stats : StatsDoc) :
  let xp := default 0 (allTimeXP stats) in
  let p := progressOf stats in
  Progress.totalXP p = xp
  ∧ Progress.lvl p = computeLevel xp
  ∧ 1 ≤ Progress.lvl p ≤ 7
  ∧ (Progress.isMaxLevel p = true <-> 7500 ≤ xp)
  ∧ (7500 ≤ xp ->
       Progress.nextLevelXP p = None ∧ Progress.xpRemaining p = None
       ∧ Progress.progressToNext p = (1, 1))
  ∧ (0 ≤ xp < 7500 ->
       exists n,
         Progress.nextLevelXP p = Some n
         ∧ Progress.currentLevelMinXP p ≤ xp < n
         ∧ Progress.xpRemaining p = Some (n - xp)
         ∧ Progress.progressToNext p
           = (xp - Progress.currentLevelMinXP p, n - Progress.currentLevelMinXP p)
         ∧ computeLevel (Progress.currentLevelMinXP p) = Progress.lvl p
         ∧ computeLevel (n - 1) = Progress.lvl p
         ∧ computeLevel n = Progress.lvl p + 1).
Proof.
  cbv zeta. unfold progressOf, orZero.
  set (xp := default 0 (allTimeXP stats)).
  cbn [Progress.totalXP Progress.lvl Progress.isMaxLevel Progress.nextLevelXP
       Progress.xpRemaining Progress.progressToNext Progress.currentLevelMinXP].
  destruct (computeLevel_ranges xp) as (L1 & L2 & L3 & L4 & L5 & L6 & L7).
  destruct (nextThresholdOf_ranges xp) as (N0 & N1 & N2 & N3 & N4 & N5 & N6 & N7).
  assert (xp < 0 ∨ 0 ≤ xp < 50 ∨ 50 ≤ xp < 200 ∨ 200 ≤ xp < 600 ∨ 600 ≤ xp < 1500
          ∨ 1500 ≤ xp < 3500 ∨ 3500 ≤ xp < 7500 ∨ 7500 ≤ xp) as Hcases by lia.
  destruct Hcases as [H|[H|[H|[H|[H|[H|[H|H]]]]]]].
  - rewrite (L1 ltac:(lia)), (N0 H). table_lookups.
    repeat split; try lia; try discriminate.
  - rewrite (L1 ltac:(lia)), (N1 H). table_lookups.
    split; [reflexivity|]. split; [reflexivity|]. split; [lia|].
    split; [split; [discriminate|lia]|]. split; [lia|]. intros _.
    exists 50. repeat split; try reflexivity; lia.
  - rewrite (L2 H), (N2 H). table_lookups.
    split; [reflexivity|]. split; [reflexivity|]. split; [lia|].
    split; [split; [discriminate|lia]|]. split; [lia|]. intros _.
    exists 200. repeat split; try reflexivity; lia.
  - rewrite (L3 H), (N3 H). table_lookups.
    split; [reflexivity|]. split; [reflexivity|]. split; [lia|].
    split; [split; [discriminate|lia]|]. split; [lia|]. intros _.
    exists 600. repeat split; try reflexivity; lia.
  - rewrite (L4 H), (N4 H). table_lookups.
    split; [reflexivity|]. split; [reflexivity|]. split; [lia|].
    split; [split; [discriminate|lia]|]. split; [lia|]. intros _.
    exists 1500. repeat split; try reflexivity; lia.
  - rewrite (L5 H), (N5 H). table_lookups.
    split; [reflexivity|]. split; [reflexivity|]. split; [lia|].
    split; [split; [discriminate|lia]|]. split; [lia|]. intros _.
    exists 3500. repeat split; try reflexivity; lia.
  - rewrite (L6 H), (N6 H). table_lookups.
    split; [reflexivity|]. split; [reflexivity|]. split; [lia|].
    split; [split; [discriminate|lia]|]. split; [lia|]. intros _.
    exists 7500. repeat split; try reflexivity; lia.
  - rewrite (L7 H), (N7 H). table_lookups.
    repeat split; try lia; try reflexivity.
Qed.

Lemma progress_matches_levels_witness :
  let p := progressOf (aggregate 120 40 "2024-W01") in
  exists n, Progress.nextLevelXP p = Some n
    ∧ Progress.xpRemaining p = Some (n - 120)
    ∧ computeLevel n = Progress.lvl p + 1.
Proof.
  cbv zeta.
  destruct (progress_matches_levels (aggregate 120 40 "2024-W01")) as (_ & _ & _ & _ & _ & H).
  destruct H as (n & Hn & _ & Hr & _ & _ & _ & Hl); [cbn; lia|].
  exists n. repeat split; assumption.
Defined.

End ProgressFacts.


Section LoadProgress.

Lemma loadProgress_run clk uid w :
  let r := loadProgress clk (Some uid) w in
  match stats (db w) !! uid with
  | Some s => db r.2 = db w ∧ r.1 = Some (progressOf s)
  | None =>
      db r.2 = withStats (db w)
                 (<[uid := progressInitialStats (currentWeekKey clk)]> (stats (db w)))
      ∧ r.1 = Some (progressOf (progressInitialStats (currentWeekKey clk)))
  end.
Proof.
  cbv zeta. unfold loadProgress, bind, getStats. cbv beta.
  destruct (stats (db w) !! uid) as [s|] eqn:Hs.
  - unfold ret. cbn. rewrite Hs. split; reflexivity.
  - unfold putStats, ret. cbn. rewrite lookup_insert_eq. split; reflexivity.
Qed.

(** X25: Loading the progress reads the stats document and writes only when
    it is missing.  Without a signed-in user nothing is read and no model is
    produced.  For a user whose document exists the store is left as it was
    and the model is computed from that document.  For a user without one, a
    document with 0 XP at level 1 is created first; the model then shows
    level 1, 50 XP to the next level and an empty bar.  The document created
    here has no level name and no streak fields, and a later
    [ensureStatsDoc] leaves it as it is, since the document now exists. *)
Theorem loadProgress_creates_or_reads clk clk' uid w :
  let r := loadProgress clk (Some uid) w in
  loadProgress clk None w = (None, w)
  ∧ (forall s, stats (db w) !! uid = Some s ->
       db r.2 = db w ∧ r.1 = Some (progressOf s))
  ∧ (stats (db w) !! uid = None ->
       exists p,
         r.1 = Some p
         ∧ stats (db r.2) !! uid = Some (progressInitialStats (currentWeekKey clk))
         ∧ Progress.totalXP p = 0 ∧ Progress.lvl p = 1
         ∧ Progress.nextLevelXP p = Some 50 ∧ Progress.xpRemaining p = Some 50
         ∧ Progress.progressToNext p = (0, 50) ∧ Progress.activeBadge p = None
         ∧ db (ensureStatsDoc clk' uid r.2).2 = db r.2
         ∧ levelName (progressInitialStats (currentWeekKey clk)) = None
         ∧ streakDays (progressInitialStats (currentWeekKey clk)) = None)
  ∧ (forall other, other ≠ uid -> stats (db r.2) !! other = stats (db w) !! other)
  ∧ xp_events (db r.2) = xp_events (db w)
  ∧ badges (db r.2) = badges (db w).
Proof.
  cbv zeta. pose proof (loadProgress_run clk uid w) as Hrun. cbv zeta in Hrun.
  split; [reflexivity|].
  destruct (stats (db w) !! uid) as [s|] eqn:Hs.
  - destruct Hrun as [Hdb Hres]. rewrite Hdb.
    split; [intros s' [= <-]; split; [reflexivity|exact Hres]|].
    split; [discriminate|]. repeat split; reflexivity.
  - destruct Hrun as [Hdb Hres].
    split; [discriminate|].
    assert (stats (db (loadProgress clk (Some uid) w).2) !! uid
            = Some (progressInitialStats (currentWeekKey clk))) as Hnew.
    { rewrite Hdb. unfold withStats. cbn [stats]. apply lookup_insert_eq. }
    split.
    + intros _. eexists. split; [exact Hres|].
      split; [exact Hnew|].
      rewrite ensureStatsDoc_db, Hnew.
      repeat split; reflexivity.
    + rewrite Hdb. unfold withStats. cbn [stats xp_events badges].
      repeat split; try reflexivity.
      intros other Hne. apply lookup_insert_ne. congruence.
Qed.

Lemma loadProgress_creates_or_reads_witness :
  let w := storeOf "u1" (aggregate 120 40 "2024-W01") in
  let clk := clockAt "2024-W02" "2024-01-08" in
  db (loadProgress clk (Some "u1"%string) w).2 = db w
  ∧ exists p, (loadProgress clk (Some "u2"%string) w).1 = Some p ∧ Progress.lvl p = 1.
Proof.
  cbv zeta.
  destruct (loadProgress_creates_or_reads (clockAt "2024-W02" "2024-01-08")
              (clockAt "2024-W02" "2024-01-08") "u1"
              (storeOf "u1" (aggregate 120 40 "2024-W01"))) as (_ & H1 & _).
  destruct (loadProgress_creates_or_reads (clockAt "2024-W02" "2024-01-08")
              (clockAt "2024-W02" "2024-01-08") "u2"
              (storeOf "u1" (aggregate 120 40 "2024-W01"))) as (_ & _ & H2 & _).
  split.
  - apply (H1 (aggregate 120 40 "2024-W01")). reflexivity.
  - destruct H2 as (p & Hp & _ & _ & Hl & _); [reflexivity|].
    exists p. split; assumption.
Defined.

End LoadProgress.


(** ** The ledger invariant across the engine *)

Section LedgerInvariant.

Lemma ledgerConsistent_frame d d' :
  xp_events d' = xp_events d ->
  (forall u, default 0 (allTimeXP (default emptyStats (stats d' !! u)))
             = default 0 (allTimeXP (default emptyStats (stats d !! u)))) ->
  ledgerConsistent d -> ledgerConsistent d'.
Proof.
  intros Hxp Hst Hc u. rewrite Hst, (xpTotal_same_events d d' u Hxp). apply Hc.
Qed.

Lemma ledgerConsistent_same_stats d d' :
  xp_events d' = xp_events d -> stats d' = stats d ->
  ledgerConsistent d -> ledgerConsistent d'.
Proof.
  intros Hxp Hst. apply ledgerConsistent_frame; [exact Hxp|].
  intros u. rewrite Hst. reflexivity.
Qed.

(* Replacing one user's document by one with the same [allTimeXP] reading. *)
Lemma ledgerConsistent_update d uid s' :
  default 0 (allTimeXP s')
    = default 0 (allTimeXP (default emptyStats (stats d !! uid))) ->
  ledgerConsistent d -> ledgerConsistent (withStats d (<[uid := s']> (stats d))).
Proof.
  intros Hs. apply ledgerConsistent_frame; [reflexivity|].
  intros u. unfold withStats. cbn [stats].
  destruct (decide (u = uid)) as [->|Hne].
  - rewrite lookup_insert_eq. exact Hs.
  - rewrite lookup_insert_ne by congruence. reflexivity.
Qed.

Lemma ensureStatsDoc_ledger clk uid w :
  ledgerConsistent (db w) -> ledgerConsistent (db (ensureStatsDoc clk uid w).2).
Proof.
  intros Hc. rewrite ensureStatsDoc_db.
  destruct (stats (db w) !! uid) as [s|] eqn:Hs; [exact Hc|].
  apply ledgerConsistent_update; [|exact Hc]. rewrite Hs. reflexivity.
Qed.

Lemma reconcileWeeklyReset_ledger clk uid w :
  ledgerConsistent (db w) -> ledgerConsistent (db (reconcileWeeklyReset clk uid w).2).
Proof.
  intros Hc. rewrite reconcileWeeklyReset_db.
  destruct (stats (db w) !! uid) as [s|] eqn:Hs; [|exact Hc].
  destruct (decide (weeklyKey s = Some (currentWeekKey clk))); [exact Hc|].
  apply ledgerConsistent_update; [|exact Hc]. rewrite Hs. reflexivity.
Qed.

Lemma reconcileStatsFromData_ledger parseDate clk uid w :
  ledgerConsistent (db w) ->
  ledgerConsistent (db (reconcileStatsFromData parseDate clk uid w).2).
Proof.
  intros Hc.
  pose proof (reconcileStatsFromData_run parseDate clk uid w) as Hrun. cbv zeta in Hrun.
  destruct (reconcileStatsFromData parseDate clk uid w) as [r w'].
  destruct Hrun as (_ & Hst & Hxp & _). cbn [snd].
  apply (ledgerConsistent_frame (db w)); [exact Hxp| |exact Hc].
  intros u. rewrite Hst.
  destruct (decide (u = uid)) as [->|Hne].
  - rewrite lookup_insert_eq. unfold priorAggregate.
    destruct (stats (db w) !! uid); reflexivity.
  - rewrite lookup_insert_ne by congruence. reflexivity.
Qed.

Lemma reconcileBadges_ledger clk uid w :
  ledgerConsistent (db w) -> ledgerConsistent (db (reconcileBadges clk uid w).2).
Proof.
  intros Hc. destruct (stats (db w) !! uid) as [s|] eqn:Hs.
  - destruct (reconcileBadges_run clk uid w s Hs) as (Hst & Hxp & _).
    exact (ledgerConsistent_same_stats _ _ Hxp Hst Hc).
  - rewrite (reconcileBadges_absent clk uid w Hs). exact Hc.
Qed.

Lemma reconcileDailyQuests_ledger clk uid todayKey w :
  ledgerConsistent (db w) ->
  ledgerConsistent (db (reconcileDailyQuests clk uid todayKey w).2).
Proof.
  intros Hc. unfold reconcileDailyQuests, bind, getMomentsByCreatedAt, getReflectionDoc.
  cbv beta.
  set (w0 := logOp _ (logOp _ w)).
  assert (ledgerConsistent (db w0)) as H0 by exact Hc.
  clearbody w0.
  match goal with
  | |- context [if ?c then _ else _] => destruct c
  end.
  - pose proof (awardXpOnce_ledgerConsistent clk (Some uid)
                  ("DAILY_REFLECTIONS_COMPLETED_" +:+ todayKey) 15
                  (Some {["dateKey"%string := todayKey]}) w0 H0) as H1.
    destruct (awardXpOnce clk (Some uid) ("DAILY_REFLECTIONS_COMPLETED_" +:+ todayKey) 15
                (Some {["dateKey"%string := todayKey]}) w0) as [r1 w1].
    cbn [snd] in H1. unfold ret at 1. cbv beta iota.
    match goal with
    | |- context [if ?c then _ else _] => destruct c
    end; [|exact H1].
    pose proof (awardXpOnce_ledgerConsistent clk (Some uid)
                  ("MOMENT_COMPLETED_" +:+ todayKey) 10
                  (Some {["dateKey"%string := todayKey]}) w1 H1) as H2.
    destruct (awardXpOnce clk (Some uid) ("MOMENT_COMPLETED_" +:+ todayKey) 10
                (Some {["dateKey"%string := todayKey]}) w1) as [r2 w2].
    exact H2.
  - unfold ret at 1. cbv beta iota.
    match goal with
    | |- context [if ?c then _ else _] => destruct c
    end; [|exact H0].
    pose proof (awardXpOnce_ledgerConsistent clk (Some uid)
                  ("MOMENT_COMPLETED_" +:+ todayKey) 10
                  (Some {["dateKey"%string := todayKey]}) w0 H0) as H2.
    destruct (awardXpOnce clk (Some uid) ("MOMENT_COMPLETED_" +:+ todayKey) 10
                (Some {["dateKey"%string := todayKey]}) w0) as [r2 w2].
    exact H2.
Qed.

Lemma awardBadge_ledger clk user badgeId w :
  ledgerConsistent (db w) -> ledgerConsistent (db (awardBadge clk user badgeId w).2).
Proof.
  intros Hc. unfold awardBadge.
  destruct (getBadgeDefinition badgeId) as [def|]; [|exact Hc].
  destruct (negb (truthy user)); [exact Hc|].
  unfold bind, getBadge. cbv beta.
  match goal with
  | |- context [if ?c then _ else _] => destruct c
  end; exact Hc.
Qed.

Lemma checkLoop_ledger clk user criteriaType currentValue emotionType defs :
  forall acc w,
    ledgerConsistent (db w) ->
    ledgerConsistent
      (db (checkLoop clk user criteriaType currentValue emotionType defs acc w).2).
Proof.
  induction defs as [|def rest IH]; intros acc w Hc; [exact Hc|].
  cbn [checkLoop].
  destruct (badgeApplies criteriaType currentValue emotionType def); [|apply IH, Hc].
  unfold bind.
  pose proof (awardBadge_ledger clk user (b_id def) w Hc) as H1.
  destruct (awardBadge clk user (b_id def) w) as [res w1]. apply IH, H1.
Qed.

Lemma setActiveBadge_ledger user badgeId w :
  ledgerConsistent (db w) -> ledgerConsistent (db (setActiveBadge user badgeId w).2).
Proof.
  intros Hc. unfold setActiveBadge.
  destruct (negb (truthy user)); [exact Hc|].
  unfold bind, setStatsMerge, putStats. cbn [snd db].
  apply (ledgerConsistent_update (db w)); [|exact Hc].
  destruct (stats (db w) !! default ""%string user); reflexivity.
Qed.

Lemma loadProgress_ledger clk user w :
  ledgerConsistent (db w) -> ledgerConsistent (db (loadProgress clk user w).2).
Proof.
  intros Hc. destruct user as [uid|]; [|exact Hc].
  pose proof (loadProgress_run clk uid w) as Hrun. cbv zeta in Hrun.
  destruct (stats (db w) !! uid) as [s|] eqn:Hs.
  - destruct Hrun as [-> _]. exact Hc.
  - destruct Hrun as [-> _]. apply ledgerConsistent_update; [|exact Hc].
    rewrite Hs. reflexivity.
Qed.

(** X26: No operation of the engine breaks the ledger.  If, for every user,
    the stored [allTimeXP] is the sum of the amounts of the user's XP events,
    then this still holds after [awardXpOnce], [ensureStatsDoc],
    [reconcileWeeklyReset], [reconcileStatsFromData], [reconcileBadges],
    [reconcileDailyQuests], [awardBadge], [checkAndAwardBadges],
    [setActiveBadge] and [loadProgress], whatever their arguments, and
    after the whole reconcile effect of the home screen. *)
Theorem engine_keeps_ledger_consistent parseDate clk uid w :
  ledgerConsistent (db w) ->
  (forall user key amount metadata,
     ledgerConsistent (db (awardXpOnce clk user key amount metadata w).2))
  ∧ ledgerConsistent (db (ensureStatsDoc clk uid w).2)
  ∧ ledgerConsistent (db (reconcileWeeklyReset clk uid w).2)
  ∧ ledgerConsistent (db (reconcileStatsFromData parseDate clk uid w).2)
  ∧ ledgerConsistent (db (reconcileBadges clk uid w).2)
  ∧ (forall todayKey, ledgerConsistent (db (reconcileDailyQuests clk uid todayKey w).2))
  ∧ (forall user badgeId, ledgerConsistent (db (awardBadge clk user badgeId w).2))
  ∧ (forall user criteriaType currentValue emotionType,
       ledgerConsistent
         (db (checkAndAwardBadges clk user criteriaType currentValue emotionType w).2))
  ∧ (forall user badgeId, ledgerConsistent (db (setActiveBadge user badgeId w).2))
  ∧ (forall user, ledgerConsistent (db (loadProgress clk user w).2))
  ∧ ledgerConsistent (db (reconcileHome clk uid w).2).
Proof.
  intros Hc.
  split; [intros; apply awardXpOnce_ledgerConsistent, Hc|].
  split; [apply ensureStatsDoc_ledger, Hc|].
  split; [apply reconcileWeeklyReset_ledger, Hc|].
  split; [apply reconcileStatsFromData_ledger, Hc|].
  split; [apply reconcileBadges_ledger, Hc|].
  split; [intros; apply reconcileDailyQuests_ledger, Hc|].
  split; [intros; apply awardBadge_ledger, Hc|].
  split.
  { intros user ct v e. unfold checkAndAwardBadges.
    destruct (negb (truthy user)); [exact Hc|]. apply checkLoop_ledger, Hc. }
  split; [intros; apply setActiveBadge_ledger, Hc|].
  split; [intros; apply loadProgress_ledger, Hc|].
  unfold reconcileHome, reconcileOnOpen, bind.
  pose proof (ensureStatsDoc_ledger clk uid w Hc) as H1.
  destruct (ensureStatsDoc clk uid w) as [[] w1]. cbn [snd] in H1.
  pose proof (reconcileWeeklyReset_ledger clk uid w1 H1) as H2.
  destruct (reconcileWeeklyReset clk uid w1) as [[] w2]. cbn [snd] in H2.
  pose proof (reconcileStatsFromData_ledger IsoDate.parse clk uid w2 H2) as H3.
  destruct (reconcileStatsFromData IsoDate.parse clk uid w2) as [r3 w3]. cbn [snd] in H3.
  pose proof (reconcileBadges_ledger clk uid w3 H3) as H4.
  destruct (reconcileBadges clk uid w3) as [[] w4]. cbn [snd] in H4.
  apply reconcileDailyQuests_ledger, H4.
Qed.

Lemma engine_keeps_ledger_consistent_witness :
  ledgerConsistent (db threeDayStore)
  ∧ ledgerConsistent
      (db (reconcileHome (clockAt "2024-W02" Wed) "u1" threeDayStore).2).
Proof.
  assert (ledgerConsistent (db threeDayStore)) as H0.
  { intros uid. reflexivity. }
  split; [exact H0|].
  apply (engine_keeps_ledger_consistent IsoDate.parse (clockAt "2024-W02" Wed) "u1"
           threeDayStore H0).
Defined.

End LedgerInvariant.


(** ** The rewards of a saved moment *)

Section MomentRewards.

Lemma moment_keys eventId :
  ("MOMENT_COMPLETED_" +:+ eventId) ≠ ""%string
  ∧ ("DEPTH_BONUS_" +:+ eventId) ≠ ""%string
  ∧ ("DEPTH_BONUS_" +:+ eventId) ≠ ("MOMENT_COMPLETED_" +:+ eventId).
Proof. cbn. repeat split; discriminate. Qed.

Lemma momentRewards_run clk t uid eventId n w :
  uid ≠ ""%string ->
  let (ok, w') := momentRewards clk t uid eventId n w in
  ok = true ∧ db w' = momentRewardsDb clk t uid eventId n (db w).
Proof.
  intros Hu. destruct (moment_keys eventId) as (Hk1 & Hk2 & _).
  unfold momentRewards, momentRewardsDb.
  unfold bind at 1.
  pose proof (ensureStatsDoc_db clk uid w) as H0.
  destruct (ensureStatsDoc clk uid w) as [[] w0]. cbn [snd] in H0.
  unfold bind at 1. unfold updateMomentStats at 1.
  assert (stats (db w0) !! uid
          = Some (default (initialStats (currentWeekKey clk)) (stats (db w) !! uid))) as Hs0.
  { rewrite H0. destruct (stats (db w) !! uid) as [s|] eqn:Hs; [exact Hs|].
    unfold withStats. cbn [stats default from_option id]. apply lookup_insert_eq. }
  rewrite Hs0.
  set (prior := default (initialStats (currentWeekKey clk)) (stats (db w) !! uid)) in *.
  set (w1 := (putStats uid (momentStatsUpdate t prior) w0).2).
  assert (db w1 = withStats (db w) (<[uid := momentStatsUpdate t prior]> (stats (db w))))
    as H1.
  { subst w1. unfold putStats, withStats. cbn [snd db]. rewrite H0.
    destruct (stats (db w) !! uid) as [s|]; [reflexivity|].
    unfold withStats. cbn [stats xp_events badges moments daily_reflections].
    rewrite insert_insert_eq. reflexivity. }
  clearbody w1. cbv beta iota.
  unfold bind at 1.
  pose proof (awardXpOnce_db clk uid ("MOMENT_COMPLETED_" +:+ eventId) 10
                (Some (<["eventId"%string := eventId]>
                         {["dateKey"%string := currentDateKey clk]})) w1 Hu Hk1 ltac:(lia))
    as H2.
  destruct (awardXpOnce clk (Some uid) ("MOMENT_COMPLETED_" +:+ eventId) 10 _ w1)
    as [r2 w2]. cbn [snd] in H2.
  unfold bind at 1. destruct (n >=? 2).
  - unfold bind at 1.
    pose proof (awardXpOnce_db clk uid ("DEPTH_BONUS_" +:+ eventId) 5
                  (Some {["eventId"%string := eventId]}) w2 Hu Hk2 ltac:(lia)) as H3.
    destruct (awardXpOnce clk (Some uid) ("DEPTH_BONUS_" +:+ eventId) 5 _ w2) as [r3 w3].
    cbn [snd] in H3. unfold ret. cbv beta iota. cbn [fst snd].
    rewrite H3, H2, H1. split; reflexivity.
  - unfold ret. cbv beta iota. cbn [fst snd]. rewrite H2, H1. split; reflexivity.
Qed.

Lemma awardEffect_doc clk u key amount md d :
  let d' := awardEffect clk u key amount md d in
  (is_Some (stats d !! u) -> is_Some (stats d' !! u))
  ∧ reconciledFields (default emptyStats (stats d' !! u))
    = reconciledFields (default emptyStats (stats d !! u)).
Proof.
  cbv zeta. unfold awardEffect. destruct (xpStored d u key); [split; auto|].
  unfold grantDb. cbn [stats]. rewrite lookup_insert_eq. split; [eauto|].
  cbn [default from_option id]. unfold ledgerGrant. cbv zeta.
  apply mergeStats_ledgerPatch_frame.
Qed.

(* What the block leaves, read off [momentRewardsDb]. *)
Lemma momentRewardsDb_facts clk t uid eventId n d :
  let prior := default (initialStats (currentWeekKey clk)) (stats d !! uid) in
  let km := ("MOMENT_COMPLETED_" +:+ eventId)%string in
  let kd := ("DEPTH_BONUS_" +:+ eventId)%string in
  let d' := momentRewardsDb clk t uid eventId n d in
  let s' := default emptyStats (stats d' !! uid) in
  is_Some (stats d' !! uid)
  ∧ momentsCount s' = Some (default 0 (momentsCount prior) + 1)
  ∧ lastMomentAt s' = Some (Some t)
  ∧ emotionCounts s' = emotionCounts prior
  ∧ default 0 (allTimeXP s')
    = default 0 (allTimeXP prior)
      + (if xpStored d uid km then 0 else 10)
      + (if (n >=? 2) && negb (xpStored d uid kd) then 5 else 0)
  ∧ xpStored d' uid km = true
  ∧ ((n >=? 2) = true -> xpStored d' uid kd = true)
  ∧ badges d' = badges d ∧ moments d' = moments d
  ∧ daily_reflections d' = daily_reflections d.
Proof.
  cbv zeta. destruct (moment_keys eventId) as (_ & _ & Hne).
  unfold momentRewardsDb. cbv zeta.
  set (prior := default (initialStats (currentWeekKey clk)) (stats d !! uid)).
  set (km := ("MOMENT_COMPLETED_" +:+ eventId)%string) in *.
  set (kd := ("DEPTH_BONUS_" +:+ eventId)%string) in *.
  set (md := Some (<["eventId"%string := eventId]>
                     ({["dateKey"%string := currentDateKey clk]} : gmap string string))).
  set (md' := Some ({["eventId"%string := eventId]} : gmap string string)).
  set (d1 := withStats d (<[uid := momentStatsUpdate t prior]> (stats d))).
  assert (stats d1 !! uid = Some (momentStatsUpdate t prior)) as Hs1
    by (subst d1; unfold withStats; cbn [stats]; apply lookup_insert_eq).
  assert (xp_events d1 = xp_events d) as Hx1 by reflexivity.
  destruct (awardEffect_facts clk uid km 10 md d1) as (Ar & Ao & Ax & Ab & Am & Ad).
  destruct (awardEffect_doc clk uid km 10 md d1) as (As & Af).
  cbv zeta in *.
  set (d2 := awardEffect clk uid km 10 md d1) in *.
  destruct (awardEffect_facts clk uid kd 5 md' d2) as (Br & Bo & Bx & Bb & Bm & Bd).
  destruct (awardEffect_doc clk uid kd 5 md' d2) as (Bs & Bf).
  cbv zeta in *.
  assert (xpStored d1 uid km = xpStored d uid km) as Hk1
    by (unfold xpStored; rewrite Hx1; reflexivity).
  assert (xpStored d2 uid kd = xpStored d uid kd) as Hk2.
  { rewrite (Ao kd Hne). unfold xpStored. rewrite Hx1. reflexivity. }
  rewrite Hs1 in Af, Ax. cbn [default from_option id] in Af, Ax.
  assert (is_Some (stats d2 !! uid)) as Hs2 by (apply As; rewrite Hs1; eauto).
  assert (reconciledFields (default emptyStats (stats d2 !! uid))
          = reconciledFields (momentStatsUpdate t prior)) as Hf2 by exact Af.
  assert (default 0 (allTimeXP (default emptyStats (stats d2 !! uid)))
          = default 0 (allTimeXP prior) + (if xpStored d uid km then 0 else 10)) as Hx2.
  { rewrite Ax, Hk1. reflexivity. }
  destruct (n >=? 2) eqn:Hn; cbn [andb].
  - rewrite Bx, Hx2, Hk2. rewrite Bb, Bm, Bd, Ab, Am, Ad.
    assert (reconciledFields
              (default emptyStats (stats (awardEffect clk uid kd 5 md' d2) !! uid))
            = reconciledFields (momentStatsUpdate t prior)) as Hf3
      by (rewrite Bf; exact Hf2).
    injection Hf3 as -> _ _ _ _ -> _ _ ->.
    split; [apply Bs, Hs2|].
    split; [reflexivity|]. split; [reflexivity|]. split; [reflexivity|].
    split; [destruct (xpStored d uid kd); cbn [negb]; lia|].
    split; [rewrite Bo by congruence; exact Ar|].
    split; [intros _; exact Br|].
    repeat split; reflexivity.
  - rewrite Hx2, Ab, Am, Ad.
    injection Hf2 as -> _ _ _ _ -> _ _ ->.
    split; [exact Hs2|].
    split; [reflexivity|]. split; [reflexivity|]. split; [reflexivity|].
    split; [lia|]. split; [exact Ar|]. split; [discriminate|].
    repeat split; reflexivity.
Qed.

(** X27: The reward block of [handleSubmit].  For a signed-in user it always
    runs to its end.  It counts the moment ([momentsCount] one more than
    before, 0 counted for a missing document or field) and stamps
    [lastMomentAt]; it grants 10 XP for the event unless its XP event is
    stored already, and 5 XP more when there are at least two depth signals,
    again unless stored already; afterwards those XP events are stored.
    Badges and the activity collections are not written.  Running the block
    a second time for the same event grants no XP, yet counts the moment
    once more. *)
Theorem momentRewards_effect clk clk' t t' uid eventId n w :
  uid ≠ ""%string ->
  let prior := priorAggregate clk w uid in
  let km := ("MOMENT_COMPLETED_" +:+ eventId)%string in
  let kd := ("DEPTH_BONUS_" +:+ eventId)%string in
  let r1 := momentRewards clk t uid eventId n w in
  let r2 := momentRewards clk' t' uid eventId n r1.2 in
  r1.1 = true
  ∧ momentsCount (statsOf r1.2 uid) = Some (default 0 (momentsCount prior) + 1)
  ∧ lastMomentAt (statsOf r1.2 uid) = Some (Some t)
  ∧ default 0 (allTimeXP (statsOf r1.2 uid))
    = default 0 (allTimeXP prior)
      + (if xpStored (db w) uid km then 0 else 10)
      + (if (n >=? 2) && negb (xpStored (db w) uid kd) then 5 else 0)
  ∧ xpStored (db r1.2) uid km = true
  ∧ (2 ≤ n -> xpStored (db r1.2) uid kd = true)
  ∧ badges (db r1.2) = badges (db w)
  ∧ moments (db r1.2) = moments (db w)
  ∧ daily_reflections (db r1.2) = daily_reflections (db w)
  ∧ default 0 (allTimeXP (statsOf r2.2 uid)) = default 0 (allTimeXP (statsOf r1.2 uid))
  ∧ momentsCount (statsOf r2.2 uid) = Some (default 0 (momentsCount prior) + 2).
Proof.
  intros Hu. cbv zeta.
  pose proof (momentRewards_run clk t uid eventId n w Hu) as H1.
  destruct (momentRewards clk t uid eventId n w) as [ok1 w1]. destruct H1 as [-> H1].
  cbn [fst snd].
  pose proof (momentRewards_run clk' t' uid eventId n w1 Hu) as H2.
  destruct (momentRewards clk' t' uid eventId n w1) as [ok2 w2]. destruct H2 as [_ H2].
  cbn [snd]. unfold statsOf, priorAggregate. rewrite H2, H1.
  destruct (momentRewardsDb_facts clk t uid eventId n (db w))
    as (F0 & F1 & F2 & _ & F4 & F5 & F6 & F7 & F8 & F9).
  destruct (momentRewardsDb_facts clk' t' uid eventId n
              (momentRewardsDb clk t uid eventId n (db w)))
    as (_ & G1 & _ & _ & G4 & _).
  cbv zeta in *.
  destruct F0 as [s1 Hs1]. rewrite Hs1 in *. cbn [default from_option id] in *.
  rewrite F5 in G4.
  split; [reflexivity|]. split; [exact F1|]. split; [exact F2|]. split; [exact F4|].
  split; [exact F5|].
  split; [intros Hn; apply F6; apply Z.geb_le; lia|].
  split; [exact F7|]. split; [exact F8|]. split; [exact F9|].
  split.
  - rewrite G4. destruct (n >=? 2) eqn:Hn; cbn [andb]; [|lia].
    rewrite (F6 eq_refl). cbn [negb]. lia.
  - rewrite G1, F1. cbn [default from_option id]. f_equal. lia.
Qed.

Lemma momentRewards_effect_witness :
  let r1 := momentRewards (clockAt "2024-W02" Wed) 1704880000000 "u1" "e1"
              (depthSignals ["work"%string] "" 3 0) (world (mkDb ∅ ∅ ∅ ∅ ∅)) in
  r1.1 = true
  ∧ momentsCount (statsOf r1.2 "u1") = Some 1
  ∧ default 0 (allTimeXP (statsOf r1.2 "u1")) = 15.
Proof.
  cbv zeta.
  destruct (momentRewards_effect (clockAt "2024-W02" Wed) (clockAt "2024-W02" Wed)
              1704880000000 1704880000000 "u1"%string "e1"%string
              (depthSignals ["work"%string] "" 3 0) (world (mkDb ∅ ∅ ∅ ∅ ∅)))
    as (H1 & H2 & _ & H4 & _); [discriminate|].
  split; [exact H1|]. split; [exact H2|]. exact H4.
Defined.

Lemma reconciledFields_merge_updates parseDate clk ms rs p p' :
  emotionCounts p = emotionCounts p' ->
  reconciledFields (mergeStats (statsUpdates parseDate clk ms rs) p)
  = reconciledFields (mergeStats (statsUpdates parseDate clk ms rs) p').
Proof.
  intros H. unfold reconciledFields, mergeStats, statsUpdates.
  cbn [momentsCount reflectionsCount streakDays bestStreakDays journeyDay lastMomentAt
       lastReflectionAt depthMoments emotionCounts orElse].
  rewrite H. reflexivity.
Qed.

(** X28: The count written when a moment is saved does not survive the next
    reconcile.  [reconcileStatsFromData] recomputes every field it owns from
    the [moments] and [daily_reflections] collections, and the reward block
    writes to neither: after the block, a reconcile leaves exactly the
    values it would have left without the block, so [momentsCount] is again
    the number of documents in [moments], and [lastMomentAt] the latest
    creation time among them. *)
Theorem reconcile_overrides_moment_save parseDate clk clk' t uid eventId n w :
  uid ≠ ""%string ->
  let w1 := (momentRewards clk t uid eventId n w).2 in
  let sA := statsOf (reconcileStatsFromData parseDate clk' uid w1).2 uid in
  let sB := statsOf (reconcileStatsFromData parseDate clk' uid w).2 uid in
  reconciledFields sA = reconciledFields sB
  ∧ momentsCount sA = Some (Z.of_nat (length (default [] (moments (db w) !! uid))))
  ∧ momentsCount (statsOf w1 uid)
    = Some (default 0 (momentsCount (priorAggregate clk w uid)) + 1).
Proof.
  intros Hu. cbv zeta.
  pose proof (momentRewards_run clk t uid eventId n w Hu) as H1.
  destruct (momentRewards clk t uid eventId n w) as [ok1 w1]. destruct H1 as [_ H1].
  cbn [snd].
  destruct (momentRewardsDb_facts clk t uid eventId n (db w))
    as (F0 & F1 & _ & F3 & _ & _ & _ & _ & F8 & F9).
  cbv zeta in *. rewrite <- H1 in *.
  pose proof (reconcileStatsFromData_run parseDate clk' uid w1) as HA. cbv zeta in HA.
  destruct (reconcileStatsFromData parseDate clk' uid w1) as [uA wA].
  destruct HA as (_ & HA & _).
  pose proof (reconcileStatsFromData_run parseDate clk' uid w) as HB. cbv zeta in HB.
  destruct (reconcileStatsFromData parseDate clk' uid w) as [uB wB].
  destruct HB as (_ & HB & _).
  cbn [snd]. unfold statsOf. rewrite HA, HB, !lookup_insert_eq.
  cbn [default from_option id]. rewrite F8, F9.
  split; [|split; [reflexivity | exact F1]].
  apply reconciledFields_merge_updates.
  unfold priorAggregate. destruct F0 as [s1 Hs1]. rewrite Hs1 in *.
  cbn [default from_option id] in *. rewrite F3.
  destruct (stats (db w) !! uid); reflexivity.
Qed.

Lemma reconcile_overrides_moment_save_witness :
  let w := world (mkDb ∅ ∅ ∅ ∅ ∅) in
  let w1 := (momentRewards (clockAt "2024-W02" Wed) 1704880000000 "u1" "e1" 2 w).2 in
  momentsCount (statsOf w1 "u1") = Some 1
  ∧ momentsCount
      (statsOf (reconcileStatsFromData IsoDate.parse (clockAt "2024-W02" Wed) "u1" w1).2 "u1")
    = Some 0.
Proof.
  cbv zeta.
  destruct (reconcile_overrides_moment_save IsoDate.parse (clockAt "2024-W02" Wed)
              (clockAt "2024-W02" Wed) 1704880000000 "u1"%string "e1"%string 2
              (world (mkDb ∅ ∅ ∅ ∅ ∅))) as (_ & H2 & H3); [discriminate|].
  split; [exact H3 | exact H2].
Defined.

End MomentRewards.


(** ** Completing the daily reflection *)

Section MarkComplete.

Lemma upsertDoc_find {A} id (v : A) docs :
  List.find (fun d : string * A => String.eqb d.1 id) (upsertDoc id v docs) = Some (id, v).
Proof.
  induction docs as [|d rest IH]; cbn [upsertDoc List.find fst].
  - rewrite String.eqb_refl. reflexivity.
  - destruct (String.eqb d.1 id) eqn:E; cbn [List.find fst].
    + rewrite String.eqb_refl. reflexivity.
    + rewrite E. exact IH.
Qed.

Lemma upsertDoc_elem {A} id (v : A) docs : (id, v) ∈ upsertDoc id v docs.
Proof.
  induction docs as [|d rest IH]; cbn [upsertDoc]; [left|].
  destruct (String.eqb d.1 id); [left | right; exact IH].
Qed.

Lemma markComplete_db clk uid w :
  uid ≠ ""%string ->
  db (markComplete clk (Some uid) true true w).2 =
    let d := db w in
    let d1 := mkDb (stats d) (xp_events d) (badges d) (moments d)
                   (<[uid := reflectionsAfterComplete clk uid d]> (daily_reflections d)) in
    let d2 :=
      match stats d !! uid with
      | Some _ => d1
      | None => withStats d1 (<[uid := initialStats (currentWeekKey clk)]> (stats d))
      end in
    awardEffect clk uid ("DAILY_REFLECTIONS_COMPLETED_" +:+ currentDateKey clk) 15
      (Some {["dateKey"%string := currentDateKey clk]}) d2.
Proof.
  intros Hu. destruct (quest_keys (currentDateKey clk)) as (Hk & _).
  unfold markComplete. cbn [negb orb]. cbv zeta.
  unfold bind at 1. unfold setReflectionCompleted at 1. cbv beta iota zeta.
  set (w1 := mkWorld _ _).
  unfold bind at 1.
  pose proof (ensureStatsDoc_db clk uid w1) as H2.
  destruct (ensureStatsDoc clk uid w1) as [[] w2]. cbn [snd] in H2.
  unfold bind at 1.
  pose proof (awardXpOnce_db clk uid ("DAILY_REFLECTIONS_COMPLETED_" +:+ currentDateKey clk)
                15 (Some {["dateKey"%string := currentDateKey clk]}) w2 Hu Hk ltac:(lia))
    as H3.
  destruct (awardXpOnce clk (Some uid) _ 15 _ w2) as [r3 w3]. cbn [snd] in H3.
  unfold ret. cbn [snd]. rewrite H3, H2. subst w1. cbn [db stats].
  destruct (stats (db w) !! uid); reflexivity.
Qed.

Lemma today_in_completedDates clk uid d :
  currentDateKey clk ∈ completedDates (reflectionsAfterComplete clk uid d).
Proof.
  unfold completedDates, reflectionsAfterComplete.
  set (doc := (currentDateKey clk,
               mkReflection true (Some (currentDateKey clk)) (Some (now clk)))).
  assert (reflectionDateKey doc = currentDateKey clk) as Hk.
  { unfold reflectionDateKey, doc. cbn [snd fst r_dateKey default from_option id].
    destruct (truthy (Some (currentDateKey clk))); reflexivity. }
  apply list_elem_of_fmap. exists doc. split; [symmetry; exact Hk|].
  apply list_elem_of_filter. split; [reflexivity|].
  apply upsertDoc_elem.
Qed.

(** X29: The reward for the daily reflection is granted once, whichever of its
    two callers comes first.  When the component marks today's reflection
    completed, the document reads as completed, 15 XP are granted unless the
    XP event of the day is stored already, and a later
    [reconcileDailyQuests] for the day grants nothing more for the
    reflection: it adds only the 10 XP of the moment quest, when that is due.
    With a date key that reads as a date, the next reconcile of the same day
    reports a streak of at least 1.  Without a user, or before all answers
    are given, [markComplete] does nothing. *)
Theorem reflection_reward_once parseDate clk clk' uid w :
  uid ≠ ""%string ->
  let today := currentDateKey clk in
  let kr := ("DAILY_REFLECTIONS_COMPLETED_" +:+ today)%string in
  let km := ("MOMENT_COMPLETED_" +:+ today)%string in
  let w1 := (markComplete clk (Some uid) true true w).2 in
  let w2 := (reconcileDailyQuests clk' uid today w1).2 in
  questReflectionDone (db w1) uid today = true
  ∧ default 0 (allTimeXP (statsOf w1 uid))
    = default 0 (allTimeXP (statsOf w uid)) + (if xpStored (db w) uid kr then 0 else 15)
  ∧ xpStored (db w1) uid kr = true
  ∧ default 0 (allTimeXP (statsOf w2 uid))
    = default 0 (allTimeXP (statsOf w1 uid))
      + (if questMomentToday (db w) uid today && negb (xpStored (db w) uid km)
         then 10 else 0)
  ∧ (is_Some (parseDate today) ->
       exists s, streakDays (reconcileStatsFromData parseDate clk uid w1).1 = Some s
                 ∧ 1 ≤ s)
  ∧ moments (db w1) = moments (db w)
  ∧ badges (db w1) = badges (db w)
  ∧ (forall c r, markComplete clk None c r w = (tt, w))
  ∧ (forall r, markComplete clk (Some uid) false r w = (tt, w))
  ∧ (forall c, markComplete clk (Some uid) c false w = (tt, w)).
Proof.
  intros Hu. cbv zeta. destruct (quest_keys (currentDateKey clk)) as (_ & _ & Hne).
  set (today := currentDateKey clk) in *.
  set (kr := ("DAILY_REFLECTIONS_COMPLETED_" +:+ today)%string) in *.
  set (km := ("MOMENT_COMPLETED_" +:+ today)%string) in *.
  set (md := Some ({["dateKey"%string := today]} : gmap string string)).
  pose proof (markComplete_db clk uid w Hu) as H1. cbv zeta in H1.
  fold today kr md in H1.
  set (w1 := (markComplete clk (Some uid) true true w).2) in *.
  set (d1 := mkDb (stats (db w)) (xp_events (db w)) (badges (db w)) (moments (db w))
                  (<[uid := reflectionsAfterComplete clk uid (db w)]>
                     (daily_reflections (db w)))) in *.
  set (d2 := match stats (db w) !! uid with
             | Some _ => d1
             | None => withStats d1 (<[uid := initialStats (currentWeekKey clk)]>
                                       (stats (db w)))
             end) in *.
  assert (xp_events d2 = xp_events (db w) ∧ badges d2 = badges (db w)
          ∧ moments d2 = moments (db w)
          ∧ daily_reflections d2 !! uid = Some (reflectionsAfterComplete clk uid (db w))
          ∧ default 0 (allTimeXP (default emptyStats (stats d2 !! uid)))
            = default 0 (allTimeXP (default emptyStats (stats (db w) !! uid))))
    as (Ex & Eb & Em & Er & Ea).
  { subst d2 d1. destruct (stats (db w) !! uid) as [s|] eqn:Hs;
      unfold withStats; cbn [stats xp_events badges moments daily_reflections];
      rewrite ?lookup_insert_eq, ?Hs; repeat split; reflexivity. }
  destruct (awardEffect_facts clk uid kr 15 md d2) as (Ar & Ao & Ax & Ab & Am & Ad).
  cbv zeta in *. rewrite <- H1 in Ar, Ao, Ax, Ab, Am, Ad.
  assert (xpStored d2 uid kr = xpStored (db w) uid kr) as Hkr
    by (unfold xpStored; rewrite Ex; reflexivity).
  assert (xpStored (db w1) uid km = xpStored (db w) uid km) as Hkm.
  { rewrite (Ao km Hne). unfold xpStored. rewrite Ex. reflexivity. }
  assert (questReflectionDone (db w1) uid today = true) as Hq.
  { unfold questReflectionDone. rewrite Ad, Er. cbn [default from_option id].
    unfold reflectionsAfterComplete. fold today. rewrite upsertDoc_find. reflexivity. }
  assert (questMomentToday (db w1) uid today = questMomentToday (db w) uid today) as Hm.
  { unfold questMomentToday. rewrite Am, Em. reflexivity. }
  split; [exact Hq|].
  split; [unfold statsOf; rewrite Ax, Ea, Hkr; reflexivity|].
  split; [exact Ar|].
  split.
  { pose proof (reconcileDailyQuests_db clk' uid today w1 Hu) as H2. cbv zeta in H2.
    fold kr km md in H2. unfold statsOf. rewrite H2, Hq, Hm.
    assert (awardEffect clk' uid kr 15 md (db w1) = db w1) as ->
      by (unfold awardEffect; rewrite Ar; reflexivity).
    destruct (questMomentToday (db w) uid today); cbn [andb]; [|lia].
    destruct (awardEffect_facts clk' uid km 10 md (db w1)) as (_ & _ & Bx & _).
    cbv zeta in Bx. rewrite Bx, Hkm.
    destruct (xpStored (db w) uid km); reflexivity. }
  split.
  { intros [t Ht].
    pose proof (reconcileStatsFromData_run parseDate clk uid w1) as Hrun. cbv zeta in Hrun.
    destruct (reconcileStatsFromData parseDate clk uid w1) as [r wr].
    destruct Hrun as (-> & _). cbn [fst].
    destruct (statsUpdates_streak parseDate clk (default [] (moments (db w1) !! uid))
                (default [] (daily_reflections (db w1) !! uid))) as [Hs _].
    cbv zeta in Hs. eexists. split; [exact Hs|].
    rewrite Ad, Er. cbn [default from_option id].
    pose proof (today_in_completedDates clk uid (db w)) as Hin. fold today in Hin.
    rewrite bool_decide_eq_true_2 by exact Hin.
    apply streakWalk_positive. intros Hnil.
    assert (t ∈ sortedDates parseDate
                  (completedDates (reflectionsAfterComplete clk uid (db w)))) as Ht'.
    { unfold sortedDates. rewrite merge_sort_Permutation.
      apply list_elem_of_omap. exists today. split; assumption. }
    rewrite Hnil in Ht'. inversion Ht'. }
  split; [rewrite Am; exact Em|]. split; [rewrite Ab; exact Eb|].
  split; [reflexivity|]. split; [reflexivity|].
  intros c. unfold markComplete. destruct c; reflexivity.
Qed.

Lemma reflection_reward_once_witness :
  let w := world (mkDb ∅ ∅ ∅ ∅ ∅) in
  let w1 := (markComplete (clockAt "2024-W02" Wed) (Some "u1"%string) true true w).2 in
  default 0 (allTimeXP (statsOf w1 "u1")) = 15
  ∧ default 0 (allTimeXP
                 (statsOf (reconcileDailyQuests (clockAt "2024-W02" Thu) "u1" Wed w1).2 "u1"))
    = 15
  ∧ exists s, streakDays (reconcileStatsFromData IsoDate.parse (clockAt "2024-W02" Wed)
                            "u1" w1).1 = Some s ∧ 1 ≤ s.
Proof.
  cbv zeta.
  destruct (reflection_reward_once IsoDate.parse (clockAt "2024-W02" Wed)
              (clockAt "2024-W02" Thu) "u1"%string (world (mkDb ∅ ∅ ∅ ∅ ∅)))
    as (_ & H2 & _ & H4 & H5 & _); [discriminate|].
  split; [exact H2|]. split.
  - change (currentDateKey (clockAt "2024-W02" Wed)) with Wed in H4.
    rewrite H4, H2. reflexivity.
  - apply H5. vm_compute. eauto.
Defined.

End MarkComplete.


(** ** Level names *)

Section LevelNames.
Import Level.

Lemma computeLevelName_table l :
  1 ≤ l ≤ 7 -> LEVEL_NAMES !! Z.to_nat (l - 1) = Some (computeLevelName l).
Proof.
  intros Hl.
  assert (l = 1 ∨ l = 2 ∨ l = 3 ∨ l = 4 ∨ l = 5 ∨ l = 6 ∨ l = 7) as Hc by lia.
  destruct Hc as [->|[->|[->|[->|[->|[->| ->]]]]]]; reflexivity.
Qed.

Lemma computeLevelName_clamp l :
  computeLevelName l = computeLevelName (Z.min (Z.max l 1) 7).
Proof.
  unfold computeLevelName. change (Z.of_nat (length LEVEL_NAMES)) with 7.
  replace (Z.min (Z.max (Z.min (Z.max l 1) 7) 1) 7) with (Z.min (Z.max l 1) 7) by lia.
  reflexivity.
Qed.

Lemma computeLevelName_injective l l' :
  1 ≤ l ≤ 7 -> 1 ≤ l' ≤ 7 -> computeLevelName l = computeLevelName l' -> l = l'.
Proof.
  intros Hl Hl' Heq.
  assert (l = 1 ∨ l = 2 ∨ l = 3 ∨ l = 4 ∨ l = 5 ∨ l = 6 ∨ l = 7) as Hc by lia.
  assert (l' = 1 ∨ l' = 2 ∨ l' = 3 ∨ l' = 4 ∨ l' = 5 ∨ l' = 6 ∨ l' = 7) as Hc' by lia.
  destruct Hc as [->|[->|[->|[->|[->|[->| ->]]]]]];
    destruct Hc' as [->|[->|[->|[->|[->|[->| ->]]]]]];
    first [reflexivity | vm_compute in Heq; discriminate Heq].
Qed.

(** X30: The level name clamps its argument and tells the levels apart.  A level
    below 1 is named like level 1 and a level above 7 like level 7; for a
    level from 1 to 7 the name is the entry of [LEVEL_NAMES] at that level,
    so the fallback name is never needed; and two amounts of XP are given
    the same level name only if they are on the same level. *)
Theorem levelName_separates_levels (l xp xp' : Z) :
  computeLevelName l = computeLevelName (Z.min (Z.max l 1) 7)
  ∧ (l ≤ 1 -> computeLevelName l = "levels.beginner"%string)
  ∧ (7 ≤ l -> computeLevelName l = "levels.sage"%string)
  ∧ (1 ≤ l ≤ 7 -> LEVEL_NAMES !! Z.to_nat (l - 1) = Some (computeLevelName l))
  ∧ (computeLevelName (computeLevel xp) = computeLevelName (computeLevel xp')
     <-> computeLevel xp = computeLevel xp').
Proof.
  split; [apply computeLevelName_clamp|].
  split; [intros H; rewrite computeLevelName_clamp;
          replace (Z.min (Z.max l 1) 7) with 1 by lia; reflexivity|].
  split; [intros H; rewrite computeLevelName_clamp;
          replace (Z.min (Z.max l 1) 7) with 7 by lia; reflexivity|].
  split; [apply computeLevelName_table|].
  split; [|intros ->; reflexivity].
  assert (forall x, 1 ≤ computeLevel x ≤ 7) as Hb.
  { intros x. destruct (computeLevel_ranges x) as (L1 & L2 & L3 & L4 & L5 & L6 & L7).
    assert (x < 50 ∨ 50 ≤ x < 200 ∨ 200 ≤ x < 600 ∨ 600 ≤ x < 1500
            ∨ 1500 ≤ x < 3500 ∨ 3500 ≤ x < 7500 ∨ 7500 ≤ x) as Hc by lia.
    destruct Hc as [H|[H|[H|[H|[H|[H|H]]]]]];
      [rewrite (L1 H)|rewrite (L2 H)|rewrite (L3 H)|rewrite (L4 H)|rewrite (L5 H)
       |rewrite (L6 H)|rewrite (L7 H)]; lia. }
  apply computeLevelName_injective; apply Hb.
Qed.

Lemma levelName_separates_levels_witness :
  computeLevelName 0 = "levels.beginner"%string
  ∧ computeLevelName 12 = "levels.sage"%string
  ∧ LEVEL_NAMES !! Z.to_nat (3 - 1) = Some (computeLevelName 3).
Proof.
  destruct (levelName_separates_levels 0 0 0) as (_ & H1 & _).
  destruct (levelName_separates_levels 12 0 0) as (_ & _ & H2 & _).
  destruct (levelName_separates_levels 3 0 0) as (_ & _ & _ & H3 & _).
  split; [apply H1; lia|]. split; [apply H2; lia | apply H3; lia].
Defined.

End LevelNames.
